(** * DeepHall: the training control loop and the configuration loader

    A shallow embedding of [deephall/train.py] (the generator [train_loop],
    its consumer [train] and the signal handler [GracefulKiller]) and of
    [from_dict] of [deephall/config.py], with the properties the design
    document states about them.

    Python data are modelled as the code has them: [int] as [Z], [float]
    (binary64) as the primitive [float], [str] as [string], [None]-able
    values as [option], arrays indexed by position as lists.  Of a JAX
    array of energies only the class of each entry (NaN, infinite,
    finite) is read, which the primitive [float] has as well.  Effects
    (the signal table, the killer object, the local variables of [train],
    the checkpoint store, the log) live in one [world] record that is
    threaded through a state-and-exception monad. *)

From Stdlib Require Import ZArith List String Bool Lia Floats.
From stdpp Require Import base option list strings gmap.
Import ListNotations.

Local Open Scope string_scope.
Local Open Scope Z_scope.
Local Open Scope list_scope.

(** ** Python primitives *)

Module Py.

(** Exceptions that can leave the modelled code.  [ProcessKilled] stands
    for the operating system's default action on a signal; it is not a
    Python exception: nothing of the program runs after it, not even the
    exit of a [with] statement. *)
Inductive exn : Type :=
| SystemExit (msg : string)
| ZeroDivisionError
| KeyboardInterrupt
| ProcessKilled
| CheckpointIOError
| ValueError
| IndexError.

Inductive result (A : Type) : Type :=
| Ok (a : A)
| Raise (e : exn).
Arguments Ok {A} a.
Arguments Raise {A} e.

(** [a % b] on Python integers: the result has the sign of the divisor,
    as [Z.modulo] has, and a zero divisor raises. *)
Definition py_mod (a b : Z) : result Z :=
  if b =? 0 then Raise ZeroDivisionError else Ok (a mod b).

(** [range(a, b)] as the list of its elements. *)
Definition py_range (a b : Z) : list Z :=
  map (fun k => a + Z.of_nat k) (seq 0 (Z.to_nat (b - a))).

(** [range(n)] only matters through its length when the loop variable is
    unused. *)
Definition py_range_len (n : Z) : nat := Z.to_nat n.

(** [s * n] on strings. *)
Fixpoint str_repeat (s : string) (n : nat) : string :=
  match n with
  | O => ""
  | S n' => String.append s (str_repeat s n')
  end.

(** The conversion of an [int] to a [float], correctly rounded. *)
Definition float_of_int (z : Z) : float :=
  SF2Prim (SpecFloat.binary_normalize 53 1024 z 0 false).

(** A complex number as its real and imaginary parts. *)
Definition complex : Type := float * float.
Definition real (c : complex) : float := fst c.
Definition imag (c : complex) : float := snd c.

(** [jnp.isnan(a).any()] on a one-dimensional array. *)
Definition isnan_any (a : list float) : bool := existsb PrimFloat.is_nan a.

(** Neither NaN nor an infinity. *)
Definition isfinite (x : float) : bool :=
  negb (PrimFloat.is_nan x) && negb (PrimFloat.is_infinity x).

End Py.
Export Py.

(** ** The configuration record ([deephall/config.py])

    The dataclasses of the configuration, with the fields the control
    loop reads. *)

Module Config.

Inductive OptimizerName : Type := adam | kfac | none.

Definition OptimizerName_eqb (a b : OptimizerName) : bool :=
  match a, b with
  | adam, adam | kfac, kfac | none, none => true
  | _, _ => false
  end.

Record System : Type := mkSystem {
  nspins : Z * Z }.

Record MCMC : Type := mkMCMC {
  steps : Z;
  width : float;
  burn_in : Z;
  adapt_frequency : Z }.

Record Optim : Type := mkOptim {
  iterations : Z;
  optimizer : option OptimizerName }.

Record Log : Type := mkLog {
  save_path : option string;
  restore_path : option string;
  save_time_interval : Z;
  save_step_interval : Z;
  initial_energy : bool }.

Record t : Type := mkConfig {
  batch_size : Z;
  seed : Z;
  system : System;
  mcmc : MCMC;
  optim : Optim;
  log : Log }.

(** [cfg.optim.optimizer == OptimizerName.none] *)
Definition optimizer_is_none (c : t) : bool :=
  match optimizer (optim c) with
  | Some o => OptimizerName_eqb o none
  | None => false
  end.

(** [a != b] on two [str | None] values. *)
Definition path_ne (a b : option string) : bool :=
  match a, b with
  | Some x, Some y => negb (String.eqb x y)
  | None, None => false
  | _, _ => true
  end.

End Config.

(** ** External collaborators

    The network, the sampler, the optimizer step and JAX's random keys are
    outside the control loop; they are opaque types and functions, given
    once in a record. *)

Record CheckpointState (P D O : Type) : Type := mkCheckpointState {
  params : P;
  data : D;
  opt_state : option O;
  mcmc_width : float }.
Arguments mkCheckpointState {P D O} _ _ _ _.
Arguments params {P D O} _.
Arguments data {P D O} _.
Arguments opt_state {P D O} _.
Arguments mcmc_width {P D O} _.

Record Externals : Type := mkExternals {
  Params : Type;
  Data : Type;
  OptState : Type;
  Key : Type;
  Stats : Type;
  (* jax.random.PRNGKey, jax.random.split *)
  PRNGKey : Z -> Key;
  random_split : Key -> Key * Key;
  (* kfac_jax.utils.make_different_rng_key_on_all_devices, p_split *)
  device_keys : Key -> Key;
  p_split : Key -> Key * Key;
  (* init_guess followed by the reshape over the devices *)
  init_guess : Key -> Z -> Z -> Data;
  (* model.init on the first sample, replicated *)
  model_init : Key -> Data -> Params;
  (* the pair returned by optimizers.make_optimizer_step *)
  opt_init : Params -> Key -> Data -> OptState;
  training_step :
    CheckpointState Params Data OptState -> Key ->
    CheckpointState Params Data OptState * Stats;
  (* the pmapped sampler: new data and the acceptance rate *)
  pmap_mcmc_step : Params -> Data -> Key -> float -> Data * float;
  (* the pmapped energy loss used for the initial energy *)
  energy_loss : Params -> Data -> Stats;
  (* stats["energy"], one complex value per device *)
  energy : Stats -> list complex;
  (* the rescaling of the width from a full window of acceptance rates *)
  rescale_width : list float -> float -> float }.

Definition State (X : Externals) : Type :=
  CheckpointState (Params X) (Data X) (OptState X).

(** [state._replace(data=d, mcmc_width=w)] *)
Definition replace_data_width {P D O : Type}
    (s : CheckpointState P D O) (d : D) (w : float) : CheckpointState P D O :=
  mkCheckpointState (params s) d (opt_state s) w.

(** ** Signals and the environment of a run *)

Inductive signum : Type := SIGINT | SIGTERM.

(** What can be installed for a signal: the three handlers a process
    starts with, the bound method [killer.exit_gracefully] of the killer
    of this run, and the same method of the killer of an earlier call of
    [train] in the process.  A killer puts its originals back the first
    time its method runs, so one whose method is still installed has not
    been reached by a signal: [earlier_method oi ot] is the method of
    such a killer, which remembers [oi] and [ot]. *)
Inductive handler : Type :=
| SIG_DFL
| SIG_IGN
| default_int_handler
| exit_gracefully_method
| earlier_method (oi ot : handler).

(** What the program cannot decide: the checkpoint found at the restore
    location, the readings of [time.time()] (one before the loop, one in
    each iteration), the signals handled during an iteration, and whether
    writing a checkpoint fails.  Python runs a handler between two
    bytecodes of the main thread; what the loop can tell apart is whether
    it ran before the first [if] of the iteration read the stop flag
    ([signals]) or after that and before the second [if] read it
    ([late_signals]), or after the second [if] read it and before the
    generator is resumed ([after_signals]).  For the loop the last are
    as good as [signals] of the next iteration, except after the last
    iteration, where the loop ends with the flag they set. *)
Record Env (X : Externals) : Type := mkEnv {
  restore_found : option (Z * State X);
  clock0 : float;
  clock : Z -> float;
  signals : Z -> list signum;
  late_signals : Z -> list signum;
  after_signals : Z -> list signum;
  save_fails : Z -> bool }.
Arguments restore_found {X} _.
Arguments clock0 {X} _.
Arguments clock {X} _ _.
Arguments signals {X} _ _.
Arguments late_signals {X} _ _.
Arguments after_signals {X} _ _.
Arguments save_fails {X} _ _.

(** ** Observable effects *)

Inductive log_line : Type :=
| LogStartVMC
| LogBurnInComplete
| LogInitialEnergy (e : float)
| LogTimePerStep (t : float).

Inductive event : Type :=
| EvInitLogging
| EvRestore
| EvLogInfo (l : log_line)
| EvSampler
| EvController (t : Z)
| EvOptInit
| EvTrainingStep (step : Z)
| EvWriterHide
| EvWriterLog (step : Z)
| EvForceFlush
| EvWriterExit
| EvSaveCheckpoint (step : Z)
| EvPrint (s : string).

(** ** The world and its monad *)

(** The object [killer]: the class attribute [kill_now] and the two
    instance attributes set by [__init__]. *)
Record GracefulKiller : Type := mkKiller {
  kill_now : bool;
  original_int : handler;
  original_term : handler }.

(** The local variables of [train]. *)
Record Frame : Type := mkFrame {
  time_start : option float;
  steps : Z;
  last_save_time : float;
  current_time : option float }.

Record world (X : Externals) : Type := mkWorld {
  sig_int : handler;
  sig_term : handler;
  killer : GracefulKiller;
  frame : Frame;
  saved : list (Z * State X);
  trace : list event }.
Arguments mkWorld {X} _ _ _ _ _ _.
Arguments sig_int {X} _.
Arguments sig_term {X} _.
Arguments killer {X} _.
Arguments frame {X} _.
Arguments saved {X} _.
Arguments trace {X} _.

Module M.
Section Monad.
Context {X : Externals}.

Definition t (A : Type) : Type := world X -> result A * world X.

Definition ret {A : Type} (a : A) : t A := fun w => (Ok a, w).

Definition bind {A B : Type} (c : t A) (k : A -> t B) : t B :=
  fun w =>
    match c w with
    | (Ok a, w') => k a w'
    | (Raise e, w') => (Raise e, w')
    end.

Definition raise {A : Type} (e : exn) : t A := fun w => (Raise e, w).

(** A pure computation that may raise, run inside the monad. *)
Definition lift {A : Type} (r : result A) : t A := fun w => (r, w).

Definition get : t (world X) := fun w => (Ok w, w).

Definition modify (f : world X -> world X) : t unit := fun w => (Ok tt, f w).

Definition emit (e : event) : t unit :=
  modify (fun w =>
    mkWorld (sig_int w) (sig_term w) (killer w) (frame w) (saved w)
            (trace w ++ [e])).

Definition set_killer (k : GracefulKiller) : t unit :=
  modify (fun w =>
    mkWorld (sig_int w) (sig_term w) k (frame w) (saved w) (trace w)).

Definition set_frame (f : Frame) : t unit :=
  modify (fun w =>
    mkWorld (sig_int w) (sig_term w) (killer w) f (saved w) (trace w)).

Definition persist (c : Z * State X) : t unit :=
  modify (fun w =>
    mkWorld (sig_int w) (sig_term w) (killer w) (frame w) (saved w ++ [c])
            (trace w)).

(** [with ...: body]: the context manager's exit runs however the body
    ends, by a return or by an exception; it does not run when the
    process was killed. *)
Definition finally {A : Type} (body : t A) (exit : t unit) : t A :=
  fun w =>
    match body w with
    | (Raise ProcessKilled, w') => (Raise ProcessKilled, w')
    | (r, w') =>
        match exit w' with
        | (Ok _, w'') => (r, w'')
        | (Raise e, w'') => (Raise e, w'')
        end
    end.

(** A loop body run [n] times, threading a value. *)
Fixpoint iterate {A : Type} (n : nat) (body : A -> t A) (a : A) : t A :=
  match n with
  | O => ret a
  | S n' => bind (body a) (iterate n' body)
  end.

End Monad.
Arguments t : clear implicits.
End M.

Notation "x <- c ;; k" := (M.bind c (fun x => k))
  (at level 100, c at next level, right associativity).
Notation "c ;;; k" := (M.bind c (fun _ => k))
  (at level 100, right associativity).

(** ** The signal table and [GracefulKiller] *)

Module Signal.
Section Signal.
Context {X : Externals}.

Definition handler_of (s : signum) (w : world X) : handler :=
  match s with
  | SIGINT => sig_int w
  | SIGTERM => sig_term w
  end.

(** [signal.signal(s, h)]: installs [h] and returns the handler it
    replaces. *)
Definition signal (s : signum) (h : handler) : M.t X handler :=
  fun w =>
    match s with
    | SIGINT =>
        (Ok (sig_int w),
         mkWorld h (sig_term w) (killer w) (frame w) (saved w) (trace w))
    | SIGTERM =>
        (Ok (sig_term w),
         mkWorld (sig_int w) h (killer w) (frame w) (saved w) (trace w))
    end.

(** [GracefulKiller.__init__] *)
Definition killer_init : M.t X unit :=
  oi <- signal SIGINT exit_gracefully_method ;;
  ot <- signal SIGTERM exit_gracefully_method ;;
  M.set_killer (mkKiller false oi ot).

(** [GracefulKiller.exit_gracefully] *)
Definition exit_gracefully (s : signum) : M.t X unit :=
  w <- M.get ;;
  if kill_now (killer w) then M.ret tt
  else
    M.emit (EvPrint "\r") ;;;
    (_ <- signal SIGINT (original_int (killer w)) ;;
     _ <- signal SIGTERM (original_term (killer w)) ;;
     M.set_killer
       (mkKiller true (original_int (killer w)) (original_term (killer w)))).


(** The delivery of one signal: the installed handler runs.  The method
    of an earlier killer finds its own flag unset: it prints, puts its
    originals back and sets its flag, which nothing of this run reads. *)
Definition deliver (s : signum) : M.t X unit :=
  w <- M.get ;;
  match handler_of s w with
  | exit_gracefully_method => exit_gracefully s
  | earlier_method oi ot =>
      M.emit (EvPrint "\r") ;;;
      (_ <- signal SIGINT oi ;;
       _ <- signal SIGTERM ot ;;
       M.ret tt)
  | SIG_IGN => M.ret tt
  | default_int_handler => M.raise KeyboardInterrupt
  | SIG_DFL => M.raise ProcessKilled
  end.

Fixpoint deliver_all (l : list signum) : M.t X unit :=
  match l with
  | [] => M.ret tt
  | s :: l' => deliver s ;;; deliver_all l'
  end.

End Signal.
End Signal.

(** ** Collaborators of this repository that the loop calls *)

Module LogManager.
Section LogManager.
Context {X : Externals} (env : Env X) (cfg : Config.t).

(** Modelled from the spec: [LogManager.try_restore_checkpoint] of
    [deephall/log.py].  It returns the most recent valid checkpoint of
    the restore location, and absence if no restore location is
    configured or none is found. *)
Definition try_restore_checkpoint : M.t X (option (Z * State X)) :=
  M.emit EvRestore ;;;
  M.ret (match Config.restore_path (Config.log cfg) with
         | None => None
         | Some _ => restore_found env
         end).

(** Modelled from the spec: [LogManager.save_checkpoint] of
    [deephall/log.py].  It persists [(step, state)] to the save location
    when one is configured and does nothing otherwise; a write that fails
    raises. *)
Definition save_checkpoint (step : Z) (state : State X) : M.t X unit :=
  M.emit (EvSaveCheckpoint step) ;;;
  match Config.save_path (Config.log cfg) with
  | None => M.ret tt
  | Some _ =>
      if save_fails env step then M.raise CheckpointIOError
      else M.persist (step, state)
  end.

End LogManager.
End LogManager.

Module mcmc.
Section mcmc.
Context {X : Externals}.

(** Modelled from the spec: [mcmc.update_mcmc_width] of
    [deephall/mcmc.py].  On every call it writes the latest acceptance
    rate into the window slot [t mod N]; exactly when [(t + 1) mod N = 0]
    it rescales the width from the window, and on all other calls the
    width is returned unchanged. *)
Definition update_mcmc_width (t : Z) (width : float) (N : Z)
    (pmove : float) (pmoves : list float) : result (float * list float) :=
  match py_mod t N with
  | Raise e => Raise e
  | Ok slot =>
      let pmoves' := <[Z.to_nat slot := pmove]> pmoves in
      match py_mod (t + 1) N with
      | Raise e => Raise e
      | Ok r =>
          if r =? 0 then Ok (rescale_width X pmoves' width, pmoves')
          else Ok (width, pmoves')
      end
  end.

End mcmc.
End mcmc.

(** ** [train_loop], [train] *)

Module Train.
Section Train.
Context {X : Externals} (env : Env X) (cfg : Config.t).

(** [initialize_state] *)
Definition initialize_state : Z * State X :=
  let '(key_data, key_params) := random_split X (PRNGKey X (Config.seed cfg)) in
  let d :=
    init_guess X key_data (Config.batch_size cfg)
      (fst (Config.nspins (Config.system cfg))
       + snd (Config.nspins (Config.system cfg))) in
  let p := model_init X key_params d in
  (0, mkCheckpointState p d None (Config.width (Config.mcmc cfg))).

(** [setup_mcmc]: the sampler is an external; the window is
    [np.zeros(adapt_frequency)], which refuses a negative length. *)
Definition setup_mcmc : M.t X (list float) :=
  let n := Config.adapt_frequency (Config.mcmc cfg) in
  if n <? 0 then M.raise ValueError
  else M.ret (repeat 0%float (Z.to_nat n)).

(** The warm-start test of [train_loop]. *)
Definition warm_start : bool :=
  Config.optimizer_is_none cfg
  && (match Config.restore_path (Config.log cfg) with
      | Some _ => true
      | None => false
      end)
  && Config.path_ne (Config.restore_path (Config.log cfg))
                    (Config.save_path (Config.log cfg)).

(** What the generator holds between two [yield]s. *)
Record GenState : Type := mkGen {
  initial_step : Z;
  state : State X;
  sharded_key : Key X;
  pmoves : list float }.

(** One round of the burn-in loop. *)
Definition burn_in_round (p : Params X) (width : float)
    (kd : Key X * Data X) : M.t X (Key X * Data X) :=
  let '(sharded_key, subkey) := p_split X (fst kd) in
  M.emit EvSampler ;;;
  M.ret (sharded_key, fst (pmap_mcmc_step X p (snd kd) subkey width)).

(** The body of [if initial_step == 0:]. *)
Definition burn_in_phase (p : Params X) (width : float)
    (kd : Key X * Data X) : M.t X (Key X * Data X) :=
  kd' <- M.iterate (py_range_len (Config.burn_in (Config.mcmc cfg)))
           (burn_in_round p width) kd ;;
  M.emit (EvLogInfo LogBurnInComplete) ;;;
  (if Config.initial_energy (Config.log cfg) then
     match energy X (energy_loss X p (snd kd')) with
     | [] => M.raise IndexError
     | e0 :: _ => M.emit (EvLogInfo (LogInitialEnergy (real e0)))
     end
   else M.ret tt) ;;;
  M.ret kd'.

(** The restore-or-initialize assignment of [train_loop] followed by its
    warm-start [if]: the resolved initial step and the adopted state. *)
Definition resolve_checkpoint : M.t X (Z * State X) :=
  r <- LogManager.try_restore_checkpoint env cfg ;;
  let '(restored_step, st) :=
    match r with
    | Some x => x
    | None => initialize_state
    end in
  M.ret (if warm_start then 0 else restored_step, st).

(** [train_loop] up to its [for] statement. *)
Definition train_loop_start : M.t X GenState :=
  pmoves <- setup_mcmc ;;
  let sharded_key := device_keys X (PRNGKey X (Config.seed cfg)) in
  c <- resolve_checkpoint ;;
  let '(initial_step, st) := c in
  ko <- match opt_state st with
        | None =>
            let '(sharded_key', subkey) := p_split X sharded_key in
            M.emit EvOptInit ;;;
            M.ret (sharded_key', opt_init X (params st) subkey (data st))
        | Some o => M.ret (sharded_key, o)
        end ;;
  M.emit (EvLogInfo LogStartVMC) ;;;
  kd <- (if initial_step =? 0
         then burn_in_phase (params st) (mcmc_width st) (fst ko, data st)
         else M.ret (fst ko, data st)) ;;
  M.ret (mkGen initial_step
           (mkCheckpointState (params st) (snd kd) (Some (snd ko))
                              (mcmc_width st))
           (fst kd) pmoves).

(** What one [yield] hands to [train]. *)
Record Yielded : Type := mkYielded {
  y_step : Z;
  y_state : State X;
  y_stats : Stats X;
  y_pmove : float }.

(** One iteration of the [for] statement of [train_loop], up to its
    [yield]. *)
Definition train_loop_body (g : GenState) (step : Z)
    : M.t X (Yielded * GenState) :=
  let '(sharded_key, subkey) := p_split X (sharded_key g) in
  let st := state g in
  M.emit EvSampler ;;;
  let '(new_data, pmove) :=
    pmap_mcmc_step X (params st) (data st) subkey (mcmc_width st) in
  M.emit (EvController (step - initial_step g)) ;;;
  wp <- M.lift (mcmc.update_mcmc_width (X:=X) (step - initial_step g)
                  (mcmc_width st)
                  (Config.adapt_frequency (Config.mcmc cfg))
                  pmove (pmoves g)) ;;
  let st' := replace_data_width st new_data (fst wp) in
  let '(sharded_key', subkey') := p_split X sharded_key in
  M.emit (EvTrainingStep step) ;;;
  let '(st'', stats) := training_step X st' subkey' in
  M.ret (mkYielded step st'' stats pmove,
         mkGen (initial_step g) st'' sharded_key' (snd wp)).

(** [jnp.isnan(stats["energy"].real).any()] *)
Definition energy_isnan (stats : Stats X) : bool :=
  isnan_any (map real (energy X stats)).

(** The condition of the first [if] of the loop of [train], with its
    short-circuit evaluation: the modulo is computed only when the three
    conditions before it are false and the time condition is true.  The
    time condition compares a [float] with the [int] of the
    configuration.  Python compares the two exactly; here the integer is
    converted to a float first, which gives the same comparison as long
    as the conversion is exact, that is for an interval of magnitude at
    most [2^53]. *)
Definition save_trigger (step : Z) (stats : Stats X) (now : float)
    : M.t X bool :=
  w <- M.get ;;
  if energy_isnan stats then M.ret true
  else if step =? Config.iterations (Config.optim cfg) - 1 then M.ret true
  else if kill_now (killer w) then M.ret true
  else if PrimFloat.ltb
            (float_of_int (Config.save_time_interval (Config.log cfg)))
            (PrimFloat.sub now (last_save_time (frame w)))
  then r <- M.lift (py_mod (step + 1)
                      (Config.save_step_interval (Config.log cfg))) ;;
       M.ret (r =? 0)
  else M.ret false.

(** The message of the [SystemExit] raised by [train]. *)
Definition abort_banner : string :=
  String.append (str_repeat "=" 30)
    (String.append " ABORT " (str_repeat "=" 30)).

(** The first statements of the body of the [for] statement of [train]:
    the log line, the reading of the clock, and the step counter that
    skips the first iteration. *)
Definition log_and_tick (y : Yielded) : M.t X unit :=
  M.emit (EvWriterLog (y_step y)) ;;;
  w <- M.get ;;
  let now := clock env (y_step y) in
  let f := frame w in
  M.set_frame
    (match time_start f with
     | None => mkFrame (Some now) (steps f) (last_save_time f) (Some now)
     | Some t0 =>
         mkFrame (Some t0) (steps f + 1) (last_save_time f) (Some now)
     end).

(** The body of the first [if]: the three statements in their order. *)
Definition save_now (y : Yielded) : M.t X unit :=
  w <- M.get ;;
  let f := frame w in
  M.set_frame
    (mkFrame (time_start f) (steps f) (clock env (y_step y))
             (current_time f)) ;;;
  M.emit EvForceFlush ;;;
  LogManager.save_checkpoint env cfg (y_step y) (y_state y).

(** The second [if]. *)
Definition abort_check (y : Yielded) : M.t X unit :=
  w <- M.get ;;
  if kill_now (killer w) || energy_isnan (y_stats y)
  then M.raise (SystemExit abort_banner)
  else M.ret tt.

(** The body of the [for] statement of [train], run without a signal
    handled between its two [if]s. *)
Definition train_body (y : Yielded) : M.t X unit :=
  log_and_tick y ;;;
  trig <- save_trigger (y_step y) (y_stats y) (clock env (y_step y)) ;;
  (if trig then save_now y else M.ret tt) ;;;
  abort_check y.

(** The body up to the end of its first [if]. *)
Definition save_stage (y : Yielded) : M.t X unit :=
  log_and_tick y ;;;
  trig <- save_trigger (y_step y) (y_stats y) (clock env (y_step y)) ;;
  (if trig then save_now y else M.ret tt).

(** The body of the [for] statement of [train] when the signals [late]
    are handled after its first [if] has read the stop flag and before
    its second [if] reads it.  [train_body] is the case of no such
    signal. *)
Definition train_body_with (late : list signum) (y : Yielded) : M.t X unit :=
  save_stage y ;;;
  Signal.deliver_all late ;;;
  abort_check y.

(** The [for] statement of [train] driving the generator: each element of
    the range resumes [train_loop] for one iteration, the signals that
    arrived meanwhile are handled, and the body of [train] runs on what
    was yielded, with the late signals of the step handled between its
    two [if]s and the remaining ones after the second. *)
Fixpoint main_loop (l : list Z) (g : GenState) : M.t X unit :=
  match l with
  | [] => M.ret tt
  | step :: l' =>
      yg <- train_loop_body g step ;;
      Signal.deliver_all (signals env step) ;;;
      train_body_with (late_signals env step) (fst yg) ;;;
      Signal.deliver_all (after_signals env step) ;;;
      main_loop l' (snd yg)
  end.

(** [train] *)
Definition train : M.t X unit :=
  M.emit EvInitLogging ;;;
  M.set_frame (mkFrame None 0 (clock0 env) None) ;;;
  Signal.killer_init ;;;
  M.finally
    (M.emit EvWriterHide ;;;
     g <- train_loop_start ;;
     main_loop
       (py_range (initial_step g) (Config.iterations (Config.optim cfg))) g)
    (M.emit EvWriterExit) ;;;
  w <- M.get ;;
  match time_start (frame w), current_time (frame w) with
  | Some t0, Some now =>
      if 0 <? steps (frame w) then
        M.emit (EvLogInfo (LogTimePerStep
                  (PrimFloat.div (PrimFloat.sub now t0)
                                 (float_of_int (steps (frame w))))))
      else M.ret tt
  | _, _ => M.ret tt
  end.

End Train.
Arguments initial_step {X} _.
Arguments state {X} _.
Arguments sharded_key {X} _.
Arguments pmoves {X} _.
Arguments y_step {X} _.
Arguments y_state {X} _.
Arguments y_stats {X} _.
Arguments y_pmove {X} _.
Arguments mkGen {X} _ _ _ _.
Arguments mkYielded {X} _ _ _ _.
Arguments GenState : clear implicits.
Arguments Yielded : clear implicits.
End Train.

(** ** A concrete instance, for running the model

    Keys, parameters and data are counters: the sampler increments the
    data, the training step increments the parameters and reads its
    statistics from a script indexed by the parameters, so that on a
    fresh run the statistics of step [s] are [script s]. *)

Module Toy.

Definition externals (script : Z -> list complex) : Externals :=
  {| Params := Z; Data := Z; OptState := Z; Key := Z;
     Stats := list complex;
     PRNGKey := fun s => s;
     random_split := fun k => (2 * k, 2 * k + 1);
     device_keys := fun k => k;
     p_split := fun k => (2 * k, 2 * k + 1);
     init_guess := fun _ _ _ => 0;
     model_init := fun _ _ => 0;
     opt_init := fun _ _ _ => 0;
     training_step := fun st _ =>
       (mkCheckpointState (params st + 1) (data st) (opt_state st)
                          (mcmc_width st),
        script (params st));
     pmap_mcmc_step := fun _ d _ _ => (d + 1, 0.5%float);
     energy_loss := fun _ _ => [(0%float, 0%float)];
     energy := fun s => s;
     rescale_width := fun _ w => w |}.

(** Every step has energy [-1.5 + 0i] on one device. *)
Definition calm : Z -> list complex := fun _ => [((-1.5)%float, 0%float)].

(** As [calm], but the energy of step [i] is [e]. *)
Definition energy_at (i : Z) (e : complex) : Z -> list complex :=
  fun s => if s =? i then [e] else calm s.

Definition config (iters burn N : Z) (opt : option Config.OptimizerName)
    (save restore : option string) (interval multiple : Z)
    : Config.t :=
  Config.mkConfig 8 0 (Config.mkSystem (3, 0))
    (Config.mkMCMC 10 0.125%float burn N)
    (Config.mkOptim iters opt)
    (Config.mkLog save restore interval multiple false).

(** The process before [train] runs: default handlers, nothing saved. *)
Definition world0 (X : Externals) : world X :=
  mkWorld default_int_handler SIG_DFL (mkKiller false SIG_DFL SIG_DFL)
    (mkFrame None 0 0%float None) [] [].

(** A clock on which the check of step [s] reads [dt * (s + 1)]. *)
Definition paced (dt : float) : Z -> float :=
  fun s => PrimFloat.mul dt (float_of_int (s + 1)).

(** The steps of the checkpoints in the store. *)
Definition saved_steps {X : Externals} (w : world X) : list Z :=
  map fst (saved w).

End Toy.

(** ** [from_dict] ([deephall/config.py]) *)

Module FromDict.

(** The Python values a configuration dictionary can hold.  A dictionary
    keeps its insertion order; an object is a dataclass instance with its
    attributes in field order. *)
#[warnings="-register-all"]
Inductive pyval : Type :=
| VNone
| VBool (b : bool)
| VInt (z : Z)
| VFloat (f : float)
| VStr (s : string)
| VList (l : list pyval)
| VDict (d : list (string * pyval))
| VObj (cls : string) (attrs : list (string * pyval)).

(** A class: a dataclass with its fields (name, annotated type, default
    when it has one), or any other class. *)
#[warnings="-register-all"]
Inductive pytype : Type :=
| TPlain (name : string)
| TData (name : string) (flds : list (string * pytype * option pyval)).

(** [cls.__name__] *)
Definition type_name (c : pytype) : string :=
  match c with
  | TPlain n => n
  | TData n _ => n
  end.

Definition field_names (flds : list (string * pytype * option pyval))
    : list string :=
  map (fun f => fst (fst f)) flds.

(** All are subclasses of [Exception]. *)
Inductive kind : Type := TypeError | KeyError | ValueError.

Inductive res (A : Type) : Type :=
| Val (a : A)
| Err (k : kind) (msg : string).
Arguments Val {A} a.
Arguments Err {A} k msg.

(** The failures of the interpreter and of the generated [__init__];
    their message text is the interpreter's. *)
#[warnings="-register-all"]
Inductive failure : Type :=
| NotADataclass
| NotIterable (v : pyval)
| Unhashable (v : pyval)
| BadIndex (v : pyval)
| NoSuchKey (k : string)
| MissingArguments (cls : string) (names : list string).

Fixpoint assoc {A : Type} (k : string) (l : list (string * A)) : option A :=
  match l with
  | [] => None
  | (k', a) :: l' => if String.eqb k k' then Some a else assoc k l'
  end.

Section FromDict.
Variable describe : failure -> string.

(** [for f in dikt] *)
Definition iter_keys (dikt : pyval) : res (list pyval) :=
  match dikt with
  | VDict d => Val (map (fun kv => VStr (fst kv)) d)
  | VList l => Val l
  | VStr s =>
      Val (map (fun c => VStr (String c EmptyString)) (list_ascii_of_string s))
  | _ => Err TypeError (describe (NotIterable dikt))
  end.

(** [f in fieldtypes]: the key is hashed, then compared. *)
Definition key_in (f : pyval) (names : list string) : res bool :=
  match f with
  | VList _ | VDict _ | VObj _ _ => Err TypeError (describe (Unhashable f))
  | VStr s => Val (existsb (String.eqb s) names)
  | _ => Val false
  end.

(** [dikt[f]] for a string [f] *)
Definition getitem (dikt : pyval) (f : string) : res pyval :=
  match dikt with
  | VDict d =>
      match assoc f d with
      | Some v => Val v
      | None => Err KeyError (describe (NoSuchKey f))
      end
  | _ => Err TypeError (describe (BadIndex dikt))
  end.

(** The call of a dataclass with keyword arguments: each field takes its keyword
    argument, else its default; a field with neither is an error. *)
Definition construct (n : string)
    (flds : list (string * pytype * option pyval))
    (kwargs : gmap string pyval) : res pyval :=
  let missing :=
    filter (fun f => kwargs !! f.1.1 = None ∧ f.2 = None) flds in
  match missing with
  | [] =>
      Val (VObj n
             (map (fun f =>
                     (f.1.1,
                      match kwargs !! f.1.1 with
                      | Some v => v
                      | None => default VNone f.2
                      end)) flds))
  | _ :: _ =>
      Err TypeError (describe (MissingArguments n (field_names missing)))
  end.

(** The dictionary comprehension.  [conv] gives, for each field name,
    the conversion of its value when its type is a dataclass and [None]
    when it is not. *)
Fixpoint comprehension (conv : list (string * option (pyval -> res pyval)))
    (dikt : pyval) (keys : list pyval) (kwargs : gmap string pyval)
    : res (gmap string pyval) :=
  match keys with
  | [] => Val kwargs
  | f :: keys' =>
      match key_in f (map fst conv) with
      | Err k m => Err k m
      | Val false => comprehension conv dikt keys' kwargs
      | Val true =>
          match f with
          | VStr s =>
              match getitem dikt s with
              | Err k m => Err k m
              | Val v =>
                  match assoc s conv with
                  | Some (Some convert) =>
                      match convert v with
                      | Err k m => Err k m
                      | Val v' =>
                          comprehension conv dikt keys' (<[s := v']> kwargs)
                      end
                  | _ => comprehension conv dikt keys' (<[s := v]> kwargs)
                  end
              end
          | _ => comprehension conv dikt keys' kwargs
          end
      end
  end.

(** [except Exception as e: raise ValueError(...)] *)
Definition reraise (n : string) (r : res pyval) : res pyval :=
  match r with
  | Val v => Val v
  | Err _ msg =>
      Err ValueError
        (String.append "Error converting dictionary to "
           (String.append n (String.append ": " msg)))
  end.

(** The body of the [try]. *)
Definition try_body (n : string)
    (flds : list (string * pytype * option pyval))
    (conv : list (string * option (pyval -> res pyval)))
    (dikt : pyval) : res pyval :=
  match iter_keys dikt with
  | Err k m => Err k m
  | Val keys =>
      match comprehension conv dikt keys ∅ with
      | Err k m => Err k m
      | Val kwargs => construct n flds kwargs
      end
  end.

Fixpoint from_dict (cls : pytype) {struct cls} : pyval -> res pyval :=
  match cls with
  | TPlain n => fun _ => reraise n (Err TypeError (describe NotADataclass))
  | TData n flds =>
      let conv :=
        map (fun f : string * pytype * option pyval =>
               (f.1.1,
                match f.1.2 with
                | TData _ _ => Some (from_dict f.1.2)
                | TPlain _ => None
                end)) flds in
      fun dikt => reraise n (try_body n flds conv dikt)
  end.

End FromDict.

(** The key of a dictionary entry names a field. *)
Definition is_field (flds : list (string * pytype * option pyval))
    (kv : string * pyval) : bool :=
  existsb (String.eqb (fst kv)) (field_names flds).

(** The start of the message of the [ValueError] of [from_dict]. *)
Definition error_prefix (cls : pytype) : string :=
  String.append "Error converting dictionary to "
    (String.append (type_name cls) ": ").

(** The dataclass [Log] of [config.py] and one class nesting it. *)
Definition Log : pytype :=
  TData "Log"
    [("save_path", TPlain "str | None", Some VNone);
     ("restore_path", TPlain "str | None", Some VNone);
     ("save_time_interval", TPlain "int", Some (VInt 600));
     ("save_step_interval", TPlain "int", Some (VInt 1000));
     ("initial_energy", TPlain "bool", Some (VBool true))].

Definition Outer : pytype :=
  TData "Outer"
    [("batch_size", TPlain "int", None);
     ("log", Log, Some VNone)].

(** Message texts for running the model. *)
Definition describe0 (f : failure) : string :=
  match f with
  | NotADataclass => "must be called with a dataclass type or instance"
  | NotIterable _ => "object is not iterable"
  | Unhashable _ => "unhashable type"
  | BadIndex _ => "indices must be integers"
  | NoSuchKey k => k
  | MissingArguments c _ =>
      String.append c ".__init__() missing required positional arguments"
  end.

End FromDict.

(** ** The vocabulary of the save policy *)

Module Cadence.
Section Cadence.
Context {X : Externals} (env : Env X) (cfg : Config.t).

(** The save is forced: non-finite-looking energy (a NaN real part), the
    last iteration, or the stop flag. *)
Definition forced (y : Train.Yielded X) (w : world X) : Prop :=
  Train.energy_isnan (Train.y_stats y) = true
  \/ Train.y_step y = Config.iterations (Config.optim cfg) - 1
  \/ kill_now (killer w) = true.

(** The seconds elapsed at the check of step [y] since the last save
    time recorded in [w]. *)
Definition elapsed (y : Train.Yielded X) (w : world X) : float :=
  PrimFloat.sub (clock env (Train.y_step y)) (last_save_time (frame w)).

(** [(step + 1) % save_step_interval == 0] evaluates to true. *)
Definition on_multiple (y : Train.Yielded X) : Prop :=
  exists r,
    py_mod (Train.y_step y + 1) (Config.save_step_interval (Config.log cfg))
    = Ok r /\ r = 0.

(** The periodic condition of the code: strictly more than the interval
    has elapsed, on a step multiple.  The interval is converted to a
    float as in [Train.save_trigger]: for an interval of magnitude at
    most [2^53] this is the exact comparison. *)
Definition due (y : Train.Yielded X) (w : world X) : Prop :=
  PrimFloat.ltb (float_of_int (Config.save_time_interval (Config.log cfg)))
    (elapsed y w)
  = true
  /\ on_multiple y.

(** The periodic condition in the words of the design document: at least
    the interval has elapsed, on a step multiple. *)
Definition due_at_least (y : Train.Yielded X) (w : world X) : Prop :=
  PrimFloat.leb (float_of_int (Config.save_time_interval (Config.log cfg)))
    (elapsed y w)
  = true
  /\ on_multiple y.

(** The run of the loop body on [y] in [w] persisted the checkpoint of
    its step. *)
Definition persisted (y : Train.Yielded X) (w : world X) : Prop :=
  saved (snd (Train.train_body env cfg y w))
  = saved w ++ [(Train.y_step y, Train.y_state y)].

End Cadence.
End Cadence.

(** ** The vocabulary of the abort *)

Module Abort.

(** Whenever the computation ends in a [SystemExit], its message is the
    banner of [train]. *)
Definition banner_only {X : Externals} {A : Type} (c : M.t X A) : Prop :=
  forall w m, fst (c w) = Raise (SystemExit m) -> m = Train.abort_banner.

(** The message of a run that ended in a [SystemExit]. *)
Definition exit_message {A : Type} (r : result A) : option string :=
  match r with
  | Raise (SystemExit m) => Some m
  | _ => None
  end.

(** Some device reports an energy whose real part is NaN. *)
Definition nan_energy {X : Externals} (stats : Stats X) : Prop :=
  exists e, In e (energy X stats) /\ PrimFloat.is_nan (real e) = true.

(** Some device reports an energy with a non-finite real or imaginary
    part. *)
Definition nonfinite_energy {X : Externals} (stats : Stats X) : Prop :=
  exists e, In e (energy X stats)
            /\ (isfinite (real e) = false \/ isfinite (imag e) = false).

End Abort.

(** ** Reading a trace *)

Module Trace.



Definition is_save (e : event) : bool :=
  match e with EvSaveCheckpoint _ => true | _ => false end.

Definition is_training_step (e : event) : bool :=
  match e with EvTrainingStep _ => true | _ => false end.

Definition is_print (e : event) : bool :=
  match e with EvPrint _ => true | _ => false end.

Definition count (p : event -> bool) (evs : list event) : nat :=
  length (List.filter p evs).

(** [w'] is [w] with the events [evs] logged and nothing else changed. *)
Definition logged {X : Externals} (w w' : world X) (evs : list event) : Prop :=
  w' = mkWorld (sig_int w) (sig_term w) (killer w) (frame w) (saved w)
         (trace w ++ evs).

End Trace.

(** ** The vocabulary of whole runs *)

Module Run.
Section Run.
Context {X : Externals}.

(** Every run of [c] relates the world before to the world after,
    however it ends. *)
Definition along {A : Type} (R : world X -> world X -> Prop) (c : M.t X A)
    : Prop :=
  forall w, R w (snd (c w)).

(** The signal table and the killer object are the same in both worlds. *)
Definition same_signals (w w' : world X) : Prop :=
  sig_int w' = sig_int w /\ sig_term w' = sig_term w /\ killer w' = killer w.


(** The local variables of [train] are the same in both worlds. *)
Definition same_frame (w w' : world X) : Prop := frame w' = frame w.

(** The clock bookkeeping of [train] (start time, step count, current
    time) is the same in both worlds. *)
Definition same_timing (w w' : world X) : Prop :=
  time_start (frame w') = time_start (frame w)
  /\ steps (frame w') = steps (frame w)
  /\ current_time (frame w') = current_time (frame w).

(** From [w] to [w'] events were logged, none of them selected by [f]. *)
Definition silent (f : event -> bool) (w w' : world X) : Prop :=
  exists d, trace w' = trace w ++ d /\ List.filter f d = [].

(** The world in which [train] opens its writer: logging initialised, the
    local variables set, the killer constructed, the writer's fields
    hidden. *)
Definition prelude (env : Env X) (w : world X) : world X :=
  snd ((M.emit EvInitLogging ;;;
        M.set_frame (mkFrame None 0 (clock0 env) None) ;;;
        Signal.killer_init ;;;
        M.emit EvWriterHide) w).

(** The last statement of [train]: the average time per step. *)
Definition report (w : world X) : list event :=
  match time_start (frame w), current_time (frame w) with
  | Some t0, Some now =>
      if 0 <? steps (frame w)
      then [EvLogInfo (LogTimePerStep
              (PrimFloat.div (PrimFloat.sub now t0)
                 (float_of_int (steps (frame w)))))]
      else []
  | _, _ => []
  end.

End Run.

(** The steps of the calls of the checkpoint save, in their order. *)
Fixpoint save_calls (evs : list event) : list Z :=
  match evs with
  | [] => []
  | EvSaveCheckpoint s :: evs' => s :: save_calls evs'
  | _ :: evs' => save_calls evs'
  end.

(** The events of the generator: sampler, controller, training step. *)
Definition is_generator (e : event) : bool :=
  match e with
  | EvSampler | EvController _ | EvTrainingStep _ => true
  | _ => false
  end.

(** What the generator logs in the iteration of step [s] of a run whose
    resolved initial step is [s0]. *)
Definition iteration_events (s0 s : Z) : list event :=
  [EvSampler; EvController (s - s0); EvTrainingStep s].

(** The events of the program itself: what the signal handlers print,
    whenever they run, is left out. *)
Definition own_events (evs : list event) : list event :=
  List.filter (fun e => negb (Trace.is_print e)) evs.

(** The configuration with another step multiple. *)
Definition with_multiple (cfg : Config.t) (m : Z) : Config.t :=
  Config.mkConfig (Config.batch_size cfg) (Config.seed cfg)
    (Config.system cfg) (Config.mcmc cfg) (Config.optim cfg)
    (Config.mkLog (Config.save_path (Config.log cfg))
       (Config.restore_path (Config.log cfg))
       (Config.save_time_interval (Config.log cfg)) m
       (Config.initial_energy (Config.log cfg))).

End Run.

(** ** The vocabulary of [from_dict] on dictionaries *)

Module FromDictSpec.
Import FromDict.

(** The annotated type of the field named [s]. *)
Fixpoint field_type (flds : list (string * pytype * option pyval))
    (s : string) : option pytype :=
  match flds with
  | [] => None
  | f :: flds' => if String.eqb s f.1.1 then Some f.1.2 else field_type flds' s
  end.

(** Every field of the class, and of the dataclasses its fields are
    annotated with, has a default. *)
Fixpoint all_defaults (cls : pytype) : bool :=
  match cls with
  | TPlain _ => true
  | TData _ flds =>
      forallb (fun f : string * pytype * option pyval =>
                 match f.2 with Some _ => true | None => false end
                 && all_defaults f.1.2) flds
  end.

(** [v] is a dictionary, and so is, recursively, every value it holds
    under a key that names a field annotated with a dataclass. *)
Fixpoint sections_ok (v : pyval) (cls : pytype) : bool :=
  match cls, v with
  | TData _ flds, VDict d =>
      forallb (fun kv : string * pyval =>
                 match field_type flds kv.1 with
                 | Some (TData n' flds') => sections_ok kv.2 (TData n' flds')
                 | _ => true
                 end) d
  | _, _ => false
  end.

(** A value that, met as a key of the iteration, is hashable and names
    no field. *)
Definition names_no_field (names : list string) (v : pyval) : bool :=
  match v with
  | VNone | VBool _ | VInt _ | VFloat _ => true
  | VStr s => negb (existsb (String.eqb s) names)
  | VList _ | VDict _ | VObj _ _ => false
  end.

(** A value that cannot be iterated. *)
Definition not_iterable (v : pyval) : bool :=
  match v with
  | VNone | VBool _ | VInt _ | VFloat _ | VObj _ _ => true
  | VStr _ | VList _ | VDict _ => false
  end.

Section Spec.
Variable describe : failure -> string.

(** The table [from_dict] builds from the fields: for each name, the
    conversion of its value when its type is a dataclass. *)
Definition converters (flds : list (string * pytype * option pyval))
    : list (string * option (pyval -> res pyval)) :=
  map (fun f : string * pytype * option pyval =>
         (f.1.1,
          match f.1.2 with
          | TData _ _ => Some (from_dict describe f.1.2)
          | TPlain _ => None
          end)) flds.

(** What [from_dict] stores for the key [s] holding [x]: the conversion
    of [x] when the field is annotated with a dataclass, [x] itself
    otherwise. *)
Definition field_value (flds : list (string * pytype * option pyval))
    (s : string) (x : pyval) : res pyval :=
  match field_type flds s with
  | Some (TData n' flds') => from_dict describe (TData n' flds') x
  | _ => Val x
  end.

(** The attribute of field [f]: the stored value of its key when the
    dictionary has it, its default otherwise. *)
Definition expected_attr (flds : list (string * pytype * option pyval))
    (d : list (string * pyval)) (f : string * pytype * option pyval)
    : pyval :=
  match assoc f.1.1 d with
  | Some x =>
      match field_value flds f.1.1 x with
      | Val v => v
      | Err _ _ => VNone
      end
  | None => default VNone f.2
  end.

(** The instance expected from the dictionary [d]. *)
Definition expected (n : string)
    (flds : list (string * pytype * option pyval))
    (d : list (string * pyval)) : pyval :=
  VObj n (map (fun f => (f.1.1, expected_attr flds d f)) flds).

(** Every field without a default is a key of [d]. *)
Definition required_present (flds : list (string * pytype * option pyval))
    (d : list (string * pyval)) : Prop :=
  forall f, In f flds -> f.2 = None -> assoc f.1.1 d <> None.

(** Every value of [d] under a key that names a field can be stored. *)
Definition values_convert (flds : list (string * pytype * option pyval))
    (d : list (string * pyval)) : Prop :=
  forall k x, assoc k d = Some x -> is_field flds (k, x) = true ->
  exists v, field_value flds k x = Val v.

End Spec.

(** The dataclasses of the optimizer section of [config.py], with their
    defaults. *)
#[warnings="-inexact-float"]
Definition LearningRate_default (rate : float) : pyval :=
  VObj "LearningRate"
    [("rate", VFloat rate); ("decay", VFloat 1.0); ("delay", VFloat 2000.0)].

#[warnings="-inexact-float"]
Definition LearningRate : pytype :=
  TData "LearningRate"
    [("rate", TPlain "float", Some (VFloat 0.005));
     ("decay", TPlain "float", Some (VFloat 1.0));
     ("delay", TPlain "float", Some (VFloat 2000.0))].

#[warnings="-inexact-float"]
Definition OptimizerAdam : pytype :=
  TData "OptimizerAdam"
    [("lr", LearningRate, Some (LearningRate_default 0.005))].

#[warnings="-inexact-float"]
Definition OptimizerKfac : pytype :=
  TData "OptimizerKfac"
    [("lr", LearningRate, Some (LearningRate_default 0.05))].

#[warnings="-inexact-float"]
Definition Optim : pytype :=
  TData "Optim"
    [("iterations", TPlain "int", Some (VInt 1000));
     ("optimizer", TPlain "OptimizerName | None", Some (VStr "kfac"));
     ("adam", OptimizerAdam,
      Some (VObj "OptimizerAdam" [("lr", LearningRate_default 0.005)]));
     ("kfac", OptimizerKfac,
      Some (VObj "OptimizerKfac" [("lr", LearningRate_default 0.05)]))].

End FromDictSpec.

(** * Properties *)

(** Unfolds the operations of the monad, so that a run is a plain term. *)
Ltac munfold :=
  unfold M.bind, M.ret, M.raise, M.lift, M.get, M.emit, M.set_killer,
    M.set_frame, M.persist, M.modify, M.finally in *.

(** ** The signal handler *)

Module SignalFacts.
Section SignalFacts.
Context {X : Externals}.

(** The constructor remembers the handlers it replaces and arms the
    killer. *)
Lemma killer_init_spec (w0 : world X) :
  Signal.killer_init w0 =
  (Ok tt,
   mkWorld exit_gracefully_method exit_gracefully_method
     (mkKiller false (sig_int w0) (sig_term w0))
     (frame w0) (saved w0) (trace w0)).
Proof. reflexivity. Qed.

(** The handler on an armed killer. *)
Lemma exit_gracefully_armed (s : signum) (w : world X) :
  kill_now (killer w) = false ->
  Signal.exit_gracefully s w =
  (Ok tt,
   mkWorld (original_int (killer w)) (original_term (killer w))
     (mkKiller true (original_int (killer w)) (original_term (killer w)))
     (frame w) (saved w) (trace w ++ [EvPrint "\r"])).
Proof.
  intros Harmed. unfold Signal.exit_gracefully. munfold. simpl.
  rewrite Harmed. reflexivity.
Qed.

(** The handler on a killer that already stopped. *)
Lemma exit_gracefully_stopping (s : signum) (w : world X) :
  kill_now (killer w) = true ->
  Signal.exit_gracefully s w = (Ok tt, w).
Proof.
  intros Hstop. unfold Signal.exit_gracefully. munfold. simpl.
  rewrite Hstop. reflexivity.
Qed.

(** The flag is never cleared by a delivery. *)
Lemma deliver_keeps_flag (s : signum) (w : world X) :
  kill_now (killer w) = true ->
  kill_now (killer (snd (Signal.deliver s w))) = true.
Proof.
  intros Hstop. unfold Signal.deliver. munfold. simpl.
  destruct (Signal.handler_of s w); simpl; auto.
  rewrite exit_gracefully_stopping; auto.
Qed.

Lemma deliver_all_keeps_flag (l : list signum) :
  forall w : world X,
  kill_now (killer w) = true ->
  kill_now (killer (snd (Signal.deliver_all l w))) = true.
Proof.
  induction l as [|s l IH]; intros w Hstop; simpl; [exact Hstop |].
  unfold M.bind. pose proof (deliver_keeps_flag s w Hstop) as Hs.
  destruct (Signal.deliver s w) as [[u|e] w']; simpl in *; [| exact Hs].
  apply IH. exact Hs.
Qed.

(** C4. Signal idempotence.  Take a killer constructed in the process
    state [w0], still armed and with its handler still installed for
    both signals (the run may have logged, saved and updated its local
    variables meanwhile).  The first delivery of either signal runs the
    handler, which returns normally, sets [kill_now] and puts back for
    both signals the handlers that were installed in [w0]; a second
    call of the handler, for either signal, returns normally and leaves
    the whole state as it is, so the flag is set once; and a further
    signal is dispatched to the handler that [w0] had for it. *)
Theorem signal_idempotence (w0 w : world X) (s1 s2 : signum) :
  killer w = killer (snd (Signal.killer_init w0)) ->
  sig_int w = sig_int (snd (Signal.killer_init w0)) ->
  sig_term w = sig_term (snd (Signal.killer_init w0)) ->
  let w1 := snd (Signal.deliver s1 w) in
  Signal.deliver s1 w = Signal.exit_gracefully s1 w
  /\ fst (Signal.deliver s1 w) = Ok tt
  /\ kill_now (killer w) = false
  /\ kill_now (killer w1) = true
  /\ sig_int w1 = sig_int w0
  /\ sig_term w1 = sig_term w0
  /\ Signal.exit_gracefully s2 w1 = (Ok tt, w1)
  /\ Signal.handler_of s2 w1 = Signal.handler_of s2 w0.
Proof.
  rewrite killer_init_spec. simpl. intros Hk Hint Hterm.
  assert (Harmed : kill_now (killer w) = false) by (rewrite Hk; reflexivity).
  assert (Hdeliver : Signal.deliver s1 w = Signal.exit_gracefully s1 w).
  { unfold Signal.deliver at 1. munfold. simpl.
    destruct s1; simpl; [rewrite Hint | rewrite Hterm]; reflexivity. }
  rewrite Hdeliver, (exit_gracefully_armed s1 w Harmed). simpl.
  rewrite Hk. simpl.
  repeat split; destruct s2; reflexivity.
Qed.

End SignalFacts.

(** The theorem at the default handlers of a fresh process. *)
Lemma signal_idempotence_witness :
  let w0 := Toy.world0 (Toy.externals Toy.calm) in
  let w := snd (Signal.killer_init w0) in
  let w1 := snd (Signal.deliver SIGTERM w) in
  kill_now (killer w1) = true
  /\ sig_int w1 = default_int_handler
  /\ sig_term w1 = SIG_DFL
  /\ Signal.exit_gracefully SIGTERM w1 = (Ok tt, w1).
Proof.
  intros w0 w w1.
  destruct (signal_idempotence w0 w SIGTERM SIGTERM eq_refl eq_refl eq_refl)
    as (_ & _ & _ & Hflag & Hint & Hterm & Hagain & _).
  repeat split; assumption.
Defined.

(** After the first SIGINT a second one reaches Python's default
    handler: the run ends in [KeyboardInterrupt]. *)
Example second_sigint :
  let w0 := Toy.world0 (Toy.externals Toy.calm) in
  let w := snd (Signal.killer_init w0) in
  fst (Signal.deliver_all [SIGINT; SIGINT] w) = Raise KeyboardInterrupt.
Proof. reflexivity. Qed.

End SignalFacts.

(** ** The start of [train_loop] *)

Module StartFacts.
Section StartFacts.
Context {X : Externals} (env : Env X) (cfg : Config.t).

(** The warm-start test, as a proposition. *)
Lemma warm_start_iff :
  Train.warm_start cfg = true <->
  Config.optimizer (Config.optim cfg) = Some Config.none
  /\ Config.restore_path (Config.log cfg) <> None
  /\ Config.restore_path (Config.log cfg) <> Config.save_path (Config.log cfg).
Proof.
  unfold Train.warm_start, Config.optimizer_is_none, Config.path_ne.
  destruct (Config.optimizer (Config.optim cfg)) as [[ | | ]|];
    destruct (Config.restore_path (Config.log cfg)) as [r|];
    destruct (Config.save_path (Config.log cfg)) as [s|]; simpl;
    try (split; [discriminate | intros (? & ? & ?); congruence]);
    try (split; [intros _; repeat split; congruence | reflexivity]).
  destruct (String.eqb_spec r s) as [-> | Hne]; simpl.
  - split; [discriminate | intros (_ & _ & ?); congruence].
  - split; [intros _; repeat split; congruence | reflexivity].
Qed.

(** C3. Warm-start reset.  Let [(s0, st0)] be what [train_loop] adopts:
    the checkpoint handed back by the restore when there is one, the
    fresh state of [initialize_state] otherwise.  The resolved initial
    step is [0] when the optimizer is [none], a restore path is
    configured and it differs from the save path, and [s0] in every other
    case; the adopted state, its parameters and configurations included,
    is [st0] as it is in both cases. *)
Theorem warm_start_reset (w : world X) :
  let adopted :=
    match fst (LogManager.try_restore_checkpoint env cfg w) with
    | Ok (Some c) => c
    | _ => Train.initialize_state cfg
    end in
  (exists w',
     Train.resolve_checkpoint env cfg w =
     (Ok (if Train.warm_start cfg then 0 else fst adopted, snd adopted), w'))
  /\ (Train.warm_start cfg = true <->
      Config.optimizer (Config.optim cfg) = Some Config.none
      /\ Config.restore_path (Config.log cfg) <> None
      /\ Config.restore_path (Config.log cfg)
         <> Config.save_path (Config.log cfg)).
Proof.
  split; [| apply warm_start_iff].
  unfold Train.resolve_checkpoint, LogManager.try_restore_checkpoint.
  munfold. simpl.
  destruct (Config.restore_path (Config.log cfg)) as [p|];
    [destruct (restore_found env) as [[s0 st0]|] |];
    simpl; try destruct (Train.initialize_state cfg); eexists; reflexivity.
Qed.

End StartFacts.

(** A checkpoint of step [500] restored from ["old"] while saving to
    ["new"] with no optimizer: the loop starts from step [0] with the
    restored state. *)
Example warm_start_500 :
  let X := Toy.externals Toy.calm in
  let st := mkCheckpointState 42 17 (Some 3) 0.25%float : State X in
  let env := mkEnv X (Some (500, st)) 0%float (fun _ => 0%float)
               (fun _ => []) (fun _ => []) (fun _ => []) (fun _ => false) in
  let cfg := Toy.config 1000 200 100 (Some Config.none)
               (Some "new") (Some "old") 600 1000 in
  fst (Train.resolve_checkpoint env cfg (Toy.world0 X)) = Ok (0, st).
Proof. reflexivity. Qed.

(** The same with the optimizer [kfac]: the restored step is kept. *)
Example warm_start_kfac_500 :
  let X := Toy.externals Toy.calm in
  let st := mkCheckpointState 42 17 (Some 3) 0.25%float : State X in
  let env := mkEnv X (Some (500, st)) 0%float (fun _ => 0%float)
               (fun _ => []) (fun _ => []) (fun _ => []) (fun _ => false) in
  let cfg := Toy.config 1000 200 100 (Some Config.kfac)
               (Some "new") (Some "old") 600 1000 in
  fst (Train.resolve_checkpoint env cfg (Toy.world0 X)) = Ok (500, st).
Proof. reflexivity. Qed.

End StartFacts.

(** ** Burn-in *)

Module BurnInFacts.
Section BurnInFacts.
Context {X : Externals} (env : Env X) (cfg : Config.t).



Lemma emit_logged (e : event) (w : world X) :
  Trace.logged w (snd (M.emit e w)) [e].
Proof. reflexivity. Qed.







End BurnInFacts.


End BurnInFacts.

(** ** The body of the loop of [train] *)

Module BodyFacts.
Section BodyFacts.
Context {X : Externals} (env : Env X) (cfg : Config.t).

(** The world after the log line and the clock reading. *)
Lemma log_and_tick_run (y : Train.Yielded X) (w : world X) :
  exists f1,
    Train.log_and_tick env y w =
    (Ok tt,
     mkWorld (sig_int w) (sig_term w) (killer w) f1 (saved w)
       (trace w ++ [EvWriterLog (Train.y_step y)]))
    /\ last_save_time f1 = last_save_time (frame w)
    /\ current_time f1 = Some (clock env (Train.y_step y)).
Proof.
  unfold Train.log_and_tick. munfold. simpl.
  destruct (time_start (frame w)); eexists; repeat split.
Qed.

(** The trigger only reads the world. *)
Lemma save_trigger_reads (step : Z) (stats : Stats X) (now : float)
    (w : world X) :
  snd (Train.save_trigger cfg step stats now w) = w.
Proof.
  unfold Train.save_trigger. munfold. simpl.
  destruct (Train.energy_isnan stats); [reflexivity |].
  destruct (step =? _); [reflexivity |].
  destruct (kill_now (killer w)); [reflexivity |].
  destruct (PrimFloat.ltb _ _); [| reflexivity].
  destruct (py_mod _ _); reflexivity.
Qed.

(** The trigger when one of its first three conditions holds. *)
Lemma save_trigger_forced (step : Z) (stats : Stats X) (now : float)
    (w : world X) :
  Train.energy_isnan stats = true
  \/ step = Config.iterations (Config.optim cfg) - 1
  \/ kill_now (killer w) = true ->
  fst (Train.save_trigger cfg step stats now w) = Ok true.
Proof.
  unfold Train.save_trigger. munfold. simpl. intros Hforced.
  destruct (Train.energy_isnan stats); [reflexivity |].
  destruct (Z.eqb_spec step (Config.iterations (Config.optim cfg) - 1));
    [reflexivity |].
  destruct (kill_now (killer w)); [reflexivity |].
  destruct Hforced as [? | [? | ?]]; congruence.
Qed.

(** The trigger when none of them holds: the periodic condition. *)
Lemma save_trigger_periodic (step : Z) (stats : Stats X) (now : float)
    (w : world X) :
  ~ (Train.energy_isnan stats = true
     \/ step = Config.iterations (Config.optim cfg) - 1
     \/ kill_now (killer w) = true) ->
  fst (Train.save_trigger cfg step stats now w) =
  if PrimFloat.ltb
       (float_of_int (Config.save_time_interval (Config.log cfg)))
       (PrimFloat.sub now (last_save_time (frame w)))
  then match py_mod (step + 1) (Config.save_step_interval (Config.log cfg)) with
       | Ok r => Ok (r =? 0)
       | Raise e => Raise e
       end
  else Ok false.
Proof.
  unfold Train.save_trigger. munfold. simpl. intros Hfree.
  destruct (Train.energy_isnan stats); [tauto |].
  destruct (Z.eqb_spec step (Config.iterations (Config.optim cfg) - 1));
    [tauto |].
  destruct (kill_now (killer w)); [tauto |].
  destruct (PrimFloat.ltb _ _); [| reflexivity].
  destruct (py_mod _ _); reflexivity.
Qed.

(** The trigger depends on the world through the stop flag and the last
    save time only. *)
Lemma save_trigger_ext (step : Z) (stats : Stats X) (now : float)
    (w w' : world X) :
  kill_now (killer w) = kill_now (killer w') ->
  last_save_time (frame w) = last_save_time (frame w') ->
  fst (Train.save_trigger cfg step stats now w)
  = fst (Train.save_trigger cfg step stats now w').
Proof.
  unfold Train.save_trigger. munfold. simpl. intros -> ->.
  destruct (Train.energy_isnan stats); [reflexivity |].
  destruct (step =? _); [reflexivity |].
  destruct (kill_now (killer w')); [reflexivity |].
  destruct (PrimFloat.ltb _ _); [| reflexivity].
  destruct (py_mod _ _); reflexivity.
Qed.

(** The whole body, by the value of the trigger.  [w1] is the world
    when the trigger is evaluated, [exit] what the second [if] does. *)
Lemma train_body_run (y : Train.Yielded X) (w : world X) :
  exists f1,
    last_save_time f1 = last_save_time (frame w)
    /\ let step := Train.y_step y in
       let now := clock env step in
       let w1 := mkWorld (sig_int w) (sig_term w) (killer w) f1 (saved w)
                   (trace w ++ [EvWriterLog step]) in
       let f2 := mkFrame (time_start f1) (steps f1) now (current_time f1) in
       let evs := [EvWriterLog step; EvForceFlush; EvSaveCheckpoint step] in
       let exit :=
         if kill_now (killer w) || Train.energy_isnan (Train.y_stats y)
         then Raise (SystemExit Train.abort_banner) else Ok tt in
       Train.train_body env cfg y w =
       match fst (Train.save_trigger cfg step (Train.y_stats y) now w) with
       | Raise e => (Raise e, w1)
       | Ok false => (exit, w1)
       | Ok true =>
           match Config.save_path (Config.log cfg) with
           | None =>
               (exit,
                mkWorld (sig_int w) (sig_term w) (killer w) f2 (saved w)
                  (trace w ++ evs))
           | Some _ =>
               if save_fails env step then
                 (Raise CheckpointIOError,
                  mkWorld (sig_int w) (sig_term w) (killer w) f2 (saved w)
                    (trace w ++ evs))
               else
                 (exit,
                  mkWorld (sig_int w) (sig_term w) (killer w) f2
                    (saved w ++ [(step, Train.y_state y)]) (trace w ++ evs))
           end
       end.
Proof.
  destruct (log_and_tick_run y w) as (f1 & Hrun & Hlast & _).
  exists f1. split; [exact Hlast |]. intros step now w1 f2 evs exit.
  rewrite (save_trigger_ext step (Train.y_stats y) now w w1)
    by (subst w1; simpl; congruence).
  unfold Train.train_body. unfold M.bind at 1. rewrite Hrun. cbv beta iota.
  fold step now w1.
  pose proof (save_trigger_reads step (Train.y_stats y) now w1) as Hreads.
  unfold M.bind at 1.
  destruct (Train.save_trigger cfg step (Train.y_stats y) now w1)
    as [[[|]|e] w1'] eqn:Htrig; simpl in Hreads; subst w1';
    unfold Train.save_now, LogManager.save_checkpoint, Train.abort_check;
    munfold; simpl; fold step; subst exit evs;
    [| destruct (kill_now (killer w) || _); reflexivity | reflexivity].
  destruct (Config.save_path (Config.log cfg)); simpl;
    [destruct (save_fails env step); simpl |];
    rewrite <- ?app_assoc; simpl;
    try destruct (kill_now (killer w) || _); reflexivity.
Qed.

Lemma app_one_neq {A : Type} (l : list A) (a : A) : l <> l ++ [a].
Proof.
  intros Heq. apply (f_equal (@length A)) in Heq.
  rewrite length_app in Heq. simpl in Heq. lia.
Qed.

(** The body persists the checkpoint of its step exactly when a save
    location is configured and the trigger evaluates to true; otherwise
    the store is as before.  (The write is assumed not to fail.) *)
Lemma persisted_iff_trigger (y : Train.Yielded X) (w : world X) :
  save_fails env (Train.y_step y) = false ->
  (Cadence.persisted env cfg y w <->
   Config.save_path (Config.log cfg) <> None
   /\ fst (Train.save_trigger cfg (Train.y_step y) (Train.y_stats y)
             (clock env (Train.y_step y)) w) = Ok true)
  /\ (~ Cadence.persisted env cfg y w ->
      saved (snd (Train.train_body env cfg y w)) = saved w).
Proof.
  intros Hsave. unfold Cadence.persisted.
  destruct (train_body_run y w) as (f1 & _ & Hrun). cbv zeta in Hrun.
  rewrite Hrun, Hsave. clear Hrun.
  destruct (fst (Train.save_trigger cfg _ _ _ w)) as [[|]|e]; simpl.
  - destruct (Config.save_path (Config.log cfg)); simpl.
    + split; [split; [split; [discriminate | reflexivity] | reflexivity] |].
      intros Hno. contradiction Hno. reflexivity.
    + split; [| reflexivity].
      split; [intros H; contradiction (app_one_neq _ _ H) | tauto].
  - split; [| reflexivity].
    split; [intros H; contradiction (app_one_neq _ _ H) |].
    intros [_ H]; discriminate.
  - split; [| reflexivity].
    split; [intros H; contradiction (app_one_neq _ _ H) |].
    intros [_ H]; discriminate.
Qed.

(** The trigger is true exactly when the save is forced or due. *)
Lemma trigger_iff (y : Train.Yielded X) (w : world X) :
  fst (Train.save_trigger cfg (Train.y_step y) (Train.y_stats y)
         (clock env (Train.y_step y)) w) = Ok true
  <-> Cadence.forced cfg y w \/ Cadence.due env cfg y w.
Proof.
  unfold Cadence.due, Cadence.on_multiple, Cadence.elapsed.
  split.
  - intros Htrig.
    assert (Hdec : Cadence.forced cfg y w \/ ~ Cadence.forced cfg y w).
    { unfold Cadence.forced.
      destruct (Train.energy_isnan (Train.y_stats y)); [tauto |].
      destruct (Z.eq_dec (Train.y_step y)
                  (Config.iterations (Config.optim cfg) - 1)); [tauto |].
      destruct (kill_now (killer w)); [tauto |].
      right. intros [? | [? | ?]]; congruence. }
    destruct Hdec as [Hforced | Hfree]; [left; exact Hforced | right].
    rewrite (save_trigger_periodic _ _ _ _ Hfree) in Htrig.
    destruct (PrimFloat.ltb _ _); [| discriminate].
    split; [reflexivity |].
    destruct (py_mod _ _) as [r|e]; [| discriminate].
    exists r. split; [reflexivity |].
    injection Htrig as Hr. apply Z.eqb_eq. exact Hr.
  - intros [Hforced | [Hlt (r & Hmod & Hr)]].
    + apply save_trigger_forced. exact Hforced.
    + assert (Hdec : Cadence.forced cfg y w \/ ~ Cadence.forced cfg y w).
      { unfold Cadence.forced.
        destruct (Train.energy_isnan (Train.y_stats y)); [tauto |].
        destruct (Z.eq_dec (Train.y_step y)
                    (Config.iterations (Config.optim cfg) - 1)); [tauto |].
        destruct (kill_now (killer w)); [tauto |].
        right. intros [? | [? | ?]]; congruence. }
      destruct Hdec as [Hforced | Hfree];
        [apply save_trigger_forced; exact Hforced |].
      rewrite (save_trigger_periodic _ _ _ _ Hfree), Hlt, Hmod, Hr.
      reflexivity.
Qed.

(** C1 (as amended). Save cadence.  For a [save_time_interval] of
    magnitude at most [2^53] (so that the float it is compared as is the
    integer itself) and provided the write itself does not fail, the
    body of the loop persists the checkpoint of its step
    exactly when a save location is configured and the save is either
    forced (NaN energy, last iteration, stop flag) or due: strictly more
    than [save_time_interval] seconds lie between the last recorded save
    time and this check, and [(step + 1) mod save_step_interval = 0].
    Otherwise the store is untouched.  In particular a non-forced check
    with an interval of 10 s and only 3 s elapsed since the last recorded
    save time saves at no step, whatever the multiple, and a forced check
    saves whatever the elapsed time and the step.  (Signals handled
    between the two [if]s of the body do not change what it persists:
    [RunFacts.train_body_with_store].) *)
Theorem save_cadence (y : Train.Yielded X) (w : world X) :
  Z.abs (Config.save_time_interval (Config.log cfg)) <= 2 ^ 53 ->
  save_fails env (Train.y_step y) = false ->
  (Cadence.persisted env cfg y w <->
   Config.save_path (Config.log cfg) <> None
   /\ (Cadence.forced cfg y w \/ Cadence.due env cfg y w))
  /\ (~ Cadence.persisted env cfg y w ->
      saved (snd (Train.train_body env cfg y w)) = saved w)
  /\ (~ Cadence.forced cfg y w ->
      Config.save_time_interval (Config.log cfg) = 10 ->
      Cadence.elapsed env y w = 3%float ->
      saved (snd (Train.train_body env cfg y w)) = saved w)
  /\ (Cadence.forced cfg y w ->
      Config.save_path (Config.log cfg) <> None ->
      Cadence.persisted env cfg y w).
Proof.
  intros _ Hsave.
  destruct (persisted_iff_trigger y w Hsave) as [Hiff Hnot].
  pose proof (trigger_iff y w) as Htrig.
  split; [rewrite Hiff, Htrig; reflexivity |].
  split; [exact Hnot |].
  split.
  - intros Hfree Hint Hel. apply Hnot. rewrite Hiff, Htrig.
    intros [_ [Hforced | [Hlt _]]]; [contradiction |].
    rewrite Hint, Hel in Hlt. vm_compute in Hlt. discriminate.
  - intros Hforced Hpath. rewrite Hiff, Htrig. tauto.
Qed.

Lemma energy_isnan_iff (stats : Stats X) :
  Train.energy_isnan stats = true <-> Abort.nan_energy stats.
Proof.
  unfold Train.energy_isnan, isnan_any, Abort.nan_energy.
  rewrite existsb_exists. split.
  - intros (x & Hin & Hnan). apply in_map_iff in Hin.
    destruct Hin as (e & <- & Hin). exists e. split; assumption.
  - intros (e & Hin & Hnan). exists (real e). split; [| exact Hnan].
    apply in_map. exact Hin.
Qed.

(** The trigger raises nothing but the error of a zero step multiple. *)
Lemma save_trigger_raises (step : Z) (stats : Stats X) (now : float)
    (w : world X) (e : exn) :
  fst (Train.save_trigger cfg step stats now w) = Raise e ->
  e = ZeroDivisionError.
Proof.
  unfold Train.save_trigger, py_mod. munfold. simpl.
  destruct (Train.energy_isnan stats); [discriminate |].
  destruct (step =? _); [discriminate |].
  destruct (kill_now (killer w)); [discriminate |].
  destruct (PrimFloat.ltb _ _); [| discriminate].
  destruct (_ =? 0); simpl; congruence.
Qed.

(** The body when the abort condition holds and the write does not fail:
    log line, flush, save of this step, then the abort. *)
Lemma abort_after_save (y : Train.Yielded X) (w : world X) :
  Train.energy_isnan (Train.y_stats y) = true \/ kill_now (killer w) = true ->
  save_fails env (Train.y_step y) = false ->
  exists w',
    Train.train_body env cfg y w = (Raise (SystemExit Train.abort_banner), w')
    /\ trace w' =
       trace w ++ [EvWriterLog (Train.y_step y); EvForceFlush;
                   EvSaveCheckpoint (Train.y_step y)]
    /\ saved w' =
       saved w ++ match Config.save_path (Config.log cfg) with
                  | Some _ => [(Train.y_step y, Train.y_state y)]
                  | None => []
                  end.
Proof.
  intros Habort Hsave.
  destruct (train_body_run y w) as (f1 & _ & Hrun). cbv zeta in Hrun.
  rewrite Hrun, Hsave. clear Hrun.
  rewrite save_trigger_forced by tauto.
  assert (Hexit : kill_now (killer w) || Train.energy_isnan (Train.y_stats y)
                  = true).
  { destruct Habort as [-> | ->]; [apply orb_true_r | reflexivity]. }
  rewrite Hexit.
  destruct (Config.save_path (Config.log cfg)); eexists;
    (split; [reflexivity |]); simpl; rewrite ?app_nil_r; split; reflexivity.
Qed.

(** C2 (as amended). The divergence trigger.  If the real part of the
    energy of some device is NaN, the save trigger of that step evaluates
    to true, the body flushes and calls the checkpoint save for this
    step, and it does not return: it ends in the abort, or in the error
    of the save when the write fails. *)
Theorem nan_energy_triggers (y : Train.Yielded X) (w : world X) :
  Abort.nan_energy (Train.y_stats y) ->
  let r := Train.train_body env cfg y w in
  Train.save_trigger cfg (Train.y_step y) (Train.y_stats y)
    (clock env (Train.y_step y)) w = (Ok true, w)
  /\ trace (snd r) =
     trace w ++ [EvWriterLog (Train.y_step y); EvForceFlush;
                 EvSaveCheckpoint (Train.y_step y)]
  /\ (fst r = Raise (SystemExit Train.abort_banner)
      \/ fst r = Raise CheckpointIOError).
Proof.
  intros Hnan r. apply energy_isnan_iff in Hnan.
  split.
  { rewrite (surjective_pairing (Train.save_trigger _ _ _ _ _)).
    rewrite save_trigger_reads, save_trigger_forced by tauto. reflexivity. }
  subst r.
  destruct (train_body_run y w) as (f1 & _ & Hrun). cbv zeta in Hrun.
  rewrite Hrun. clear Hrun.
  rewrite save_trigger_forced by tauto.
  rewrite Hnan, orb_true_r.
  destruct (Config.save_path (Config.log cfg));
    [destruct (save_fails env (Train.y_step y)) |]; simpl; tauto.
Qed.

(** C8 (as amended). The last save time.  It becomes the time of this
    check exactly when the save trigger evaluates to true, before the
    save is attempted and whatever its outcome; otherwise it keeps its
    value.  A save that fails therefore leaves it updated, raises out of
    the loop body and persists nothing. *)
Theorem last_save_time_follows_trigger (y : Train.Yielded X) (w : world X) :
  let r := Train.train_body env cfg y w in
  let trig :=
    fst (Train.save_trigger cfg (Train.y_step y) (Train.y_stats y)
           (clock env (Train.y_step y)) w) in
  (trig = Ok true ->
   last_save_time (frame (snd r)) = clock env (Train.y_step y))
  /\ (trig <> Ok true ->
      last_save_time (frame (snd r)) = last_save_time (frame w))
  /\ (trig = Ok true ->
      Config.save_path (Config.log cfg) <> None ->
      save_fails env (Train.y_step y) = true ->
      fst r = Raise CheckpointIOError /\ saved (snd r) = saved w).
Proof.
  intros r trig. subst r trig.
  destruct (train_body_run y w) as (f1 & Hlast & Hrun). cbv zeta in Hrun.
  rewrite Hrun. clear Hrun.
  destruct (fst (Train.save_trigger cfg _ _ _ w)) as [[|]|e].
  - split; [intros _ | split; [congruence |]].
    + destruct (Config.save_path (Config.log cfg));
        [destruct (save_fails env (Train.y_step y)) |]; reflexivity.
    + intros _ Hpath Hfail. rewrite Hfail.
      destruct (Config.save_path (Config.log cfg)); [| congruence].
      split; reflexivity.
  - split; [discriminate |]. split; [intros _; exact Hlast | discriminate].
  - split; [discriminate |]. split; [intros _; exact Hlast | discriminate].
Qed.

(** A [SystemExit] raised by the body carries the banner. *)
Lemma train_body_banner (y : Train.Yielded X) :
  Abort.banner_only (Train.train_body env cfg y).
Proof.
  intros w m.
  destruct (train_body_run y w) as (f1 & _ & Hrun). cbv zeta in Hrun.
  rewrite Hrun. clear Hrun.
  destruct (fst (Train.save_trigger cfg _ _ _ w)) as [[|]|e] eqn:Htrig.
  - destruct (Config.save_path (Config.log cfg));
      [destruct (save_fails env (Train.y_step y)) |]; simpl;
      try discriminate;
      destruct (kill_now (killer w) || _); simpl; congruence.
  - destruct (kill_now (killer w) || _); simpl; congruence.
  - apply save_trigger_raises in Htrig. subst e. simpl. discriminate.
Qed.

(** The second [if] only reads the world. *)
Lemma abort_check_run (y : Train.Yielded X) (w : world X) :
  Train.abort_check y w =
  (if kill_now (killer w) || Train.energy_isnan (Train.y_stats y)
   then Raise (SystemExit Train.abort_banner) else Ok tt, w).
Proof.
  unfold Train.abort_check. munfold. simpl.
  destruct (kill_now (killer w) || _); reflexivity.
Qed.

(** The body is its first [if] followed by its second. *)
Lemma train_body_stages (y : Train.Yielded X) (w : world X) :
  Train.train_body env cfg y w =
  match Train.save_stage env cfg y w with
  | (Raise e, w1) => (Raise e, w1)
  | (Ok _, w1) => Train.abort_check y w1
  end.
Proof.
  unfold Train.train_body, Train.save_stage. unfold M.bind.
  destruct (Train.log_and_tick env y w) as [[u|e] w1]; [| reflexivity].
  destruct (Train.save_trigger cfg _ _ _ w1) as [[trig|e] w2];
    [| reflexivity].
  destruct ((if trig then Train.save_now env cfg y else M.ret tt) w2)
    as [[u'|e] w3]; reflexivity.
Qed.

(** The body with late signals, stage by stage. *)
Lemma train_body_with_run (late : list signum) (y : Train.Yielded X)
    (w : world X) :
  Train.train_body_with env cfg late y w =
  match Train.save_stage env cfg y w with
  | (Raise e, w1) => (Raise e, w1)
  | (Ok _, w1) =>
      match Signal.deliver_all late w1 with
      | (Raise e, w2) => (Raise e, w2)
      | (Ok _, w2) => Train.abort_check y w2
      end
  end.
Proof.
  unfold Train.train_body_with. unfold M.bind.
  destruct (Train.save_stage env cfg y w) as [[u|e] w1]; [| reflexivity].
  destruct (Signal.deliver_all late w1) as [[u'|e] w2]; reflexivity.
Qed.

(** Without late signals it is the body of the source as it stands. *)
Lemma train_body_with_nil (y : Train.Yielded X) (w : world X) :
  Train.train_body_with env cfg [] y w = Train.train_body env cfg y w.
Proof.
  rewrite train_body_with_run, train_body_stages.
  destruct (Train.save_stage env cfg y w) as [[u|e] w1]; reflexivity.
Qed.

(** The first [if] leaves the world in which the whole body ends. *)
Lemma save_stage_world (y : Train.Yielded X) (w : world X) :
  snd (Train.save_stage env cfg y w) = snd (Train.train_body env cfg y w).
Proof.
  rewrite train_body_stages.
  destruct (Train.save_stage env cfg y w) as [[u|e] w1]; [| reflexivity].
  rewrite abort_check_run. reflexivity.
Qed.

(** What the first [if] raises, the body raises. *)
Lemma save_stage_raise (y : Train.Yielded X) (w : world X) (e : exn) :
  fst (Train.save_stage env cfg y w) = Raise e ->
  fst (Train.train_body env cfg y w) = Raise e.
Proof.
  rewrite train_body_stages.
  destruct (Train.save_stage env cfg y w) as [[u|e'] w1]; simpl;
    [discriminate | trivial].
Qed.

(** The first [if], by the value of the trigger: as [train_body_run],
    without the second [if]. *)
Lemma save_stage_run (y : Train.Yielded X) (w : world X) :
  exists f1,
    last_save_time f1 = last_save_time (frame w)
    /\ let step := Train.y_step y in
       let now := clock env step in
       let w1 := mkWorld (sig_int w) (sig_term w) (killer w) f1 (saved w)
                   (trace w ++ [EvWriterLog step]) in
       let f2 := mkFrame (time_start f1) (steps f1) now (current_time f1) in
       let evs := [EvWriterLog step; EvForceFlush; EvSaveCheckpoint step] in
       Train.save_stage env cfg y w =
       match fst (Train.save_trigger cfg step (Train.y_stats y) now w) with
       | Raise e => (Raise e, w1)
       | Ok false => (Ok tt, w1)
       | Ok true =>
           match Config.save_path (Config.log cfg) with
           | None =>
               (Ok tt,
                mkWorld (sig_int w) (sig_term w) (killer w) f2 (saved w)
                  (trace w ++ evs))
           | Some _ =>
               if save_fails env step then
                 (Raise CheckpointIOError,
                  mkWorld (sig_int w) (sig_term w) (killer w) f2 (saved w)
                    (trace w ++ evs))
               else
                 (Ok tt,
                  mkWorld (sig_int w) (sig_term w) (killer w) f2
                    (saved w ++ [(step, Train.y_state y)]) (trace w ++ evs))
           end
       end.
Proof.
  destruct (log_and_tick_run y w) as (f1 & Hrun & Hlast & _).
  exists f1. split; [exact Hlast |]. intros step now w1 f2 evs.
  rewrite (save_trigger_ext step (Train.y_stats y) now w w1)
    by (subst w1; simpl; congruence).
  unfold Train.save_stage. unfold M.bind at 1. rewrite Hrun. cbv beta iota.
  fold step now w1.
  pose proof (save_trigger_reads step (Train.y_stats y) now w1) as Hreads.
  unfold M.bind at 1.
  destruct (Train.save_trigger cfg step (Train.y_stats y) now w1)
    as [[[|]|e] w1'] eqn:Htrig; simpl in Hreads; subst w1';
    unfold Train.save_now, LogManager.save_checkpoint;
    munfold; simpl; fold step; subst evs;
    [| reflexivity | reflexivity].
  destruct (Config.save_path (Config.log cfg)); simpl;
    [destruct (save_fails env step); simpl |];
    rewrite <- ?app_assoc; reflexivity.
Qed.

End BodyFacts.


(** *** Concrete runs of the body *)

(** Step 4 of a hundred, checked 15 s after the last recorded save time,
    with an interval of 10 s and a multiple of 5: the theorem gives the
    save. *)
Lemma save_cadence_witness :
  let X := Toy.externals Toy.calm in
  let env := mkEnv X None 0%float (Toy.paced 3) (fun _ => [])
               (fun _ => []) (fun _ => []) (fun _ => false) in
  let cfg := Toy.config 100 0 4 (Some Config.kfac) (Some "ckpt") None 10 5 in
  let y := Train.mkYielded (X:=X) 4 (mkCheckpointState 5 5 (Some 0) 0.125%float)
             (Toy.calm 4) 0.5%float in
  Cadence.persisted env cfg y (Toy.world0 X).
Proof.
  intros X env cfg y.
  destruct (save_cadence env cfg y (Toy.world0 X)) as (Hiff & _);
    [simpl; lia | reflexivity |].
  apply Hiff. split; [discriminate |]. right. split.
  - vm_compute. reflexivity.
  - exists 0. split; reflexivity.
Defined.

(** C1, the claim as stated fails.  First, at the boundary: with an
    interval of 10 s, a multiple of 5 and a save location, the
    non-forced check of step 4 made exactly 10 s after the last recorded
    save time meets "at least 10 s elapsed" and "(step + 1) mod 5 = 0",
    and the write would succeed, yet nothing is persisted.  Second, on a
    whole run whose checks are 3 s apart, starting 3 s after the start of
    [train], steps 4 and 9 are saved: the time since the last save
    accumulates over the calls. *)
Lemma save_cadence_counterexample :
  let X := Toy.externals Toy.calm in
  let cfg := Toy.config 100 0 4 (Some Config.kfac) (Some "ckpt") None 10 5 in
  let y := Train.mkYielded (X:=X) 4 (mkCheckpointState 5 5 (Some 0) 0.125%float)
             (Toy.calm 4) 0.5%float in
  let at10 := mkEnv X None 0%float (fun _ => 10%float) (fun _ => [])
                (fun _ => [])
                (fun _ => []) (fun _ => false) in
  let paced3 := mkEnv X None 0%float (Toy.paced 3) (fun _ => []) (fun _ => [])
                  (fun _ => []) (fun _ => false) in
  (Config.save_path (Config.log cfg) <> None
   /\ Cadence.due_at_least at10 cfg y (Toy.world0 X)
   /\ ~ Cadence.forced cfg y (Toy.world0 X)
   /\ ~ Cadence.persisted at10 cfg y (Toy.world0 X))
  /\ firstn 2 (Toy.saved_steps (snd (Train.train paced3 cfg (Toy.world0 X))))
     = [4; 9].
Proof.
  intros X cfg y at10 paced3. split; [| vm_compute; reflexivity].
  split; [discriminate |]. split.
  - split; [vm_compute; reflexivity | exists 0; split; reflexivity].
  - split.
    + intros [H | [H | H]]; vm_compute in H; discriminate.
    + intros H. vm_compute in H. discriminate.
Qed.

(** Interval 10 s, multiple 5, every check made 3 s after the last
    recorded save time: none of the steps 0..9 of a hundred is saved. *)
Example no_save_after_3s :
  let X := Toy.externals Toy.calm in
  let env := mkEnv X None 0%float (fun _ => 3%float) (fun _ => []) (fun _ => [])
               (fun _ => []) (fun _ => false) in
  let cfg := Toy.config 100 0 4 (Some Config.kfac) (Some "ckpt") None 10 5 in
  forallb
    (fun s =>
       match saved (snd (Train.train_body env cfg
                           (Train.mkYielded (X:=X) s
                              (mkCheckpointState (s + 1) (s + 1) (Some 0)
                                 0.125%float)
                              (Toy.calm s) 0.5%float)
                           (Toy.world0 X))) with
       | [] => true
       | _ :: _ => false
       end)
    (py_range 0 10) = true.
Proof. vm_compute. reflexivity. Qed.

(** The same check at step 4 when step 4 is the last iteration: the save
    is forced, and the body returns normally. *)
Example forced_save_at_4 :
  let X := Toy.externals Toy.calm in
  let env := mkEnv X None 0%float (fun _ => 3%float) (fun _ => []) (fun _ => [])
               (fun _ => []) (fun _ => false) in
  let cfg := Toy.config 5 0 4 (Some Config.kfac) (Some "ckpt") None 10 5 in
  let st := mkCheckpointState 5 5 (Some 0) 0.125%float : State X in
  let r := Train.train_body env cfg
             (Train.mkYielded (X:=X) 4 st (Toy.calm 4) 0.5%float)
             (Toy.world0 X) in
  fst r = Ok tt /\ saved (snd r) = [(4, st)].
Proof. vm_compute. split; reflexivity. Qed.

(** A NaN real part at step 3: the theorem gives the trigger. *)
Lemma nan_energy_triggers_witness :
  let X := Toy.externals Toy.calm in
  let env := mkEnv X None 0%float (Toy.paced 3) (fun _ => [])
               (fun _ => []) (fun _ => []) (fun _ => false) in
  let cfg := Toy.config 100 0 4 (Some Config.kfac) (Some "ckpt") None 600 1000 in
  let y := Train.mkYielded (X:=X) 3 (mkCheckpointState 4 4 (Some 0) 0.125%float)
             [(nan, 0%float)] 0.5%float in
  Train.save_trigger cfg 3 (Train.y_stats y) (clock env 3) (Toy.world0 X)
  = (Ok true, Toy.world0 X).
Proof.
  intros X env cfg y.
  refine (proj1 (nan_energy_triggers env cfg y (Toy.world0 X) _)).
  exists (nan, 0%float). split; [left; reflexivity | reflexivity].
Defined.

(** C2, the claim as stated fails.  An infinite energy, and an energy
    whose imaginary part is NaN, are non-finite; at step 3 of a hundred,
    12 s after the last recorded save time with an interval of 600 s and
    no stop flag, the trigger evaluates to false, nothing is saved and
    the body returns normally. *)
Lemma nan_energy_counterexample :
  let X := Toy.externals Toy.calm in
  let env := mkEnv X None 0%float (Toy.paced 3) (fun _ => [])
               (fun _ => []) (fun _ => []) (fun _ => false) in
  let cfg := Toy.config 100 0 4 (Some Config.kfac) (Some "ckpt") None 600 1000 in
  let st := mkCheckpointState 4 4 (Some 0) 0.125%float : State X in
  let y_inf := Train.mkYielded (X:=X) 3 st [(infinity, 0%float)] 0.5%float in
  let y_im := Train.mkYielded (X:=X) 3 st [((-1.5)%float, nan)] 0.5%float in
  let w := Toy.world0 X in
  (Abort.nonfinite_energy (Train.y_stats y_inf)
   /\ Train.save_trigger cfg 3 (Train.y_stats y_inf) (clock env 3) w
      = (Ok false, w)
   /\ fst (Train.train_body env cfg y_inf w) = Ok tt
   /\ saved (snd (Train.train_body env cfg y_inf w)) = [])
  /\ (Abort.nonfinite_energy (Train.y_stats y_im)
      /\ Train.save_trigger cfg 3 (Train.y_stats y_im) (clock env 3) w
         = (Ok false, w)
      /\ fst (Train.train_body env cfg y_im w) = Ok tt
      /\ saved (snd (Train.train_body env cfg y_im w)) = []).
Proof.
  intros X env cfg st y_inf y_im w. split.
  - split; [| repeat split; vm_compute; reflexivity].
    exists (infinity, 0%float). split; [left; reflexivity |].
    left. vm_compute. reflexivity.
  - split; [| repeat split; vm_compute; reflexivity].
    exists ((-1.5)%float, nan). split; [left; reflexivity |].
    right. vm_compute. reflexivity.
Qed.

(** A due save whose write fails: the theorem gives the error and the
    untouched store. *)
Lemma last_save_time_follows_trigger_witness :
  let X := Toy.externals Toy.calm in
  let env := mkEnv X None 0%float (Toy.paced 3) (fun _ => [])
               (fun _ => []) (fun _ => []) (fun _ => true) in
  let cfg := Toy.config 100 0 4 (Some Config.kfac) (Some "ckpt") None 10 5 in
  let y := Train.mkYielded (X:=X) 4 (mkCheckpointState 5 5 (Some 0) 0.125%float)
             (Toy.calm 4) 0.5%float in
  let r := Train.train_body env cfg y (Toy.world0 X) in
  fst r = Raise CheckpointIOError /\ saved (snd r) = [].
Proof.
  intros X env cfg y r.
  destruct (last_save_time_follows_trigger env cfg y (Toy.world0 X))
    as (_ & _ & Hfail).
  apply Hfail; [vm_compute; reflexivity | discriminate | reflexivity].
Defined.

(** C8, the claim as stated fails.  The save of step 4 is due 15 s after
    the last recorded save time [0]; its write fails and raises; the
    recorded last save time is then [15], not [0]. *)
Lemma last_save_time_counterexample :
  let X := Toy.externals Toy.calm in
  let env := mkEnv X None 0%float (Toy.paced 3) (fun _ => [])
               (fun _ => []) (fun _ => []) (fun _ => true) in
  let cfg := Toy.config 100 0 4 (Some Config.kfac) (Some "ckpt") None 10 5 in
  let y := Train.mkYielded (X:=X) 4 (mkCheckpointState 5 5 (Some 0) 0.125%float)
             (Toy.calm 4) 0.5%float in
  let w := Toy.world0 X in
  let r := Train.train_body env cfg y w in
  fst r = Raise CheckpointIOError
  /\ saved (snd r) = saved w
  /\ last_save_time (frame w) = 0%float
  /\ last_save_time (frame (snd r)) = 15%float
  /\ last_save_time (frame (snd r)) <> last_save_time (frame w).
Proof.
  intros X env cfg y w r. repeat split; try (vm_compute; reflexivity).
  intros H. vm_compute in H. discriminate.
Qed.

End BodyFacts.

(** ** The generator and the loop of [train] *)

Module LoopFacts.
Section LoopFacts.
Context {X : Externals} (env : Env X) (cfg : Config.t).

(** One iteration of the generator, when the window length is not zero:
    what it yields, what it logs, and where it writes the acceptance
    rate. *)
Lemma train_loop_body_run (g : Train.GenState X) (step : Z) (w : world X) :
  Config.adapt_frequency (Config.mcmc cfg) <> 0 ->
  exists y g',
    Train.train_loop_body cfg g step w =
    (Ok (y, g'),
     mkWorld (sig_int w) (sig_term w) (killer w) (frame w) (saved w)
       (trace w ++ [EvSampler; EvController (step - Train.initial_step g);
                    EvTrainingStep step]))
    /\ Train.y_step y = step
    /\ Train.y_pmove y =
       snd (pmap_mcmc_step X (params (Train.state g))
              (data (Train.state g)) (snd (p_split X (Train.sharded_key g)))
              (mcmc_width (Train.state g)))
    /\ Train.initial_step g' = Train.initial_step g
    /\ Train.pmoves g' =
       <[Z.to_nat ((step - Train.initial_step g)
                   mod Config.adapt_frequency (Config.mcmc cfg))
         := Train.y_pmove y]> (Train.pmoves g).
Proof.
  intros HN. unfold Train.train_loop_body, mcmc.update_mcmc_width, py_mod.
  destruct (p_split X (Train.sharded_key g)) as [k1 sub1].
  destruct (pmap_mcmc_step X _ _ _ _) as [new_data pmove].
  destruct (Z.eqb_spec (Config.adapt_frequency (Config.mcmc cfg)) 0)
    as [|_]; [contradiction |].
  munfold. simpl.
  destruct (_ =? 0); simpl;
    destruct (p_split X k1) as [k2 sub2];
    destruct (training_step X _ _) as [st'' stats]; simpl;
    rewrite <- !app_assoc; simpl;
    do 2 eexists; repeat split.
Qed.

(** C6 (as amended). The acceptance-rate window.  With a window of
    non-zero length [N], the iteration of the generator for the global
    step [s] of a run whose resolved initial step is [s0] calls the
    controller with the index [s - s0] and leaves the window as it was
    except for slot [(s - s0) mod N], which holds the acceptance rate of
    this iteration; the length of the window does not change.  This is
    slot [s mod N] when the run starts from step [0]. *)
Theorem window_slot (g : Train.GenState X) (s : Z) (w : world X) :
  Config.adapt_frequency (Config.mcmc cfg) <> 0 ->
  let N := Config.adapt_frequency (Config.mcmc cfg) in
  let s0 := Train.initial_step g in
  exists y g' w',
    Train.train_loop_body cfg g s w = (Ok (y, g'), w')
    /\ trace w' = trace w ++ [EvSampler; EvController (s - s0);
                              EvTrainingStep s]
    /\ Train.pmoves g' =
       <[Z.to_nat ((s - s0) mod N) := Train.y_pmove y]> (Train.pmoves g)
    /\ length (Train.pmoves g') = length (Train.pmoves g)
    /\ Train.initial_step g' = s0
    /\ (s0 = 0 ->
        Train.pmoves g' =
        <[Z.to_nat (s mod N) := Train.y_pmove y]> (Train.pmoves g)).
Proof.
  intros HN N s0.
  destruct (train_loop_body_run g s w HN)
    as (y & g' & Hrun & _ & _ & Hinit & Hslot).
  exists y, g'. eexists. split; [exact Hrun |].
  split; [reflexivity |]. split; [exact Hslot |].
  split; [rewrite Hslot; apply length_insert |].
  split; [exact Hinit |].
  intros H0. rewrite Hslot. subst s0 N. rewrite H0, Z.sub_0_r. reflexivity.
Qed.

(** The step yielded is the step asked for. *)
Lemma train_loop_body_step (g : Train.GenState X) (step : Z) (w : world X)
    (y : Train.Yielded X) (g' : Train.GenState X) (w' : world X) :
  Train.train_loop_body cfg g step w = (Ok (y, g'), w') ->
  Train.y_step y = step.
Proof.
  unfold Train.train_loop_body.
  destruct (p_split X (Train.sharded_key g)) as [k1 sub1].
  destruct (pmap_mcmc_step X _ _ _ _) as [new_data pmove].
  munfold. simpl.
  destruct (mcmc.update_mcmc_width _ _ _ _ _) as [wp|e]; [| discriminate].
  destruct (p_split X k1) as [k2 sub2].
  destruct (training_step X _ _) as [st'' stats]. simpl.
  intros H. injection H as <- _ _. reflexivity.
Qed.

(** One iteration of the main loop, stage by stage: the generator, the
    signals handled meanwhile, the first [if], the signals handled
    between the two [if]s, the second [if], the signals handled after
    it. *)
Lemma main_loop_stages (s : Z) (l : list Z) (g : Train.GenState X)
    (w : world X) :
  Train.main_loop env cfg (s :: l) g w =
  match Train.train_loop_body cfg g s w with
  | (Raise e, w1) => (Raise e, w1)
  | (Ok (y, g'), w1) =>
      match Signal.deliver_all (signals env s) w1 with
      | (Raise e, w2) => (Raise e, w2)
      | (Ok _, w2) =>
          match Train.save_stage env cfg y w2 with
          | (Raise e, w3) => (Raise e, w3)
          | (Ok _, w3) =>
              match Signal.deliver_all (late_signals env s) w3 with
              | (Raise e, w4) => (Raise e, w4)
              | (Ok _, w4) =>
                  match Train.abort_check y w4 with
                  | (Raise e, w5) => (Raise e, w5)
                  | (Ok _, w5) =>
                      match Signal.deliver_all (after_signals env s) w5 with
                      | (Raise e, w6) => (Raise e, w6)
                      | (Ok _, w6) => Train.main_loop env cfg l g' w6
                      end
                  end
              end
          end
      end
  end.
Proof.
  simpl. unfold M.bind at 1.
  destruct (Train.train_loop_body cfg g s w) as [[[y g']|e] w1];
    [| reflexivity].
  unfold M.bind at 1.
  destruct (Signal.deliver_all (signals env s) w1) as [[[]|e] w2];
    [| reflexivity].
  unfold M.bind at 1. simpl fst. simpl snd.
  rewrite BodyFacts.train_body_with_run.
  destruct (Train.save_stage env cfg y w2) as [[[]|e] w3]; [| reflexivity].
  destruct (Signal.deliver_all (late_signals env s) w3) as [[[]|e] w4];
    [| reflexivity].
  destruct (Train.abort_check y w4) as [[[]|e] w5]; [| reflexivity].
  unfold M.bind.
  destruct (Signal.deliver_all (after_signals env s) w5) as [[[]|e] w6];
    reflexivity.
Qed.

(** Divergence abort ordering.  Let iteration [i] of the main loop yield
    statistics whose energy has a NaN real part, or let the stop flag be
    set when the first [if] of the iteration reads it.  Then, the write
    not failing, the loop logs the step, flushes and calls the checkpoint
    save for step [i] (which persists [(i, state)] when a save location
    is configured); the signals handled before the second [if] run their
    handlers, and unless one of them raises, the run of the loop ends in
    the abort.  The iterations after [i] are not run, whatever they
    are. *)
Lemma divergence_abort (i : Z) (rest : list Z) (g : Train.GenState X)
    (w : world X) (y : Train.Yielded X) (g' : Train.GenState X)
    (w1 w2 : world X) :
  Train.train_loop_body cfg g i w = (Ok (y, g'), w1) ->
  Signal.deliver_all (signals env i) w1 = (Ok tt, w2) ->
  Abort.nan_energy (Train.y_stats y) \/ kill_now (killer w2) = true ->
  save_fails env i = false ->
  exists w3,
    Train.save_stage env cfg y w2 = (Ok tt, w3)
    /\ trace w3 = trace w2 ++ [EvWriterLog i; EvForceFlush; EvSaveCheckpoint i]
    /\ saved w3 =
       saved w2 ++ match Config.save_path (Config.log cfg) with
                   | Some _ => [(i, Train.y_state y)]
                   | None => []
                   end
    /\ Train.main_loop env cfg (i :: rest) g w =
       match Signal.deliver_all (late_signals env i) w3 with
       | (Ok _, w4) => (Raise (SystemExit Train.abort_banner), w4)
       | (Raise e, w4) => (Raise e, w4)
       end
    /\ Train.main_loop env cfg (i :: rest) g w
       = Train.main_loop env cfg [i] g w.
Proof.
  intros Hgen Hsig Habort Hsave.
  pose proof (train_loop_body_step _ _ _ _ _ _ Hgen) as Hstep.
  rewrite <- (BodyFacts.energy_isnan_iff (Train.y_stats y)) in Habort.
  rewrite <- Hstep in Hsave.
  destruct (BodyFacts.save_stage_run env cfg y w2) as (f1 & _ & Hstage).
  cbv zeta in Hstage.
  rewrite BodyFacts.save_trigger_forced, Hsave in Hstage by tauto.
  assert (Hrun : forall l,
            Train.main_loop env cfg (i :: l) g w =
            match Signal.deliver_all (late_signals env i)
                    (snd (Train.save_stage env cfg y w2)) with
            | (Ok _, w4) => (Raise (SystemExit Train.abort_banner), w4)
            | (Raise e, w4) => (Raise e, w4)
            end).
  { intros l. rewrite main_loop_stages, Hgen, Hsig.
    assert (Hok : fst (Train.save_stage env cfg y w2) = Ok tt)
      by (rewrite Hstage; destruct (Config.save_path (Config.log cfg));
          reflexivity).
    assert (Hk : Train.energy_isnan (Train.y_stats y) = true
                 \/ kill_now (killer (snd (Train.save_stage env cfg y w2)))
                    = true).
    { destruct Habort as [Hnan | Hkill]; [left; exact Hnan | right].
      rewrite Hstage. destruct (Config.save_path (Config.log cfg));
        exact Hkill. }
    destruct (Train.save_stage env cfg y w2) as [[[]|e] w3];
      [| discriminate]. simpl snd in *.
    pose proof (SignalFacts.deliver_all_keeps_flag (late_signals env i) w3)
      as Hkeep.
    destruct (Signal.deliver_all (late_signals env i) w3) as [[[]|e] w4];
      [| reflexivity].
    rewrite BodyFacts.abort_check_run. simpl in Hkeep.
    destruct Hk as [-> | Hkill];
      [rewrite orb_true_r | rewrite (Hkeep Hkill)]; reflexivity. }
  exists (snd (Train.save_stage env cfg y w2)).
  split; [| split; [| split; [| split]]].
  - rewrite Hstage. destruct (Config.save_path (Config.log cfg)); reflexivity.
  - rewrite Hstage, Hstep.
    destruct (Config.save_path (Config.log cfg)); reflexivity.
  - rewrite Hstage, Hstep.
    destruct (Config.save_path (Config.log cfg)); simpl;
      rewrite ?app_nil_r; reflexivity.
  - apply Hrun.
  - rewrite !Hrun. reflexivity.
Qed.


End LoopFacts.

Section Banner.
Context {X : Externals} (env : Env X) (cfg : Config.t).

Lemma banner_bind {A B : Type} (c : M.t X A) (k : A -> M.t X B) :
  Abort.banner_only c -> (forall a, Abort.banner_only (k a)) ->
  Abort.banner_only (M.bind c k).
Proof.
  intros Hc Hk w m. unfold M.bind.
  destruct (c w) as [[a|e] w'] eqn:Hrun.
  - apply Hk.
  - simpl. intros H. injection H as ->.
    apply (Hc w). rewrite Hrun. reflexivity.
Qed.

Lemma banner_ret {A : Type} (a : A) : Abort.banner_only (M.ret (X:=X) a).
Proof. intros w m. discriminate. Qed.

Lemma banner_modify (f : world X -> world X) : Abort.banner_only (M.modify f).
Proof. intros w m. discriminate. Qed.

Lemma banner_get : Abort.banner_only (M.get (X:=X)).
Proof. intros w m. discriminate. Qed.

Lemma banner_raise {A : Type} (e : exn) :
  (forall m, e = SystemExit m -> m = Train.abort_banner) ->
  Abort.banner_only (M.raise (X:=X) (A:=A) e).
Proof. intros He w m. simpl. intros H. injection H as H. auto. Qed.

Lemma banner_finally {A : Type} (body : M.t X A) (exit : M.t X unit) :
  Abort.banner_only body -> Abort.banner_only exit ->
  Abort.banner_only (M.finally body exit).
Proof.
  intros Hb He w m. unfold M.finally.
  destruct (body w) as [r w'] eqn:Hbody.
  assert (Hrun : fst (match exit w' with
                      | (Ok _, w'') => (r, w'')
                      | (Raise e, w'') => (Raise e, w'')
                      end) = Raise (SystemExit m) -> m = Train.abort_banner).
  { destruct (exit w') as [[u|e] w''] eqn:Hexit; simpl.
    - intros ->. apply (Hb w). rewrite Hbody. reflexivity.
    - intros H. injection H as ->.
      apply (He w'). rewrite Hexit. reflexivity. }
  destruct r as [a|[]]; try exact Hrun. discriminate.
Qed.

Lemma banner_iterate {A : Type} (n : nat) (body : A -> M.t X A) :
  (forall a, Abort.banner_only (body a)) ->
  forall a, Abort.banner_only (M.iterate n body a).
Proof.
  intros Hbody. induction n as [|n IH]; intros a; simpl.
  - apply banner_ret.
  - apply banner_bind; [apply Hbody | exact IH].
Qed.

(** Closes a goal [banner_only c] for a computation built from the
    operations above. *)
Ltac banner :=
  repeat first
    [ apply banner_ret
    | apply banner_get
    | apply banner_modify
    | apply banner_raise; intros ? ?; congruence
    | apply banner_bind; [| intros ?]
    | match goal with
      | |- Abort.banner_only (if ?b then _ else _) => destruct b
      | |- Abort.banner_only (match ?x with _ => _ end) => destruct x
      | |- Abort.banner_only (let '(_, _) := ?x in _) => destruct x
      end ].

Lemma banner_emit (e : event) : Abort.banner_only (M.emit (X:=X) e).
Proof. apply banner_modify. Qed.

Lemma banner_deliver_all (l : list signum) :
  Abort.banner_only (Signal.deliver_all (X:=X) l).
Proof.
  induction l as [|s l IH]; simpl; [apply banner_ret |].
  apply banner_bind; [| intros _; exact IH].
  unfold Signal.deliver, Signal.exit_gracefully, Signal.signal.
  apply banner_bind; [apply banner_get | intros w0].
  destruct (Signal.handler_of s w0); try (intros w m; discriminate).
  apply banner_bind; [apply banner_get | intros w1].
  destruct (kill_now (killer w1)); intros w m; discriminate.
Qed.

Lemma banner_train_loop_body (g : Train.GenState X) (step : Z) :
  Abort.banner_only (Train.train_loop_body cfg g step).
Proof.
  intros w m. unfold Train.train_loop_body, mcmc.update_mcmc_width, py_mod.
  destruct (p_split X (Train.sharded_key g)) as [k1 sub1].
  destruct (pmap_mcmc_step X _ _ _ _) as [new_data pmove].
  munfold. simpl.
  destruct (_ =? 0); [discriminate |].
  destruct (_ =? 0); simpl;
    destruct (p_split X k1) as [k2 sub2];
    destruct (training_step X _ _) as [st'' stats]; discriminate.
Qed.

Lemma banner_train_body_with (late : list signum) (y : Train.Yielded X) :
  Abort.banner_only (Train.train_body_with env cfg late y).
Proof.
  unfold Train.train_body_with.
  apply banner_bind; [| intros _].
  - intros w m Hraise. apply BodyFacts.save_stage_raise in Hraise.
    exact (BodyFacts.train_body_banner env cfg y w m Hraise).
  - apply banner_bind; [apply banner_deliver_all | intros _].
    unfold Train.abort_check. banner.
Qed.

Lemma banner_main_loop (l : list Z) :
  forall g, Abort.banner_only (Train.main_loop env cfg l g).
Proof.
  induction l as [|step l IH]; intros g; simpl; [apply banner_ret |].
  apply banner_bind; [apply banner_train_loop_body | intros yg].
  apply banner_bind; [apply banner_deliver_all | intros _].
  apply banner_bind; [apply banner_train_body_with | intros _].
  apply banner_bind; [apply banner_deliver_all | intros _].
  apply IH.
Qed.

Lemma banner_train_loop_start :
  Abort.banner_only (Train.train_loop_start env cfg).
Proof.
  unfold Train.train_loop_start, Train.setup_mcmc, Train.resolve_checkpoint,
    LogManager.try_restore_checkpoint, Train.burn_in_phase.
  apply banner_bind; [banner | intros pmoves].
  apply banner_bind; [banner; apply banner_emit | intros [s st]].
  apply banner_bind; [banner; apply banner_emit | intros ko].
  apply banner_bind; [apply banner_emit | intros _].
  apply banner_bind; [| intros kd; apply banner_ret].
  destruct (s =? 0); [| apply banner_ret].
  apply banner_bind; [| intros kd].
  - apply banner_iterate. intros a. unfold Train.burn_in_round.
    destruct (p_split X (fst a)). apply banner_bind; [apply banner_emit |].
    intros _. apply banner_ret.
  - apply banner_bind; [apply banner_emit | intros _].
    apply banner_bind; [| intros _; apply banner_ret].
    destruct (Config.initial_energy (Config.log cfg)); [| apply banner_ret].
    destruct (energy X _); [banner | apply banner_emit].
Qed.

(** C7 (as amended). The abort message.  Whatever ends [train] with a
    [SystemExit] -- a NaN energy or the stop flag, [train] raises it for
    no other reason -- the message is the one fixed banner: thirty
    equals signs, [ ABORT ], thirty equals signs. *)
Theorem abort_message_fixed (w : world X) (m : string) :
  fst (Train.train env cfg w) = Raise (SystemExit m) ->
  m = Train.abort_banner.
Proof.
  revert w m. change (Abort.banner_only (Train.train env cfg)).
  unfold Train.train.
  apply banner_bind; [apply banner_emit | intros _].
  apply banner_bind; [apply banner_modify | intros _].
  apply banner_bind; [intros w m; discriminate | intros _].
  apply banner_bind.
  - apply banner_finally; [| apply banner_emit].
    apply banner_bind; [apply banner_emit | intros _].
    apply banner_bind; [apply banner_train_loop_start | intros g].
    apply banner_main_loop.
  - intros _. apply banner_bind; [apply banner_get | intros w0].
    destruct (time_start (frame w0)); [| apply banner_ret].
    destruct (current_time (frame w0)); [| apply banner_ret].
    destruct (0 <? steps (frame w0)); [apply banner_emit | apply banner_ret].
Qed.

End Banner.

(** *** Concrete runs of the loop *)

(** Iteration 7 yields a NaN energy: the theorem gives the abort, with
    the checkpoint of step 7 as the only one saved, although steps 8 and
    9 were still to run. *)
Lemma divergence_abort_witness :
  let X := Toy.externals (Toy.energy_at 7 (nan, 0%float)) in
  let env := mkEnv X None 0%float (Toy.paced 3) (fun _ => [])
               (fun _ => []) (fun _ => []) (fun _ => false) in
  let cfg := Toy.config 100 0 4 (Some Config.kfac) (Some "ckpt") None 600 1000 in
  let g := Train.mkGen (X:=X) 0 (mkCheckpointState 7 7 (Some 0) 0.125%float) 1
             [0%float; 0%float; 0%float; 0%float] in
  let r := Train.main_loop env cfg [7; 8; 9] g (Toy.world0 X) in
  fst r = Raise (SystemExit Train.abort_banner)
  /\ Toy.saved_steps (snd r) = [7].
Proof.
  intros X env cfg g r. subst r.
  edestruct (divergence_abort env cfg 7 [8; 9] g (Toy.world0 X))
    as (w3 & _ & _ & Hsaved & Hrun & _).
  - vm_compute. reflexivity.
  - vm_compute. reflexivity.
  - left. exists (nan, 0%float). split; [left; reflexivity | reflexivity].
  - reflexivity.
  - rewrite Hrun. simpl. split; [reflexivity |].
    unfold Toy.saved_steps. rewrite Hsaved. reflexivity.
Defined.

(** A whole run of [train] that diverges at step 7: it ends in the
    abort, the checkpoint of step 7 is the only one saved, training
    step 7 ran and training step 8 did not, and the run ends with the
    log line, the flush and the save of step 7, then the writer's exit. *)
Example divergence_at_7 :
  let X := Toy.externals (Toy.energy_at 7 (nan, 0%float)) in
  let env := mkEnv X None 0%float (Toy.paced 3) (fun _ => [])
               (fun _ => []) (fun _ => []) (fun _ => false) in
  let cfg := Toy.config 100 2 4 (Some Config.kfac) (Some "ckpt") None 600 1000 in
  let r := Train.train env cfg (Toy.world0 X) in
  fst r = Raise (SystemExit Train.abort_banner)
  /\ Toy.saved_steps (snd r) = [7]
  /\ existsb (fun e => match e with EvTrainingStep 7 => true | _ => false end)
       (trace (snd r)) = true
  /\ existsb (fun e => match e with EvTrainingStep 8 => true | _ => false end)
       (trace (snd r)) = false
  /\ skipn (length (trace (snd r)) - 4) (trace (snd r))
     = [EvWriterLog 7; EvForceFlush; EvSaveCheckpoint 7; EvWriterExit].
Proof. vm_compute. repeat split. Qed.

(** A whole run interrupted by SIGINT while step 2 is computed: step 2
    is saved, then the abort; the handlers are the original ones again. *)
Example interrupt_at_2 :
  let X := Toy.externals Toy.calm in
  let env := mkEnv X None 0%float (Toy.paced 3)
               (fun s => if s =? 2 then [SIGINT] else []) (fun _ => [])
               (fun _ => []) (fun _ => false) in
  let cfg := Toy.config 100 2 4 (Some Config.kfac) (Some "ckpt") None 600 1000 in
  let r := Train.train env cfg (Toy.world0 X) in
  fst r = Raise (SystemExit Train.abort_banner)
  /\ Toy.saved_steps (snd r) = [2]
  /\ sig_int (snd r) = default_int_handler
  /\ sig_term (snd r) = SIG_DFL
  /\ existsb (fun e => match e with EvTrainingStep 3 => true | _ => false end)
       (trace (snd r)) = false.
Proof. vm_compute. repeat split. Qed.


(** The whole run of [train] with that signal: it ends in the abort,
    the checkpoint save was never called and the store is empty, where
    the same signal handled while step 2 was computed ([interrupt_at_2])
    saves step 2 first. *)
Example late_interrupt_at_2 :
  let X := Toy.externals Toy.calm in
  let env := mkEnv X None 0%float (Toy.paced 3) (fun _ => [])
               (fun s => if s =? 2 then [SIGINT] else []) (fun _ => [])
               (fun _ => false) in
  let cfg := Toy.config 100 2 4 (Some Config.kfac) (Some "ckpt") None 600 1000 in
  let r := Train.train env cfg (Toy.world0 X) in
  fst r = Raise (SystemExit Train.abort_banner)
  /\ kill_now (killer (snd r)) = true
  /\ Toy.saved_steps (snd r) = []
  /\ Trace.count Trace.is_save (trace (snd r)) = 0%nat
  /\ existsb (fun e => match e with EvTrainingStep 2 => true | _ => false end)
       (trace (snd r)) = true
  /\ existsb (fun e => match e with EvTrainingStep 3 => true | _ => false end)
       (trace (snd r)) = false.
Proof. vm_compute. repeat split. Qed.

(** Step 5 of a fresh run with a window of 4: the theorem gives the
    write into slot [5 mod 4 = 1]. *)
Lemma window_slot_witness :
  let X := Toy.externals Toy.calm in
  let cfg := Toy.config 100 0 4 (Some Config.kfac) (Some "ckpt") None 600 1000 in
  let g := Train.mkGen (X:=X) 0 (mkCheckpointState 5 5 (Some 0) 0.125%float) 1
             [0%float; 0%float; 0%float; 0%float] in
  exists y g' w',
    Train.train_loop_body cfg g 5 (Toy.world0 X) = (Ok (y, g'), w')
    /\ Train.pmoves g' = <[1%nat := Train.y_pmove y]> (Train.pmoves g).
Proof.
  intros X cfg g.
  destruct (window_slot cfg g 5 (Toy.world0 X))
    as (y & g' & w' & Hrun & _ & _ & _ & _ & Hfresh);
    [vm_compute; discriminate |].
  exists y, g', w'. split; [exact Hrun |]. exact (Hfresh eq_refl).
Defined.

(** C6, the claim as stated fails.  A run restored at step 3 with the
    same save and restore path and a window of length 2: the iteration
    of global step 3 writes its acceptance rate [0.5] into slot 0, while
    [3 mod 2] is slot 1. *)
Lemma window_slot_counterexample :
  let X := Toy.externals Toy.calm in
  let st := mkCheckpointState 3 3 (Some 0) 0.125%float : State X in
  let env := mkEnv X (Some (3, st)) 0%float (Toy.paced 3) (fun _ => [])
               (fun _ => [])
               (fun _ => []) (fun _ => false) in
  let cfg := Toy.config 100 2 2 (Some Config.kfac) (Some "ckpt") (Some "ckpt")
               600 1000 in
  exists g0 w0 y g1 w1,
    Train.train_loop_start env cfg (Toy.world0 X) = (Ok g0, w0)
    /\ Train.initial_step g0 = 3
    /\ Train.pmoves g0 = [0%float; 0%float]
    /\ Train.train_loop_body cfg g0 3 w0 = (Ok (y, g1), w1)
    /\ Train.y_pmove y = 0.5%float
    /\ Train.pmoves g1 = [0.5%float; 0%float]
    /\ <[Z.to_nat (3 mod 2) := Train.y_pmove y]> (Train.pmoves g0)
       = [0%float; 0.5%float]
    /\ Train.pmoves g1
       <> <[Z.to_nat (3 mod 2) := Train.y_pmove y]> (Train.pmoves g0).
Proof.
  intros X st env cfg. do 5 eexists.
  split; [vm_compute; reflexivity |].
  split; [reflexivity |]. split; [reflexivity |].
  split; [vm_compute; reflexivity |].
  split; [reflexivity |]. split; [reflexivity |]. split; [reflexivity |].
  vm_compute. discriminate.
Qed.

(** The run that diverges at step 7: the theorem gives its message. *)
Lemma abort_message_fixed_witness :
  "============================== ABORT =============================="
  = Train.abort_banner.
Proof.
  pose (X := Toy.externals (Toy.energy_at 7 (nan, 0%float))).
  pose (env := mkEnv X None 0%float (Toy.paced 3) (fun _ => []) (fun _ => [])
                 (fun _ => []) (fun _ => false)).
  pose (cfg := Toy.config 100 2 4 (Some Config.kfac) (Some "ckpt") None
                 600 1000).
  apply (abort_message_fixed env cfg (Toy.world0 X)).
  vm_compute. reflexivity.
Defined.

(** C7, the claim as stated fails.  One run ends because the energy of
    step 7 is NaN, with no signal; another because SIGINT arrives while
    step 2 is computed, with finite energies throughout.  Both end in a
    [SystemExit], and the two messages are the same string. *)
Lemma abort_message_counterexample :
  let Xd := Toy.externals (Toy.energy_at 7 (nan, 0%float)) in
  let Xi := Toy.externals Toy.calm in
  let cfg := Toy.config 100 2 4 (Some Config.kfac) (Some "ckpt") None 600 1000 in
  let diverged :=
    Train.train (mkEnv Xd None 0%float (Toy.paced 3) (fun _ => []) (fun _ => [])
                   (fun _ => []) (fun _ => false)) cfg (Toy.world0 Xd) in
  let interrupted :=
    Train.train (mkEnv Xi None 0%float (Toy.paced 3)
                   (fun s => if s =? 2 then [SIGINT] else [])
                   (fun _ => []) (fun _ => []) (fun _ => false)) cfg
      (Toy.world0 Xi) in
  exists m,
    Abort.exit_message (fst diverged) = Some m
    /\ Abort.exit_message (fst interrupted) = Some m.
Proof. eexists. split; vm_compute; reflexivity. Qed.

End LoopFacts.

(** ** [from_dict] *)

Module FromDictFacts.
Import FromDict.
Section FromDictFacts.
Variable describe : failure -> string.

Lemma append_assoc (a b c : string) :
  String.append (String.append a b) c = String.append a (String.append b c).
Proof.
  induction a as [|ch a IH]; [reflexivity |].
  change (String ch (String.append (String.append a b) c)
          = String ch (String.append a (String.append b c))).
  rewrite IH. reflexivity.
Qed.

(** What the handler re-raises names the class. *)
Lemma reraise_shape (cls : pytype) (r : res pyval) :
  (exists v, reraise (type_name cls) r = Val v)
  \/ (exists m,
        reraise (type_name cls) r
        = Err ValueError (String.append (error_prefix cls) m)).
Proof.
  destruct r as [v | k msg]; cbn [reraise].
  - left. exists v. reflexivity.
  - right. exists msg. unfold error_prefix. rewrite !append_assoc. reflexivity.
Qed.

(** [from_dict] is its [try] statement. *)
Lemma from_dict_unfold (cls : pytype) (dikt : pyval) :
  exists r, from_dict describe cls dikt = reraise (type_name cls) r.
Proof. destruct cls; cbn [from_dict type_name]; eexists; reflexivity. Qed.

(** Looking up a field name is blind to the entries that name no
    field. *)
Lemma assoc_filter_fields (flds : list (string * pytype * option pyval))
    (s : string) (d : list (string * pyval)) :
  existsb (String.eqb s) (field_names flds) = true ->
  assoc s (List.filter (is_field flds) d) = assoc s d.
Proof.
  intros Hs. induction d as [|[k a] d IH]; simpl; [reflexivity |].
  unfold is_field at 1. simpl.
  destruct (existsb (String.eqb k) (field_names flds)) eqn:Hk; simpl.
  - rewrite IH. reflexivity.
  - destruct (String.eqb_spec s k) as [-> | _]; [congruence | exact IH].
Qed.

(** The comprehension over the keys of a dictionary skips the entries
    that name no field. *)
Lemma comprehension_filter
    (flds : list (string * pytype * option pyval))
    (conv : list (string * option (pyval -> res pyval)))
    (d : list (string * pyval)) :
  map fst conv = field_names flds ->
  forall (l : list (string * pyval)) (kwargs : gmap string pyval),
    comprehension describe conv (VDict d)
      (map (fun kv => VStr (fst kv)) l) kwargs
    = comprehension describe conv (VDict (List.filter (is_field flds) d))
        (map (fun kv => VStr (fst kv)) (List.filter (is_field flds) l))
        kwargs.
Proof.
  intros Hconv. induction l as [|[k a] l IH]; intros kwargs;
    [reflexivity |].
  cbn [map List.filter fst]. unfold is_field at 2. cbn [fst].
  cbn [comprehension key_in]. rewrite Hconv.
  destruct (existsb (String.eqb k) (field_names flds)) eqn:Hk.
  - cbn [map comprehension key_in fst]. rewrite Hconv, Hk.
    cbn [getitem]. rewrite (assoc_filter_fields flds k d Hk).
    destruct (assoc k d) as [v|]; [| reflexivity].
    destruct (assoc k conv) as [[convert|]|]; try apply IH.
    destruct (convert v); [apply IH | reflexivity].
  - apply IH.
Qed.

(** C10. [from_dict].  For every class and every value given as the
    dictionary, [from_dict] returns an instance or raises a [ValueError]
    whose message starts with "Error converting dictionary to", the name
    of the class and a colon: whatever was raised inside is re-raised
    so, and nothing else escapes.  And for every dataclass and every
    dictionary the result is the one obtained from the dictionary with
    the entries whose key is not a field removed: extra keys are
    ignored and cause no failure. *)
Theorem from_dict_extra_keys_and_errors (cls : pytype) (dikt : pyval)
    (n : string) (flds : list (string * pytype * option pyval))
    (d : list (string * pyval)) :
  ((exists v, from_dict describe cls dikt = Val v)
   \/ (exists m,
         from_dict describe cls dikt
         = Err ValueError (String.append (error_prefix cls) m)))
  /\ from_dict describe (TData n flds) (VDict d)
     = from_dict describe (TData n flds)
         (VDict (List.filter (is_field flds) d)).
Proof.
  split.
  - destruct (from_dict_unfold cls dikt) as [r ->]. apply reraise_shape.
  - cbn [from_dict]. unfold try_body. cbn [iter_keys].
    rewrite (comprehension_filter flds _ d); [reflexivity |].
    unfold field_names. rewrite map_map. reflexivity.
Qed.

End FromDictFacts.

(** [Log] from a dictionary with an unknown key. *)
Example from_dict_log_extra_key :
  from_dict describe0 Log
    (VDict [("save_path", VStr "ckpt"); ("colour", VInt 3);
            ("save_step_interval", VInt 50)])
  = Val (VObj "Log"
           [("save_path", VStr "ckpt"); ("restore_path", VNone);
            ("save_time_interval", VInt 600);
            ("save_step_interval", VInt 50);
            ("initial_energy", VBool true)]).
Proof. vm_compute. reflexivity. Qed.

(** A nested value that is not a dictionary: the [TypeError] of the
    iteration is re-raised by the inner call, and that [ValueError] by
    the outer one. *)
Example from_dict_nested_error :
  from_dict describe0 Outer
    (VDict [("batch_size", VInt 4); ("log", VInt 3)])
  = Err ValueError
      "Error converting dictionary to Outer: Error converting dictionary to Log: object is not iterable".
Proof. vm_compute. reflexivity. Qed.

(** A required field that is missing: the [TypeError] of the constructor
    is re-raised. *)
Example from_dict_missing_field :
  from_dict describe0 Outer (VDict [("log", VDict [])])
  = Err ValueError
      "Error converting dictionary to Outer: Outer.__init__() missing required positional arguments".
Proof. vm_compute. reflexivity. Qed.

End FromDictFacts.

(** ** Whole runs of [train] *)

Module RunFacts.

Section Along.
Context {X : Externals} (R : world X -> world X -> Prop).
Hypothesis R_refl : forall w, R w w.
Hypothesis R_trans : forall w1 w2 w3, R w1 w2 -> R w2 w3 -> R w1 w3.

Lemma along_ret {A : Type} (a : A) : Run.along R (M.ret a).
Proof. intros w. apply R_refl. Qed.

Lemma along_raise {A : Type} (e : exn) : Run.along R (M.raise (A:=A) e).
Proof. intros w. apply R_refl. Qed.

Lemma along_lift {A : Type} (r : result A) : Run.along R (M.lift r).
Proof. intros w. apply R_refl. Qed.

Lemma along_get : Run.along R M.get.
Proof. intros w. apply R_refl. Qed.

Lemma along_bind {A B : Type} (c : M.t X A) (k : A -> M.t X B) :
  Run.along R c -> (forall a, Run.along R (k a)) ->
  Run.along R (M.bind c k).
Proof.
  intros Hc Hk w. unfold M.bind. specialize (Hc w).
  destruct (c w) as [[a|e] w']; simpl in *; [| exact Hc].
  apply (R_trans _ w'); [exact Hc | apply Hk].
Qed.

Lemma along_finally {A : Type} (body : M.t X A) (exit : M.t X unit) :
  Run.along R body -> Run.along R exit ->
  Run.along R (M.finally body exit).
Proof.
  intros Hb He w. unfold M.finally. specialize (Hb w).
  destruct (body w) as [r w']. specialize (He w'). simpl in Hb.
  assert (Hrun : R w (snd (match exit w' with
                           | (Ok _, w'') => (r, w'')
                           | (Raise e, w'') => (Raise e, w'')
                           end))).
  { destruct (exit w') as [[u|e] w'']; simpl in *;
      apply (R_trans _ w'); assumption. }
  destruct r as [a|[]]; try exact Hrun. exact Hb.
Qed.

Lemma along_iterate {A : Type} (n : nat) (body : A -> M.t X A) :
  (forall a, Run.along R (body a)) ->
  forall a, Run.along R (M.iterate n body a).
Proof.
  intros Hbody. induction n as [|n IH]; intros a; simpl.
  - apply along_ret.
  - apply along_bind; [apply Hbody | exact IH].
Qed.

End Along.

(** Splits a goal [along R c] along the structure of [c]; what is left
    are the state updates. *)
Ltac along_steps Hrefl Htrans :=
  repeat first
    [ apply (along_ret _ Hrefl)
    | apply (along_get _ Hrefl)
    | apply (along_raise _ Hrefl)
    | apply (along_lift _ Hrefl)
    | apply (along_bind _ Htrans); [| intros ?]
    | match goal with
      | |- Run.along _ (if ?b then _ else _) => destruct b
      | |- Run.along _ (match ?x with _ => _ end) => destruct x
      | |- Run.along _ (let '(_, _) := ?x in _) => destruct x
      end ].

Section Signals.
Context {X : Externals} (env : Env X) (cfg : Config.t).




Lemma quiet_emit (e : event) : Run.along (X:=X) Run.same_signals (M.emit e).
Proof. intros w. repeat split. Qed.





End Signals.

Section Handlers.
Context {X : Externals} (env : Env X) (cfg : Config.t).





(** [train], stage by stage: the start of the generator in the world of
    the prelude, the main loop, the exit of the writer whatever happened,
    and the report on normal completion. *)
Lemma train_run (w : world X) :
  exists r2 w2,
    Train.train_loop_start env cfg (Run.prelude env w) = (r2, w2)
    /\ match r2 with
       | Raise e =>
           Train.train env cfg w =
           (Raise e,
            match e with
            | ProcessKilled => w2
            | _ => snd (M.emit EvWriterExit w2)
            end)
       | Ok g =>
           exists r3 w3,
             Train.main_loop env cfg
               (py_range (Train.initial_step g)
                  (Config.iterations (Config.optim cfg))) g w2 = (r3, w3)
             /\ match r3 with
                | Raise e =>
                    Train.train env cfg w =
                    (Raise e,
                     match e with
                     | ProcessKilled => w3
                     | _ => snd (M.emit EvWriterExit w3)
                     end)
                | Ok _ =>
                    fst (Train.train env cfg w) = Ok tt
                    /\ Trace.logged w3 (snd (Train.train env cfg w))
                         (EvWriterExit :: Run.report w3)
                end
       end.
Proof.
  unfold Train.train, Run.prelude.
  destruct (Train.train_loop_start env cfg _) as [[g|e] w2] eqn:Hstart.
  - exists (Ok g), w2. split; [reflexivity |].
    destruct (Train.main_loop env cfg _ g w2) as [[[]|e] w3] eqn:Hloop.
    + exists (Ok tt), w3. split; [reflexivity |].
      munfold. simpl in *. rewrite Hstart. simpl. rewrite Hloop. simpl.
      unfold Run.report, Trace.logged. simpl.
      destruct (time_start (frame w3)); [| split; reflexivity].
      destruct (current_time (frame w3)); [| split; reflexivity].
      destruct (0 <? steps (frame w3)); simpl;
        rewrite <- ?app_assoc; split; reflexivity.
    + exists (Raise e), w3. split; [reflexivity |].
      munfold. simpl in *. rewrite Hstart. simpl. rewrite Hloop.
      destruct e; reflexivity.
  - exists (Raise e), w2. split; [reflexivity |].
    munfold. simpl in *. rewrite Hstart. destruct e; reflexivity.
Qed.




End Handlers.


(** A second call of [train], in the process the first call left with
    its killer's method installed: two SIGINT while step 2 is computed.
    The first stops the killer of this call, which puts the earlier
    killer's method back; the second runs that method, which installs
    the handlers the process had started with.  The run ends with the
    flag set and with handlers that are not those of before the call,
    after two prints. *)
Example second_call_handlers :
  let X := Toy.externals Toy.calm in
  let env := mkEnv X None 0%float (Toy.paced 3)
               (fun s => if s =? 2 then [SIGINT; SIGINT] else [])
               (fun _ => []) (fun _ => []) (fun _ => false) in
  let cfg := Toy.config 100 2 4 (Some Config.kfac) (Some "ckpt") None 600 1000 in
  let earlier := earlier_method default_int_handler SIG_DFL in
  let w := mkWorld earlier earlier (mkKiller false SIG_DFL SIG_DFL)
             (mkFrame None 0 0%float None) [] [] : world X in
  let r := Train.train env cfg w in
  fst r = Raise (SystemExit Train.abort_banner)
  /\ kill_now (killer (snd r)) = true
  /\ sig_int (snd r) = default_int_handler
  /\ sig_int (snd r) <> sig_int w
  /\ Trace.count Trace.is_print (trace (snd r)) = 2%nat
  /\ Toy.saved_steps (snd r) = [2].
Proof.
  vm_compute. repeat split. discriminate.
Qed.

Section Logs.
Context {X : Externals} (env : Env X) (cfg : Config.t).

Lemma same_frame_refl (w : world X) : Run.same_frame w w.
Proof. reflexivity. Qed.

Lemma same_frame_trans (w1 w2 w3 : world X) :
  Run.same_frame w1 w2 -> Run.same_frame w2 w3 -> Run.same_frame w1 w3.
Proof. unfold Run.same_frame. congruence. Qed.

Lemma same_timing_refl (w : world X) : Run.same_timing w w.
Proof. repeat split. Qed.

Lemma same_timing_trans (w1 w2 w3 : world X) :
  Run.same_timing w1 w2 -> Run.same_timing w2 w3 -> Run.same_timing w1 w3.
Proof.
  unfold Run.same_timing. intros (? & ? & ?) (? & ? & ?).
  repeat split; congruence.
Qed.

Lemma silent_refl (f : event -> bool) (w : world X) : Run.silent f w w.
Proof. exists []. rewrite app_nil_r. split; reflexivity. Qed.

Lemma silent_trans (f : event -> bool) (w1 w2 w3 : world X) :
  Run.silent f w1 w2 -> Run.silent f w2 w3 -> Run.silent f w1 w3.
Proof.
  intros (d1 & H1 & F1) (d2 & H2 & F2). exists (d1 ++ d2).
  rewrite H2, H1, <- app_assoc, List.filter_app, F1, F2.
  split; reflexivity.
Qed.

Lemma silent_emit (f : event -> bool) (e : event) :
  f e = false -> Run.along (X:=X) (Run.silent f) (M.emit e).
Proof.
  intros He w. exists [e]. simpl. rewrite He. split; reflexivity.
Qed.

Lemma silent_set_frame (f : event -> bool) (fr : Frame) :
  Run.along (X:=X) (Run.silent f) (M.set_frame fr).
Proof. intros w. exists []. simpl. rewrite app_nil_r. split; reflexivity. Qed.

Lemma silent_persist (f : event -> bool) (c : Z * State X) :
  Run.along (Run.silent f) (M.persist c).
Proof. intros w. exists []. simpl. rewrite app_nil_r. split; reflexivity. Qed.

(** Splits along the structure and closes the logging steps whose event
    [f] does not select. *)
Ltac silence f :=
  along_steps (silent_refl f) (silent_trans f);
  try first
    [ apply silent_emit; reflexivity
    | apply silent_set_frame
    | apply silent_persist ].

Ltac still := along_steps same_frame_refl same_frame_trans;
              try solve [intros ?; reflexivity].

Lemma silent_train_loop_start (f : event -> bool) :
  f EvRestore = false -> f EvOptInit = false -> f EvSampler = false ->
  (forall l, f (EvLogInfo l) = false) ->
  Run.along (Run.silent f) (Train.train_loop_start env cfg).
Proof.
  intros H1 H2 H3 H4.
  unfold Train.train_loop_start, Train.setup_mcmc, Train.resolve_checkpoint,
    LogManager.try_restore_checkpoint, Train.burn_in_phase.
  along_steps (silent_refl f) (silent_trans f);
    try (apply silent_emit; first [assumption | apply H4]).
  apply (along_iterate _ (silent_refl f) (silent_trans f)).
  intros kd0. unfold Train.burn_in_round.
  along_steps (silent_refl f) (silent_trans f).
  apply silent_emit. assumption.
Qed.

Lemma silent_deliver_all (f : event -> bool) (l : list signum) :
  (forall s, f (EvPrint s) = false) ->
  Run.along (X:=X) (Run.silent f) (Signal.deliver_all l).
Proof.
  intros Hf. induction l as [|s l IH]; simpl;
    [apply (along_ret _ (silent_refl f)) |].
  apply (along_bind _ (silent_trans f)); [| intros _; exact IH].
  unfold Signal.deliver, Signal.exit_gracefully.
  along_steps (silent_refl f) (silent_trans f);
    try (apply silent_emit; apply Hf);
    try solve [intros w0; destruct s; apply (silent_refl f)];
    try solve [intros w0; apply (silent_refl f)].
Qed.

Lemma still_train_loop_start :
  Run.along Run.same_frame (Train.train_loop_start env cfg).
Proof.
  unfold Train.train_loop_start, Train.setup_mcmc, Train.resolve_checkpoint,
    LogManager.try_restore_checkpoint, Train.burn_in_phase.
  still.
  apply (along_iterate _ same_frame_refl same_frame_trans).
  intros kd0. unfold Train.burn_in_round. still.
Qed.

Lemma still_train_loop_body (g : Train.GenState X) (step : Z) :
  Run.along Run.same_frame (Train.train_loop_body cfg g step).
Proof. unfold Train.train_loop_body. still. Qed.

Lemma still_deliver_all (l : list signum) :
  Run.along (X:=X) Run.same_frame (Signal.deliver_all l).
Proof.
  induction l as [|s l IH]; simpl; [apply (along_ret _ same_frame_refl) |].
  apply (along_bind _ same_frame_trans); [| intros _; exact IH].
  unfold Signal.deliver, Signal.exit_gracefully, Signal.signal. still.
Qed.

End Logs.

Section Loop.
Context {X : Externals} (env : Env X) (cfg : Config.t).

Lemma py_range_nil (a b : Z) : b <= a -> py_range a b = [].
Proof.
  intros H. unfold py_range. replace (Z.to_nat (b - a)) with 0%nat by lia.
  reflexivity.
Qed.

Lemma py_range_cons (a b : Z) :
  a < b -> py_range a b = a :: py_range (a + 1) b.
Proof.
  intros H. unfold py_range.
  replace (Z.to_nat (b - a)) with (S (Z.to_nat (b - (a + 1)))) by lia.
  simpl. f_equal; [lia |].
  rewrite <- seq_shift, map_map. apply map_ext. intros k. lia.
Qed.

Lemma py_range_snoc (a b : Z) :
  a < b -> py_range a b = py_range a (b - 1) ++ [b - 1].
Proof.
  intros H. unfold py_range.
  replace (Z.to_nat (b - a)) with (S (Z.to_nat (b - 1 - a))) by lia.
  rewrite seq_S, map_app. simpl. do 2 f_equal. lia.
Qed.

Lemma py_range_length (a b : Z) :
  length (py_range a b) = Z.to_nat (b - a).
Proof. unfold py_range. rewrite length_map, length_seq. reflexivity. Qed.

(** A main loop that returns normally ran each stage of its first
    iteration normally. *)
Lemma main_loop_ok_inv (s : Z) (l : list Z) (g : Train.GenState X)
    (w w' : world X) :
  Train.main_loop env cfg (s :: l) g w = (Ok tt, w') ->
  exists y g' w1 w2 w3 w4 w5,
    Train.train_loop_body cfg g s w = (Ok (y, g'), w1)
    /\ Signal.deliver_all (signals env s) w1 = (Ok tt, w2)
    /\ Train.save_stage env cfg y w2 = (Ok tt, w3)
    /\ Signal.deliver_all (late_signals env s) w3 = (Ok tt, w4)
    /\ kill_now (killer w4) || Train.energy_isnan (Train.y_stats y) = false
    /\ Signal.deliver_all (after_signals env s) w4 = (Ok tt, w5)
    /\ Train.main_loop env cfg l g' w5 = (Ok tt, w').
Proof.
  rewrite LoopFacts.main_loop_stages.
  destruct (Train.train_loop_body cfg g s w) as [[[y g']|e] w1] eqn:Hgen;
    [| discriminate].
  destruct (Signal.deliver_all (signals env s) w1) as [[[]|e] w2] eqn:Hsig;
    [| discriminate].
  destruct (Train.save_stage env cfg y w2) as [[[]|e] w3] eqn:Hstage;
    [| discriminate].
  destruct (Signal.deliver_all (late_signals env s) w3) as [[[]|e] w4]
    eqn:Hlate; [| discriminate].
  rewrite BodyFacts.abort_check_run.
  destruct (kill_now (killer w4) || _) eqn:Hexit; [discriminate |].
  destruct (Signal.deliver_all (after_signals env s) w4) as [[[]|e] w5]
    eqn:Hafter; [| discriminate].
  intros Hrest. exists y, g', w1, w2, w3, w4, w5. auto 10.
Qed.

(** The log line and the clock reading, with the frame they leave. *)
Lemma log_and_tick_frame (y : Train.Yielded X) (w : world X) :
  Train.log_and_tick env y w =
  (Ok tt,
   mkWorld (sig_int w) (sig_term w) (killer w)
     (match time_start (frame w) with
      | None =>
          mkFrame (Some (clock env (Train.y_step y))) (steps (frame w))
            (last_save_time (frame w)) (Some (clock env (Train.y_step y)))
      | Some t0 =>
          mkFrame (Some t0) (steps (frame w) + 1) (last_save_time (frame w))
            (Some (clock env (Train.y_step y)))
      end)
     (saved w) (trace w ++ [EvWriterLog (Train.y_step y)])).
Proof. reflexivity. Qed.

(** After the clock reading the body leaves the clock bookkeeping
    alone. *)
Lemma body_rest_timing (y : Train.Yielded X) :
  Run.along Run.same_timing
    (trig <- Train.save_trigger cfg (Train.y_step y) (Train.y_stats y)
               (clock env (Train.y_step y)) ;;
     (if trig then Train.save_now env cfg y else M.ret tt) ;;;
     Train.abort_check y).
Proof.
  intros w.
  unfold Train.save_trigger, Train.save_now, Train.abort_check,
    LogManager.save_checkpoint, py_mod.
  munfold. simpl.
  repeat match goal with
         | |- context [match ?x with _ => _ end] =>
             lazymatch x with
             | context [match _ with _ => _ end] => fail
             | _ => destruct x; simpl
             end
         end;
    repeat split.
Qed.

(** The body is its last three statements run after the log line and the
    clock reading. *)
Lemma train_body_unfold (y : Train.Yielded X) (w : world X) :
  Train.train_body env cfg y w =
  (trig <- Train.save_trigger cfg (Train.y_step y) (Train.y_stats y)
             (clock env (Train.y_step y)) ;;
   (if trig then Train.save_now env cfg y else M.ret tt) ;;;
   Train.abort_check y)
    (snd (Train.log_and_tick env y w)).
Proof.
  unfold Train.train_body. unfold M.bind at 1.
  rewrite log_and_tick_frame. reflexivity.
Qed.

(** What the body does to the clock bookkeeping of [train], however it
    ends: the first body sets the start time, every later one counts a
    step, each records the current time. *)
Lemma train_body_timing (y : Train.Yielded X) (w : world X) :
  let w' := snd (Train.train_body env cfg y w) in
  time_start (frame w') =
    Some (match time_start (frame w) with
          | Some t0 => t0
          | None => clock env (Train.y_step y)
          end)
  /\ steps (frame w') =
     match time_start (frame w) with
     | Some _ => steps (frame w) + 1
     | None => steps (frame w)
     end
  /\ current_time (frame w') = Some (clock env (Train.y_step y)).
Proof.
  intros w'. subst w'. rewrite train_body_unfold.
  destruct (body_rest_timing y (snd (Train.log_and_tick env y w)))
    as (Hts & Hst & Hct).
  rewrite Hts, Hst, Hct, log_and_tick_frame. simpl.
  destruct (time_start (frame w)); repeat split.
Qed.

(** The clock bookkeeping after a main loop that returned normally:
    the start time is that of the first body run since it was unset, the
    step count grew by one for every body but the one that set the
    start time, the current time is that of the last step. *)
Lemma main_loop_timing (l : list Z) :
  forall (g : Train.GenState X) (w w' : world X),
  Train.main_loop env cfg l g w = (Ok tt, w') ->
  l <> [] ->
  time_start (frame w') =
    Some (match time_start (frame w) with
          | Some t0 => t0
          | None => clock env (hd 0 l)
          end)
  /\ steps (frame w') =
     steps (frame w) + Z.of_nat (length l)
     - match time_start (frame w) with Some _ => 0 | None => 1 end
  /\ current_time (frame w') = Some (clock env (List.last l 0)).
Proof.
  induction l as [|s l IH]; intros g w w' Hrun Hne; [congruence |].
  destruct (main_loop_ok_inv s l g w w' Hrun)
    as (y & g' & w1 & w2 & w3' & w3'' & w3 & Hgen & Hsig & Hstage & Hlate & _
        & Hafter & Hrest).
  pose proof (LoopFacts.train_loop_body_step cfg _ _ _ _ _ _ Hgen) as Hstep.
  pose proof (still_train_loop_body cfg g s w) as Hf1.
  rewrite Hgen in Hf1. simpl in Hf1.
  pose proof (still_deliver_all (signals env s) w1) as Hf2.
  rewrite Hsig in Hf2. simpl in Hf2.
  pose proof (train_body_timing y w2) as Hf3.
  rewrite <- BodyFacts.save_stage_world, Hstage in Hf3. simpl in Hf3.
  pose proof (still_deliver_all (late_signals env s) w3') as Hf4.
  rewrite Hlate in Hf4. simpl in Hf4.
  pose proof (still_deliver_all (after_signals env s) w3'') as Hf5.
  rewrite Hafter in Hf5. simpl in Hf5.
  unfold Run.same_frame in Hf1, Hf2, Hf4, Hf5.
  rewrite <- Hf4, <- Hf5, Hf2, Hf1, Hstep in Hf3.
  destruct Hf3 as (Hts & Hst & Hct).
  destruct l as [|s' l'].
  - simpl in Hrest. injection Hrest as <-. simpl.
    rewrite Hts, Hst, Hct.
    destruct (time_start (frame w)); repeat split; lia.
  - destruct (IH g' w3 w' Hrest) as (Hts' & Hst' & Hct'); [discriminate |].
    rewrite Hts', Hst', Hct', Hts, Hst.
    change (List.last (s :: s' :: l') 0) with (List.last (s' :: l') 0).
    change (hd 0 (s :: s' :: l')) with s.
    change (length (s :: s' :: l')) with (S (length (s' :: l'))).
    destruct (time_start (frame w)); repeat split; lia.
Qed.

(** The frame in which the generator starts is the one [train] set. *)
Lemma prelude_frame (w : world X) :
  frame (Run.prelude env w) = mkFrame None 0 (clock0 env) None.
Proof. reflexivity. Qed.

(** X2. Time per step.  When [train] returns normally, the generator had
    started at some step [a], and the run ends with the exit of the
    writer followed, if at least two iterations ran ([a + 1 < iterations]),
    by one report: the time between the check of the first iteration
    [a] and that of the last one, divided by the number of iterations
    less one.  With one iteration or none there is no report, and no
    division. *)
Theorem time_per_step (w w' : world X) :
  Train.train env cfg w = (Ok tt, w') ->
  exists g pre,
    fst (Train.train_loop_start env cfg (Run.prelude env w)) = Ok g
    /\ let a := Train.initial_step g in
       let b := Config.iterations (Config.optim cfg) in
       trace w' =
       pre ++ EvWriterExit ::
         (if a + 1 <? b then
            [EvLogInfo (LogTimePerStep
               (PrimFloat.div
                  (PrimFloat.sub (clock env (b - 1)) (clock env a))
                  (float_of_int (b - a - 1))))]
          else []).
Proof.
  intros Htrain.
  destruct (train_run env cfg w) as (r2 & w2 & Hstart & Hrest).
  destruct r2 as [g|e]; [| rewrite Hrest in Htrain; discriminate].
  destruct Hrest as (r3 & w3 & Hloop & Hend).
  destruct r3 as [[]|e]; [| rewrite Hend in Htrain; discriminate].
  destruct Hend as [_ Hlog]. rewrite Htrain in Hlog. simpl in Hlog.
  exists g, (trace w3). rewrite Hstart. split; [reflexivity |].
  intros a b. rewrite Hlog. simpl. do 2 f_equal.
  pose proof (still_train_loop_start env cfg (Run.prelude env w)) as Hf.
  rewrite Hstart in Hf. unfold Run.same_frame in Hf. simpl in Hf.
  rewrite ?prelude_frame in Hf.
  unfold Run.report.
  destruct (Z.ltb_spec (a + 1) b) as [Hmany | Hfew].
  - fold a b in Hloop.
    destruct (main_loop_timing _ _ _ _ Hloop) as (Hts & Hst & Hct).
    { rewrite py_range_cons by lia. discriminate. }
    rewrite Hf in Hts, Hst. simpl in Hts, Hst.
    assert (Hhd : hd 0 (py_range a b) = a)
      by (rewrite py_range_cons by lia; reflexivity).
    assert (Hlast : List.last (py_range a b) 0 = b - 1)
      by (rewrite py_range_snoc by lia; apply List.last_last).
    rewrite Hhd in Hts. rewrite Hlast in Hct.
    rewrite Hts, Hct, Hst, py_range_length.
    replace (0 + Z.of_nat (Z.to_nat (b - a)) - 1) with (b - a - 1) by lia.
    destruct (Z.ltb_spec 0 (b - a - 1)); [reflexivity | lia].
  - fold a b in Hloop.
    destruct (Z.le_gt_cases b a) as [Hnone | Hone].
    + rewrite py_range_nil in Hloop by lia. simpl in Hloop.
      injection Hloop as <-. rewrite Hf. reflexivity.
    + destruct (main_loop_timing _ _ _ _ Hloop) as (Hts & Hst & Hct).
      { rewrite py_range_cons by lia. discriminate. }
      rewrite Hf in Hts, Hst. simpl in Hts, Hst.
      rewrite Hts, Hct, Hst, py_range_length.
      destruct (Z.ltb_spec 0 (0 + Z.of_nat (Z.to_nat (b - a)) - 1));
        [lia | reflexivity].
Qed.

(** X3. Nothing to do.  When the generator starts at a step that is not
    below the iteration budget, [train] returns normally having only
    closed its writer: no iteration runs, nothing is saved, no time per
    step is reported. *)
Theorem nothing_to_do (w w2 : world X) (g : Train.GenState X) :
  Train.train_loop_start env cfg (Run.prelude env w) = (Ok g, w2) ->
  Config.iterations (Config.optim cfg) <= Train.initial_step g ->
  Train.train env cfg w = (Ok tt, snd (M.emit EvWriterExit w2)).
Proof.
  intros Hstart Hdone.
  destruct (train_run env cfg w) as (r2 & w2' & Hstart' & Hrest).
  rewrite Hstart in Hstart'. injection Hstart' as <- <-.
  destruct Hrest as (r3 & w3 & Hloop & Hend).
  rewrite py_range_nil in Hloop by lia. simpl in Hloop.
  injection Hloop as <- <-. destruct Hend as [Hok Hlog].
  pose proof (still_train_loop_start env cfg (Run.prelude env w)) as Hf.
  rewrite Hstart in Hf. unfold Run.same_frame in Hf. simpl in Hf.
  assert (Hrep : Run.report w2 = [])
    by (unfold Run.report; rewrite Hf; reflexivity).
  rewrite Hrep in Hlog.
  rewrite (surjective_pairing (Train.train env cfg w)), Hok, Hlog.
  reflexivity.
Qed.

(** The signals handled leave the store alone. *)
Lemma deliver_all_saved (l : list signum) :
  forall w : world X, saved (snd (Signal.deliver_all l w)) = saved w.
Proof.
  induction l as [|s l IH]; intros w; [reflexivity |].
  simpl. unfold M.bind.
  assert (Hs : saved (snd (Signal.deliver s w)) = saved w).
  { unfold Signal.deliver, Signal.exit_gracefully. munfold. simpl.
    destruct (Signal.handler_of s w); simpl; try reflexivity.
    destruct (kill_now (killer w)); reflexivity. }
  destruct (Signal.deliver s w) as [[u|e] w1]; simpl in *; [| exact Hs].
  rewrite IH. exact Hs.
Qed.

(** The signals handled between the two [if]s change neither the store
    nor the local variables of [train]: what the body persists and the
    save time it records are those of the body run without them. *)
Lemma train_body_with_store (late : list signum) (y : Train.Yielded X)
    (w : world X) :
  saved (snd (Train.train_body_with env cfg late y w))
  = saved (snd (Train.train_body env cfg y w))
  /\ frame (snd (Train.train_body_with env cfg late y w))
     = frame (snd (Train.train_body env cfg y w)).
Proof.
  rewrite BodyFacts.train_body_with_run, <- BodyFacts.save_stage_world.
  destruct (Train.save_stage env cfg y w) as [[[]|e] w1]; simpl;
    [| split; reflexivity].
  pose proof (deliver_all_saved late w1) as Hsaved.
  pose proof (still_deliver_all late w1) as Hframe.
  unfold Run.same_frame in Hframe.
  destruct (Signal.deliver_all late w1) as [[[]|e] w2]; simpl in *;
    [rewrite BodyFacts.abort_check_run; simpl |]; split; assumption.
Qed.

Lemma own_events_app (d1 d2 : list event) :
  Run.own_events (d1 ++ d2) = Run.own_events d1 ++ Run.own_events d2.
Proof. apply List.filter_app. Qed.

(** Handled signals log nothing but what the handlers print, and leave
    the local variables of [train] and the store alone. *)
Lemma deliver_all_own (l : list signum) (w : world X) :
  let w' := snd (Signal.deliver_all l w) in
  Run.own_events (trace w') = Run.own_events (trace w)
  /\ frame w' = frame w
  /\ saved w' = saved w.
Proof.
  intros w'. subst w'.
  destruct (silent_deliver_all (X:=X) (fun e => negb (Trace.is_print e)) l
              ltac:(reflexivity) w) as (d & Htd & Hd).
  split; [| split].
  - rewrite Htd, own_events_app. fold (Run.own_events d) in Hd.
    rewrite Hd, app_nil_r. reflexivity.
  - apply (still_deliver_all l w).
  - apply deliver_all_saved.
Qed.

(** The first [if] of the last iteration, when it returns: it did
    save. *)
Lemma save_stage_last (y : Train.Yielded X) (w w' : world X) :
  Train.y_step y = Config.iterations (Config.optim cfg) - 1 ->
  Train.save_stage env cfg y w = (Ok tt, w') ->
  trace w' =
    trace w ++ [EvWriterLog (Train.y_step y); EvForceFlush;
                EvSaveCheckpoint (Train.y_step y)]
  /\ last_save_time (frame w') = clock env (Train.y_step y)
  /\ (Config.save_path (Config.log cfg) <> None ->
      saved w' = saved w ++ [(Train.y_step y, Train.y_state y)]).
Proof.
  intros Hlast.
  destruct (BodyFacts.save_stage_run env cfg y w) as (f1 & _ & Hrun).
  cbv zeta in Hrun. rewrite Hrun. clear Hrun.
  rewrite BodyFacts.save_trigger_forced by tauto.
  destruct (Config.save_path (Config.log cfg));
    try destruct (save_fails env (Train.y_step y));
    try discriminate;
    intros H; injection H as <-; simpl; repeat split; congruence.
Qed.

(** X4. Completion saves the last step.  When the main loop over the
    steps [a .. iterations - 1], at least one, returns normally, the last
    three effects of the program itself (what signal handlers print
    aside) are the log line, the flush and the call of the checkpoint
    save for step [iterations - 1]; the last save time is the time of
    that last check; and when a save location is configured the last
    checkpoint in the store is that of step [iterations - 1].  (The stop
    flag may be set all the same, by a signal handled after the second
    [if] of the last iteration: [flag_set_after_last_read].) *)
Theorem completion_saves_last_step (a : Z) (g : Train.GenState X)
    (w w' : world X) :
  a < Config.iterations (Config.optim cfg) ->
  Train.main_loop env cfg (py_range a (Config.iterations (Config.optim cfg)))
    g w = (Ok tt, w') ->
  let final := Config.iterations (Config.optim cfg) - 1 in
  (exists pre,
     Run.own_events (trace w') =
     pre ++ [EvWriterLog final; EvForceFlush; EvSaveCheckpoint final])
  /\ last_save_time (frame w') = clock env final
  /\ (Config.save_path (Config.log cfg) <> None ->
      exists pre st, saved w' = pre ++ [(final, st)]).
Proof.
  intros Ha. rewrite py_range_snoc by exact Ha.
  generalize (py_range a (Config.iterations (Config.optim cfg) - 1)).
  intros l0. revert g w.
  induction l0 as [|s l0 IH]; intros g w Hrun final.
  - destruct (main_loop_ok_inv _ _ _ _ _ Hrun)
      as (y & g' & w1 & w2 & w3 & w4 & w5 & Hgen & _ & Hstage & Hlate & _
          & Hafter & Hrest).
    simpl in Hrest. injection Hrest as <-.
    pose proof (LoopFacts.train_loop_body_step cfg _ _ _ _ _ _ Hgen) as Hstep.
    destruct (save_stage_last y w2 w3 Hstep Hstage) as (Htr & Hl & Hsv).
    rewrite Hstep in Htr, Hl, Hsv.
    destruct (deliver_all_own
                (late_signals env (Config.iterations (Config.optim cfg) - 1))
                w3) as (Ho4 & Hf4 & Hs4).
    destruct (deliver_all_own
                (after_signals env (Config.iterations (Config.optim cfg) - 1))
                w4) as (Ho5 & Hf5 & Hs5).
    rewrite Hlate in Ho4, Hf4, Hs4. rewrite Hafter in Ho5, Hf5, Hs5.
    simpl in Ho4, Hf4, Hs4, Ho5, Hf5, Hs5.
    split; [| split].
    + exists (Run.own_events (trace w2)).
      rewrite Ho5, Ho4, Htr, own_events_app. reflexivity.
    + rewrite Hf5, Hf4. exact Hl.
    + intros Hpath. exists (saved w2), (Train.y_state y).
      rewrite Hs5, Hs4. apply Hsv. exact Hpath.
  - simpl in Hrun.
    destruct (main_loop_ok_inv _ _ _ _ _ Hrun)
      as (y & g' & w1 & w2 & w3 & w4 & w5 & _ & _ & _ & _ & _ & _ & Hrest).
    exact (IH g' w5 Hrest).
Qed.

Lemma save_calls_app (d1 d2 : list event) :
  Run.save_calls (d1 ++ d2) = Run.save_calls d1 ++ Run.save_calls d2.
Proof.
  induction d1 as [|e d1 IH]; [reflexivity |].
  destruct e; simpl; rewrite IH; reflexivity.
Qed.

Lemma save_calls_silent (d : list event) :
  List.filter Trace.is_save d = [] -> Run.save_calls d = [].
Proof.
  induction d as [|e d IH]; [reflexivity |].
  destruct e; simpl; try exact IH. discriminate.
Qed.

Lemma silent_train_loop_body (f : event -> bool) (g : Train.GenState X)
    (step : Z) :
  f EvSampler = false -> (forall t, f (EvController t) = false) ->
  (forall t, f (EvTrainingStep t) = false) ->
  Run.along (Run.silent f) (Train.train_loop_body cfg g step).
Proof.
  intros H1 H2 H3. unfold Train.train_loop_body.
  along_steps (@silent_refl X f) (@silent_trans X f);
    apply silent_emit; auto.
Qed.

Lemma silent_train_body (f : event -> bool) (y : Train.Yielded X) :
  (forall t, f (EvWriterLog t) = false) -> f EvForceFlush = false ->
  (forall t, f (EvSaveCheckpoint t) = false) ->
  Run.along (Run.silent f) (Train.train_body env cfg y).
Proof.
  intros H1 H2 H3.
  unfold Train.train_body, Train.log_and_tick, Train.save_trigger,
    Train.save_now, Train.abort_check, LogManager.save_checkpoint.
  along_steps (@silent_refl X f) (@silent_trans X f);
    first [ apply silent_emit; auto
          | apply silent_set_frame
          | apply silent_persist ].
Qed.

(** The save calls of one body: none, or the one of its step. *)
Lemma train_body_save_calls (y : Train.Yielded X) (w : world X) :
  exists d,
    trace (snd (Train.train_body env cfg y w)) = trace w ++ d
    /\ (Run.save_calls d = [] \/ Run.save_calls d = [Train.y_step y]).
Proof.
  destruct (BodyFacts.train_body_run env cfg y w) as (f1 & _ & Hrun).
  cbv zeta in Hrun. rewrite Hrun. clear Hrun.
  destruct (fst (Train.save_trigger cfg _ _ _ w)) as [[|]|e]; simpl.
  - exists [EvWriterLog (Train.y_step y); EvForceFlush;
            EvSaveCheckpoint (Train.y_step y)].
    split; [| right; reflexivity].
    destruct (Config.save_path (Config.log cfg));
      [destruct (save_fails env (Train.y_step y)) |]; reflexivity.
  - exists [EvWriterLog (Train.y_step y)]. split; [reflexivity | left; reflexivity].
  - exists [EvWriterLog (Train.y_step y)]. split; [reflexivity | left; reflexivity].
Qed.

Lemma sublist_head_or_nil (s : Z) (l c : list Z) :
  c = [] \/ c = [s] -> sublist c (s :: l).
Proof.
  intros [-> | ->]; [apply sublist_nil_l |].
  apply sublist_skip. apply sublist_nil_l.
Qed.

(** X5. Save calls in step order.  Whatever the steps the main loop is
    given and however it ends, the steps of its calls of the checkpoint
    save, in the order of the calls, are a sublist of those steps: a
    step is saved at most once, no other step is saved, and the saves
    follow the order of the iterations. *)
Theorem save_calls_in_step_order (l : list Z) (g : Train.GenState X)
    (w : world X) :
  exists d,
    trace (snd (Train.main_loop env cfg l g w)) = trace w ++ d
    /\ sublist (Run.save_calls d) l.
Proof.
  revert g w. induction l as [|s l IH]; intros g w.
  - exists []. simpl. rewrite app_nil_r. split; [reflexivity | constructor].
  - rewrite LoopFacts.main_loop_stages.
    destruct (silent_train_loop_body Trace.is_save g s
                ltac:(reflexivity) ltac:(reflexivity) ltac:(reflexivity) w)
      as (d1 & Ht1 & Hs1).
    apply save_calls_silent in Hs1.
    destruct (Train.train_loop_body cfg g s w) as [[[y g']|e] w1] eqn:Hgen;
      simpl in Ht1.
    2:{ exists d1. split; [exact Ht1 |]. rewrite Hs1. apply sublist_nil_l. }
    pose proof (LoopFacts.train_loop_body_step cfg _ _ _ _ _ _ Hgen) as Hstep.
    destruct (silent_deliver_all (X:=X) Trace.is_save (signals env s)
                ltac:(reflexivity) w1) as (d2 & Ht2 & Hs2).
    apply save_calls_silent in Hs2.
    destruct (Signal.deliver_all (signals env s) w1) as [[[]|e] w2];
      simpl in Ht2.
    2:{ exists (d1 ++ d2). simpl. rewrite Ht2, Ht1, <- app_assoc.
        split; [reflexivity |].
        rewrite save_calls_app, Hs1, Hs2. apply sublist_nil_l. }
    destruct (train_body_save_calls y w2) as (d3 & Ht3 & Hs3).
    rewrite <- BodyFacts.save_stage_world in Ht3. rewrite Hstep in Hs3.
    destruct (Train.save_stage env cfg y w2) as [[[]|e] w3]; simpl in Ht3.
    2:{ exists (d1 ++ d2 ++ d3). simpl.
        rewrite Ht3, Ht2, Ht1, <- !app_assoc. split; [reflexivity |].
        apply sublist_head_or_nil.
        rewrite !save_calls_app, Hs1, Hs2. exact Hs3. }
    destruct (silent_deliver_all (X:=X) Trace.is_save (late_signals env s)
                ltac:(reflexivity) w3) as (d4 & Ht4 & Hs4).
    apply save_calls_silent in Hs4.
    destruct (Signal.deliver_all (late_signals env s) w3) as [[[]|e] w4];
      simpl in Ht4.
    2:{ exists (d1 ++ d2 ++ d3 ++ d4). simpl.
        rewrite Ht4, Ht3, Ht2, Ht1, <- !app_assoc. split; [reflexivity |].
        apply sublist_head_or_nil.
        rewrite !save_calls_app, Hs1, Hs2, Hs4, app_nil_r. exact Hs3. }
    rewrite BodyFacts.abort_check_run.
    destruct (kill_now (killer w4) || _).
    { exists (d1 ++ d2 ++ d3 ++ d4). simpl.
      rewrite Ht4, Ht3, Ht2, Ht1, <- !app_assoc. split; [reflexivity |].
      apply sublist_head_or_nil.
      rewrite !save_calls_app, Hs1, Hs2, Hs4, app_nil_r. exact Hs3. }
    destruct (silent_deliver_all (X:=X) Trace.is_save (after_signals env s)
                ltac:(reflexivity) w4) as (d5 & Ht5 & Hs5).
    apply save_calls_silent in Hs5.
    destruct (Signal.deliver_all (after_signals env s) w4) as [[[]|e] w5];
      simpl in Ht5.
    2:{ exists (d1 ++ d2 ++ d3 ++ d4 ++ d5). simpl.
        rewrite Ht5, Ht4, Ht3, Ht2, Ht1, <- !app_assoc. split; [reflexivity |].
        apply sublist_head_or_nil.
        rewrite !save_calls_app, Hs1, Hs2, Hs4, Hs5, app_nil_r. exact Hs3. }
    destruct (IH g' w5) as (d6 & Ht6 & Hs6).
    exists (d1 ++ d2 ++ d3 ++ d4 ++ d5 ++ d6).
    rewrite Ht6, Ht5, Ht4, Ht3, Ht2, Ht1, <- !app_assoc. split; [reflexivity |].
    rewrite !save_calls_app, Hs1, Hs2, Hs4, Hs5. simpl.
    destruct Hs3 as [-> | ->]; simpl.
    + apply sublist_cons. exact Hs6.
    + apply sublist_skip. exact Hs6.
Qed.

Lemma generator_filter_silent (d : list event) :
  List.filter Run.is_generator d = [] ->
  forall d', List.filter Run.is_generator (d ++ d')
             = List.filter Run.is_generator d'.
Proof. intros Hd d'. rewrite List.filter_app, Hd. reflexivity. Qed.

(** X6. The order of sampling, width adaptation and training.  With a
    window of non-zero length, the generator's events of a main loop over
    the steps [l], started at resolved initial step [s0], are exactly,
    for each of the first [k] steps [s] of [l] in turn, one sampler call,
    one controller call with index [s - s0] and one training step [s]:
    no two iterations overlap and none is skipped.  Here [k] is the
    number of iterations started: all of them when the loop returns
    normally, at least one when there is any. *)
Theorem generator_order (l : list Z) :
  Config.adapt_frequency (Config.mcmc cfg) <> 0 ->
  forall (g : Train.GenState X) (w : world X),
  exists k d,
    (k <= length l)%nat
    /\ trace (snd (Train.main_loop env cfg l g w)) = trace w ++ d
    /\ List.filter Run.is_generator d =
       concat (map (Run.iteration_events (Train.initial_step g)) (firstn k l))
    /\ (fst (Train.main_loop env cfg l g w) = Ok tt -> k = length l)
    /\ (l <> [] -> (1 <= k)%nat).
Proof.
  intros HN. induction l as [|s l IH]; intros g w.
  - exists 0%nat, []. simpl. rewrite app_nil_r.
    repeat split; try reflexivity; try lia. congruence.
  - rewrite LoopFacts.main_loop_stages.
    destruct (LoopFacts.train_loop_body_run cfg g s w HN)
      as (y & g' & Hgen & _ & _ & Hinit & _).
    rewrite Hgen.
    match goal with
    | |- context [Signal.deliver_all _ ?w1] => set (W1 := w1)
    end.
    assert (Ht1 : trace W1
                  = trace w ++ Run.iteration_events (Train.initial_step g) s)
      by reflexivity.
    clearbody W1. clear Hgen.
    (* the stages after the generator log nothing of the generator *)
    assert (Hrest : forall (r : result unit) (w' : world X) (d : list event),
              trace w' = trace W1 ++ d ->
              List.filter Run.is_generator d = [] ->
              r <> Ok tt ->
              exists k d0,
                (k <= length (s :: l))%nat
                /\ trace (snd (r, w')) = trace w ++ d0
                /\ List.filter Run.is_generator d0 =
                   concat (map (Run.iteration_events (Train.initial_step g))
                             (firstn k (s :: l)))
                /\ (fst (r, w') = Ok tt -> k = length (s :: l))
                /\ (s :: l <> [] -> (1 <= k)%nat)).
    { intros r w' d Ht Hs Hr.
      exists 1%nat, (Run.iteration_events (Train.initial_step g) s ++ d).
      simpl fst. simpl snd. rewrite Ht, Ht1, <- app_assoc.
      split; [simpl; lia |]. split; [reflexivity |].
      split; [| split; [intros H; contradiction | lia]].
      rewrite List.filter_app, Hs. reflexivity. }
    destruct (silent_deliver_all (X:=X) Run.is_generator (signals env s)
                ltac:(reflexivity) W1) as (d2 & Ht2 & Hs2).
    destruct (Signal.deliver_all (signals env s) W1) as [[[]|e] w2];
      simpl in Ht2.
    2:{ apply (Hrest _ _ d2 Ht2 Hs2). discriminate. }
    destruct (silent_train_body Run.is_generator y
                ltac:(reflexivity) ltac:(reflexivity) ltac:(reflexivity) w2)
      as (d3 & Ht3 & Hs3).
    rewrite <- BodyFacts.save_stage_world in Ht3.
    destruct (Train.save_stage env cfg y w2) as [[[]|e] w3]; simpl in Ht3.
    2:{ apply (Hrest _ _ (d2 ++ d3)); [| | discriminate].
        - rewrite Ht3, Ht2, <- app_assoc. reflexivity.
        - rewrite List.filter_app, Hs2, Hs3. reflexivity. }
    destruct (silent_deliver_all (X:=X) Run.is_generator (late_signals env s)
                ltac:(reflexivity) w3) as (d4 & Ht4 & Hs4).
    assert (Ht : forall w4 : world X, trace w4 = trace w3 ++ d4 ->
              trace w4 = trace W1 ++ (d2 ++ d3 ++ d4))
      by (intros w4 H; rewrite H, Ht3, Ht2, <- !app_assoc; reflexivity).
    assert (Hs : List.filter Run.is_generator (d2 ++ d3 ++ d4) = [])
      by (rewrite !List.filter_app, Hs2, Hs3, Hs4; reflexivity).
    destruct (Signal.deliver_all (late_signals env s) w3) as [[[]|e] w4];
      simpl in Ht4.
    2:{ apply (Hrest _ _ _ (Ht _ Ht4) Hs). discriminate. }
    rewrite BodyFacts.abort_check_run.
    destruct (kill_now (killer w4) || _).
    { apply (Hrest _ _ _ (Ht _ Ht4) Hs). discriminate. }
    destruct (silent_deliver_all (X:=X) Run.is_generator (after_signals env s)
                ltac:(reflexivity) w4) as (d5 & Ht5 & Hs5).
    assert (Ht' : forall w5 : world X, trace w5 = trace w4 ++ d5 ->
              trace w5 = trace W1 ++ ((d2 ++ d3 ++ d4) ++ d5))
      by (intros w5 H; rewrite H, (Ht _ Ht4), <- !app_assoc; reflexivity).
    assert (Hs' : List.filter Run.is_generator ((d2 ++ d3 ++ d4) ++ d5) = [])
      by (rewrite List.filter_app, Hs, Hs5; reflexivity).
    destruct (Signal.deliver_all (after_signals env s) w4) as [[[]|e] w5];
      simpl in Ht5.
    2:{ apply (Hrest _ _ _ (Ht' _ Ht5) Hs'). discriminate. }
    destruct (IH g' w5) as (k & d6 & Hk & Ht6 & Hf6 & Hok & _).
    exists (S k), (Run.iteration_events (Train.initial_step g) s
                   ++ ((d2 ++ d3 ++ d4) ++ d5) ++ d6).
    rewrite Ht6, (Ht' _ Ht5), Ht1, <- !app_assoc.
    split; [simpl; lia |]. split; [reflexivity |].
    split; [| split; [intros H; rewrite (Hok H); reflexivity | lia]].
    cbn [firstn map concat]. rewrite List.filter_app.
    replace (d2 ++ d3 ++ d4 ++ d5 ++ d6)
      with (((d2 ++ d3 ++ d4) ++ d5) ++ d6)
      by (rewrite <- !app_assoc; reflexivity).
    rewrite (generator_filter_silent _ Hs'), Hf6, Hinit.
    reflexivity.
Qed.

(** X7. A zero step multiple.  With [save_step_interval = 0], the first
    non-forced check made more than [save_time_interval] seconds after
    the last recorded save time raises [ZeroDivisionError] out of the
    body: only the log line was written, nothing is saved and the last
    save time is as it was. *)
Theorem zero_step_multiple (y : Train.Yielded X) (w : world X) :
  Config.save_step_interval (Config.log cfg) = 0 ->
  ~ Cadence.forced cfg y w ->
  PrimFloat.ltb (float_of_int (Config.save_time_interval (Config.log cfg)))
    (Cadence.elapsed env y w) = true ->
  exists w',
    Train.train_body env cfg y w = (Raise ZeroDivisionError, w')
    /\ trace w' = trace w ++ [EvWriterLog (Train.y_step y)]
    /\ saved w' = saved w
    /\ last_save_time (frame w') = last_save_time (frame w).
Proof.
  intros Hzero Hfree Hlt.
  destruct (BodyFacts.train_body_run env cfg y w) as (f1 & Hlast & Hrun).
  cbv zeta in Hrun. rewrite Hrun. clear Hrun.
  rewrite (BodyFacts.save_trigger_periodic cfg _ _ _ _ Hfree).
  unfold Cadence.elapsed in Hlt. rewrite Hlt, Hzero. simpl.
  eexists. split; [reflexivity |]. repeat split. exact Hlast.
Qed.

End Loop.

Section Multiple.
Context {X : Externals} (env : Env X).

(** A pair from its two projections. *)
Lemma pair_of_projections {A B : Type} (p : A * B) (a : A) (b : B) :
  fst p = a -> snd p = b -> p = (a, b).
Proof. destruct p. simpl. intros -> ->. reflexivity. Qed.

(** X8. The step multiple is read only when the time has elapsed.  When
    the save is forced, or when not more than [save_time_interval]
    seconds lie between the last recorded save time and the check, the
    body does the same whatever [save_step_interval] is, zero
    included. *)
Theorem step_multiple_unread (cfg : Config.t) (m : Z) (y : Train.Yielded X)
    (w : world X) :
  Cadence.forced cfg y w
  \/ PrimFloat.ltb (float_of_int (Config.save_time_interval (Config.log cfg)))
       (Cadence.elapsed env y w) = false ->
  Train.train_body env (Run.with_multiple cfg m) y w
  = Train.train_body env cfg y w.
Proof.
  intros Hskip.
  rewrite (train_body_unfold env cfg), (train_body_unfold env _).
  rewrite log_and_tick_frame.
  match goal with
  | |- _ ?w1 = _ => set (W1 := w1)
  end.
  assert (Hk : kill_now (killer W1) = kill_now (killer w)) by reflexivity.
  assert (Hl : last_save_time (frame W1) = last_save_time (frame w))
    by (subst W1; simpl; destruct (time_start (frame w)); reflexivity).
  assert (Htrig : forall c : Config.t,
            Config.iterations (Config.optim c)
            = Config.iterations (Config.optim cfg) ->
            Config.save_time_interval (Config.log c)
            = Config.save_time_interval (Config.log cfg) ->
            exists b,
              Train.save_trigger c (Train.y_step y) (Train.y_stats y)
                (clock env (Train.y_step y)) W1 = (Ok b, W1)
              /\ Train.save_trigger cfg (Train.y_step y) (Train.y_stats y)
                   (clock env (Train.y_step y)) W1 = (Ok b, W1)).
  { intros c Hit Hint.
    assert (Hdec : Cadence.forced cfg y w \/ ~ Cadence.forced cfg y w).
    { unfold Cadence.forced.
      destruct (Train.energy_isnan (Train.y_stats y)); [tauto |].
      destruct (Z.eq_dec (Train.y_step y)
                  (Config.iterations (Config.optim cfg) - 1)); [tauto |].
      destruct (kill_now (killer w)); [tauto |].
      right. intros [? | [? | ?]]; congruence. }
    destruct Hdec as [Hforced | Hfree].
    - exists true.
      split; apply pair_of_projections;
        try apply BodyFacts.save_trigger_reads;
        apply BodyFacts.save_trigger_forced;
        unfold Cadence.forced in Hforced; rewrite ?Hit, Hk; exact Hforced.
    - destruct Hskip as [Hforced | Hlt]; [contradiction |].
      exists false.
      split; apply pair_of_projections;
        try apply BodyFacts.save_trigger_reads;
        (rewrite BodyFacts.save_trigger_periodic;
         [| unfold Cadence.forced in Hfree; rewrite ?Hit, Hk; exact Hfree]);
        unfold Cadence.elapsed in Hlt; rewrite ?Hint, Hl, Hlt; reflexivity. }
  destruct (Htrig (Run.with_multiple cfg m) eq_refl eq_refl)
    as (b & Hnew & Hold).
  unfold M.bind at 1 3. rewrite Hnew, Hold. reflexivity.
Qed.

End Multiple.

Section Start.
Context {X : Externals} (env : Env X) (cfg : Config.t).

(** The restore-or-initialize step, with its value. *)
Lemma resolve_checkpoint_value (w : world X) :
  exists c,
    fst (Train.resolve_checkpoint env cfg w) = Ok c
    /\ c = (if Train.warm_start cfg then 0
            else fst (match fst (LogManager.try_restore_checkpoint env cfg w)
                      with
                      | Ok (Some a) => a
                      | _ => Train.initialize_state cfg
                      end),
            snd (match fst (LogManager.try_restore_checkpoint env cfg w) with
                 | Ok (Some a) => a
                 | _ => Train.initialize_state cfg
                 end)).
Proof.
  unfold Train.resolve_checkpoint, LogManager.try_restore_checkpoint.
  munfold. simpl.
  destruct (match Config.restore_path (Config.log cfg) with
            | Some _ => restore_found env
            | None => None
            end) as [[s0 st0]|];
    [| destruct (Train.initialize_state cfg)];
    eexists; split; reflexivity.
Qed.

(** The restore only logs; its value does not depend on the world. *)
Lemma try_restore_value (w w0 : world X) :
  fst (LogManager.try_restore_checkpoint env cfg w)
  = fst (LogManager.try_restore_checkpoint env cfg w0).
Proof. reflexivity. Qed.

(** X9. What the start of the generator keeps of the adopted state.
    When [train_loop] reaches its main loop, the state it holds has the
    parameters and the step width of the adopted state (the restored
    checkpoint, or the fresh state when none is restored); its optimizer
    state is the restored one when there is one and is initialised from
    the adopted parameters and configurations otherwise, so it is never
    absent in the loop and never re-initialised; its configurations are
    the adopted ones unless the run starts from step 0 (then the burn-in
    moved them); and the acceptance window is all zeros, of length
    [adapt_frequency]. *)
Theorem start_keeps_adopted (w w' : world X) (g : Train.GenState X) :
  Train.train_loop_start env cfg w = (Ok g, w') ->
  let adopted :=
    match fst (LogManager.try_restore_checkpoint env cfg w) with
    | Ok (Some a) => a
    | _ => Train.initialize_state cfg
    end in
  params (Train.state g) = params (snd adopted)
  /\ mcmc_width (Train.state g) = mcmc_width (snd adopted)
  /\ opt_state (Train.state g) =
     Some (match opt_state (snd adopted) with
           | Some o => o
           | None =>
               opt_init X (params (snd adopted))
                 (snd (p_split X (device_keys X (PRNGKey X (Config.seed cfg)))))
                 (data (snd adopted))
           end)
  /\ (Train.initial_step g <> 0 ->
      data (Train.state g) = data (snd adopted))
  /\ Train.pmoves g =
     repeat 0%float (Z.to_nat (Config.adapt_frequency (Config.mcmc cfg)))
  /\ length (Train.pmoves g)
     = Z.to_nat (Config.adapt_frequency (Config.mcmc cfg)).
Proof.
  intros Hrun adopted.
  destruct (resolve_checkpoint_value w) as (c & Hres & Hc).
  fold adopted in Hc.
  assert (Hst : snd c = snd adopted) by (rewrite Hc; reflexivity).
  rewrite <- Hst. clear Hst Hc. clear adopted. revert Hrun.
  unfold Train.train_loop_start, Train.setup_mcmc.
  destruct (Config.adapt_frequency (Config.mcmc cfg) <? 0);
    [discriminate |].
  unfold M.bind at 1. unfold M.ret at 1. cbv beta iota.
  unfold M.bind at 1.
  destruct (Train.resolve_checkpoint env cfg w) as [[c'|e] w1];
    simpl in Hres; [| discriminate].
  injection Hres as ->. intros Hrun.
  destruct c as [s st]. cbn [snd].
  unfold M.bind at 1 in Hrun.
  destruct (opt_state st) as [o|] eqn:Hopt.
  - unfold M.ret at 1 in Hrun. cbv beta iota in Hrun.
    unfold M.bind at 1 in Hrun. unfold M.emit at 1, M.modify at 1 in Hrun.
    cbv beta iota in Hrun. unfold M.bind at 1 in Hrun.
    destruct (s =? 0) eqn:Hzero.
    + destruct (Train.burn_in_phase cfg _ _ _ _) as [[kd|e] w2];
        [| discriminate].
      injection Hrun as <- _. simpl. rewrite repeat_length.
      repeat split. intros Hne. apply Z.eqb_eq in Hzero. contradiction.
    + injection Hrun as <- _. simpl. rewrite repeat_length. repeat split.
  - destruct (p_split X _) as [k1 sub1] eqn:Hsplit.
    unfold M.bind at 1 in Hrun. unfold M.emit at 1, M.modify at 1 in Hrun.
    unfold M.ret at 1 in Hrun. cbv beta iota in Hrun.
    unfold M.bind at 1 in Hrun. unfold M.emit at 1, M.modify at 1 in Hrun.
    cbv beta iota in Hrun. unfold M.bind at 1 in Hrun.
    destruct (s =? 0) eqn:Hzero.
    + destruct (Train.burn_in_phase cfg _ _ _ _) as [[kd|e] w2];
        [| discriminate].
      injection Hrun as <- _. simpl. rewrite repeat_length.
      repeat split. intros Hne. apply Z.eqb_eq in Hzero. contradiction.
    + injection Hrun as <- _. simpl. rewrite repeat_length. repeat split.
Qed.

End Start.

(** *** Concrete runs *)

(** Three iterations checked at 3 s, 6 s and 9 s: the theorem gives the
    report, (9 - 3) / 2 = 3 s per step. *)
Lemma time_per_step_witness :
  let X := Toy.externals Toy.calm in
  let env := mkEnv X None 0%float (Toy.paced 3) (fun _ => [])
               (fun _ => []) (fun _ => []) (fun _ => false) in
  let cfg := Toy.config 3 2 4 (Some Config.kfac) (Some "ckpt") None 600 1000 in
  exists pre,
    trace (snd (Train.train env cfg (Toy.world0 X)))
    = pre ++ [EvWriterExit; EvLogInfo (LogTimePerStep 3%float)].
Proof.
  intros X env cfg.
  destruct (time_per_step env cfg (Toy.world0 X)
              (snd (Train.train env cfg (Toy.world0 X))))
    as (g & pre & Hg & Htrace).
  { rewrite (surjective_pairing (Train.train env cfg (Toy.world0 X))) at 1.
    f_equal. }
  exists pre. cbv zeta in Htrace. rewrite Htrace.
  vm_compute in Hg. injection Hg as <-. f_equal.
Defined.

(** A run restored at step 5 with a budget of 5 iterations: the theorem
    gives the normal return; nothing was saved. *)
Lemma nothing_to_do_witness :
  let X := Toy.externals Toy.calm in
  let st := mkCheckpointState 5 5 (Some 0) 0.125%float : State X in
  let env := mkEnv X (Some (5, st)) 0%float (Toy.paced 3) (fun _ => [])
               (fun _ => [])
               (fun _ => []) (fun _ => false) in
  let cfg := Toy.config 5 2 4 (Some Config.kfac) (Some "ckpt") (Some "ckpt")
               600 1000 in
  fst (Train.train env cfg (Toy.world0 X)) = Ok tt
  /\ saved (snd (Train.train env cfg (Toy.world0 X))) = [].
Proof.
  intros X st env cfg.
  destruct (Train.train_loop_start env cfg (Run.prelude env (Toy.world0 X)))
    as [[g|e] w2] eqn:Hstart.
  - pose proof Hstart as Hval. vm_compute in Hval.
    injection Hval as Hg Hw2.
    rewrite (nothing_to_do env cfg (Toy.world0 X) w2 g Hstart).
    + split; [reflexivity |]. rewrite <- Hw2. reflexivity.
    + rewrite <- Hg. vm_compute. discriminate.
  - vm_compute in Hstart. discriminate.
Defined.

(** A main loop of three iterations from a fresh state: the theorem
    gives that it ends by saving step 2, checked at 9 s, and that the
    checkpoint of step 2 is the last in the store. *)
Lemma completion_saves_last_step_witness :
  let X := Toy.externals Toy.calm in
  let env := mkEnv X None 0%float (Toy.paced 3) (fun _ => []) (fun _ => [])
               (fun _ => []) (fun _ => false) in
  let cfg := Toy.config 3 0 4 (Some Config.kfac) (Some "ckpt") None 600 1000 in
  let g := Train.mkGen (X:=X) 0 (mkCheckpointState 0 0 (Some 0) 0.125%float) 1
             [0%float; 0%float; 0%float; 0%float] in
  let w' := snd (Train.main_loop env cfg [0; 1; 2] g (Toy.world0 X)) in
  (exists pre,
     Run.own_events (trace w') =
     pre ++ [EvWriterLog 2; EvForceFlush; EvSaveCheckpoint 2])
  /\ last_save_time (frame w') = 9%float
  /\ exists pre st, saved w' = pre ++ [(2, st)].
Proof.
  intros X env cfg g w'.
  destruct (completion_saves_last_step env cfg 0 g (Toy.world0 X) w')
    as (Htrace & Htime & Hstore).
  - vm_compute. reflexivity.
  - subst w'.
    rewrite (surjective_pairing
               (Train.main_loop env cfg (py_range 0 _) g (Toy.world0 X))).
    f_equal.
  - split; [exact Htrace |]. split; [exact Htime |].
    apply Hstore. discriminate.
Defined.

(** A run of three iterations in which SIGINT is handled after the
    second [if] of the last one: [train] returns normally, step 2 is
    saved, and the stop flag is set, with the handlers of before the call
    installed again. *)
Example flag_set_after_last_read :
  let X := Toy.externals Toy.calm in
  let env := mkEnv X None 0%float (Toy.paced 3) (fun _ => []) (fun _ => [])
               (fun s => if s =? 2 then [SIGINT] else []) (fun _ => false) in
  let cfg := Toy.config 3 0 4 (Some Config.kfac) (Some "ckpt") None 600 1000 in
  let r := Train.train env cfg (Toy.world0 X) in
  fst r = Ok tt
  /\ kill_now (killer (snd r)) = true
  /\ sig_int (snd r) = default_int_handler
  /\ sig_term (snd r) = SIG_DFL
  /\ Toy.saved_steps (snd r) = [2].
Proof. vm_compute. repeat split. Qed.

(** The same loop: the theorem gives its generator events, three
    iterations with controller indices 0, 1, 2. *)
Lemma generator_order_witness :
  let X := Toy.externals Toy.calm in
  let env := mkEnv X None 0%float (Toy.paced 3) (fun _ => [])
               (fun _ => []) (fun _ => []) (fun _ => false) in
  let cfg := Toy.config 3 0 4 (Some Config.kfac) (Some "ckpt") None 600 1000 in
  let g := Train.mkGen (X:=X) 0 (mkCheckpointState 0 0 (Some 0) 0.125%float) 1
             [0%float; 0%float; 0%float; 0%float] in
  exists d,
    trace (snd (Train.main_loop env cfg [0; 1; 2] g (Toy.world0 X)))
    = trace (Toy.world0 X) ++ d
    /\ List.filter Run.is_generator d =
       [EvSampler; EvController 0; EvTrainingStep 0;
        EvSampler; EvController 1; EvTrainingStep 1;
        EvSampler; EvController 2; EvTrainingStep 2].
Proof.
  intros X env cfg g.
  destruct (generator_order env cfg [0; 1; 2]
              ltac:(vm_compute; discriminate) g (Toy.world0 X))
    as (k & d & _ & Htrace & Hgen & Hall & _).
  rewrite (Hall ltac:(vm_compute; reflexivity)) in Hgen.
  exists d. split; [exact Htrace | exact Hgen].
Defined.

(** Step 3 checked 12 s after the last recorded save time, interval
    10 s, multiple 0: the theorem gives the error. *)
Lemma zero_step_multiple_witness :
  let X := Toy.externals Toy.calm in
  let env := mkEnv X None 0%float (Toy.paced 3) (fun _ => [])
               (fun _ => []) (fun _ => []) (fun _ => false) in
  let cfg := Toy.config 100 0 4 (Some Config.kfac) (Some "ckpt") None 10 0 in
  let y := Train.mkYielded (X:=X) 3 (mkCheckpointState 4 4 (Some 0) 0.125%float)
             (Toy.calm 3) 0.5%float in
  fst (Train.train_body env cfg y (Toy.world0 X)) = Raise ZeroDivisionError.
Proof.
  intros X env cfg y.
  destruct (zero_step_multiple env cfg y (Toy.world0 X)) as (w' & Hrun & _).
  - reflexivity.
  - intros [H | [H | H]]; vm_compute in H; discriminate.
  - vm_compute. reflexivity.
  - rewrite Hrun. reflexivity.
Defined.

(** The same check with an interval of 600 s: the theorem gives that
    the multiple 0 changes nothing. *)
Lemma step_multiple_unread_witness :
  let X := Toy.externals Toy.calm in
  let env := mkEnv X None 0%float (Toy.paced 3) (fun _ => [])
               (fun _ => []) (fun _ => []) (fun _ => false) in
  let cfg := Toy.config 100 0 4 (Some Config.kfac) (Some "ckpt") None 600 1000 in
  let y := Train.mkYielded (X:=X) 3 (mkCheckpointState 4 4 (Some 0) 0.125%float)
             (Toy.calm 3) 0.5%float in
  Train.train_body env (Run.with_multiple cfg 0) y (Toy.world0 X)
  = Train.train_body env cfg y (Toy.world0 X).
Proof.
  intros X env cfg y.
  apply (step_multiple_unread env cfg 0 y (Toy.world0 X)).
  right. vm_compute. reflexivity.
Defined.

(** A checkpoint of step 500 with optimizer state 3, restored under
    [kfac]: the theorem gives that the loop holds that optimizer state,
    the restored parameters and the restored configurations. *)
Lemma start_keeps_adopted_witness :
  let X := Toy.externals Toy.calm in
  let st := mkCheckpointState 42 17 (Some 3) 0.25%float : State X in
  let env := mkEnv X (Some (500, st)) 0%float (Toy.paced 3) (fun _ => [])
               (fun _ => [])
               (fun _ => []) (fun _ => false) in
  let cfg := Toy.config 1000 200 100 (Some Config.kfac) (Some "ckpt")
               (Some "ckpt") 600 1000 in
  exists g,
    fst (Train.train_loop_start env cfg (Toy.world0 X)) = Ok g
    /\ opt_state (Train.state g) = Some 3
    /\ params (Train.state g) = 42
    /\ data (Train.state g) = 17.
Proof.
  intros X st env cfg.
  destruct (Train.train_loop_start env cfg (Toy.world0 X))
    as [[g|e] w'] eqn:Hstart.
  - exists g. split; [reflexivity |].
    destruct (start_keeps_adopted env cfg _ _ _ Hstart)
      as (Hp & _ & Ho & Hd & _).
    split; [exact Ho |]. split; [exact Hp |]. apply Hd.
    vm_compute in Hstart. injection Hstart as <- _. discriminate.
  - vm_compute in Hstart. discriminate.
Defined.

End RunFacts.

(** ** [from_dict] on dictionaries *)

Module FromDictDictFacts.
Import FromDict FromDictSpec.

Section Dict.
Variable describe : failure -> string.

(** [from_dict] on a dataclass is its [try] statement over the table of
    converters. *)
Lemma from_dict_data (n : string)
    (flds : list (string * pytype * option pyval)) (dikt : pyval) :
  from_dict describe (TData n flds) dikt
  = reraise n (try_body describe n flds (converters describe flds) dikt).
Proof. reflexivity. Qed.

Lemma converters_names (flds : list (string * pytype * option pyval)) :
  map fst (converters describe flds) = field_names flds.
Proof. unfold converters, field_names. rewrite map_map. reflexivity. Qed.

Lemma is_field_type (flds : list (string * pytype * option pyval))
    (s : string) :
  existsb (String.eqb s) (field_names flds)
  = match field_type flds s with Some _ => true | None => false end.
Proof.
  induction flds as [|f flds IH]; [reflexivity |].
  simpl. destruct (String.eqb s f.1.1); [reflexivity | exact IH].
Qed.

Lemma assoc_converters (flds : list (string * pytype * option pyval))
    (s : string) :
  assoc s (converters describe flds)
  = match field_type flds s with
    | Some (TData n' flds') =>
        Some (Some (from_dict describe (TData n' flds')))
    | Some (TPlain _) => Some None
    | None => None
    end.
Proof.
  induction flds as [|f flds IH]; [reflexivity |].
  cbn [converters map assoc field_type].
  destruct (String.eqb s f.1.1); [| exact IH].
  destruct f.1.2; reflexivity.
Qed.

(** One step of the comprehension on a string key that the dictionary
    holds. *)
Lemma comprehension_step (flds : list (string * pytype * option pyval))
    (d : list (string * pyval)) (k : string) (x : pyval)
    (keys : list pyval) (kwargs : gmap string pyval) :
  assoc k d = Some x ->
  comprehension describe (converters describe flds) (VDict d)
    (VStr k :: keys) kwargs
  = if existsb (String.eqb k) (field_names flds) then
      match field_value describe flds k x with
      | Val v =>
          comprehension describe (converters describe flds) (VDict d) keys
            (<[k := v]> kwargs)
      | Err e m => Err e m
      end
    else comprehension describe (converters describe flds) (VDict d) keys
           kwargs.
Proof.
  intros Hx. cbn [comprehension key_in]. rewrite converters_names.
  destruct (existsb (String.eqb k) (field_names flds)) eqn:Hk;
    [| reflexivity].
  cbn [getitem]. rewrite Hx, assoc_converters. unfold field_value.
  rewrite is_field_type in Hk.
  destruct (field_type flds k) as [[n'|n' flds']|]; try discriminate;
    reflexivity.
Qed.

Lemma assoc_in {A : Type} (k : string) (a : A) (l : list (string * A)) :
  assoc k l = Some a -> In (k, a) l.
Proof.
  induction l as [|[k' a'] l IH]; simpl; [discriminate |].
  destruct (String.eqb_spec k k') as [-> | _].
  - intros H. injection H as ->. left. reflexivity.
  - intros H. right. apply IH. exact H.
Qed.

Lemma assoc_none {A : Type} (k : string) (l : list (string * A)) :
  ~ In k (map fst l) -> assoc k l = None.
Proof.
  induction l as [|[k' a'] l IH]; simpl; [reflexivity |].
  intros Hnot. destruct (String.eqb_spec k k') as [-> | _]; [tauto |].
  apply IH. tauto.
Qed.

Lemma assoc_nodup {A : Type} (k : string) (a : A) (l : list (string * A)) :
  List.NoDup (map fst l) -> In (k, a) l -> assoc k l = Some a.
Proof.
  induction l as [|[k' a'] l IH]; simpl; [tauto |].
  intros Hnd [Heq | Hin].
  - injection Heq as -> ->. rewrite String.eqb_refl. reflexivity.
  - inversion Hnd as [|? ? Hnot Hnd']. subst.
    destruct (String.eqb_spec k k') as [-> | _]; [| apply IH; assumption].
    contradiction Hnot. apply (in_map fst) in Hin. exact Hin.
Qed.

(** The keyword arguments the comprehension builds over the entries [l]
    of the dictionary [d], when it returns. *)
Lemma comprehension_val (flds : list (string * pytype * option pyval))
    (d : list (string * pyval)) (l : list (string * pyval)) :
  List.NoDup (map fst l) ->
  (forall k x, In (k, x) l -> assoc k d = Some x) ->
  forall kwargs kwargs',
  comprehension describe (converters describe flds) (VDict d)
    (map (fun kv => VStr (fst kv)) l) kwargs = Val kwargs' ->
  (forall k x, In (k, x) l -> is_field flds (k, x) = true ->
     exists v, field_value describe flds k x = Val v)
  /\ (forall s,
        kwargs' !! s =
        match assoc s l with
        | Some x =>
            if existsb (String.eqb s) (field_names flds) then
              match field_value describe flds s x with
              | Val v => Some v
              | Err _ _ => None
              end
            else kwargs !! s
        | None => kwargs !! s
        end).
Proof.
  induction l as [|[k a] l IH]; intros Hnd Hd kwargs kwargs' Hrun.
  - simpl in Hrun. injection Hrun as <-. split; [intros k x [] | reflexivity].
  - inversion Hnd as [|? ? Hnot Hnd']. subst.
    cbn [map fst] in Hrun.
    rewrite (comprehension_step flds d k a) in Hrun
      by (apply Hd; left; reflexivity).
    assert (Hd' : forall k0 x, In (k0, x) l -> assoc k0 d = Some x)
      by (intros k0 x Hin; apply Hd; right; exact Hin).
    destruct (existsb (String.eqb k) (field_names flds)) eqn:Hk.
    + destruct (field_value describe flds k a) as [v|e m] eqn:Hv;
        [| discriminate].
      destruct (IH Hnd' Hd' _ _ Hrun) as [Hconv Hlook].
      split.
      * intros k0 x [Heq | Hin] Hf.
        -- injection Heq as <- <-. exists v. exact Hv.
        -- apply Hconv; assumption.
      * intros s. rewrite Hlook. cbn [assoc].
        destruct (String.eqb_spec s k) as [-> | Hne].
        -- rewrite (assoc_none k l Hnot), Hk, Hv.
           apply lookup_insert_eq.
        -- rewrite lookup_insert_ne by congruence. reflexivity.
    + destruct (IH Hnd' Hd' _ _ Hrun) as [Hconv Hlook].
      split.
      * intros k0 x [Heq | Hin] Hf.
        -- injection Heq as <- <-. unfold is_field in Hf. simpl in Hf.
           congruence.
        -- apply Hconv; assumption.
      * intros s. rewrite Hlook. cbn [assoc].
        destruct (String.eqb_spec s k) as [-> | Hne]; [| reflexivity].
        rewrite (assoc_none k l Hnot), Hk. reflexivity.
Qed.

(** The comprehension returns when every value it must store can be. *)
Lemma comprehension_ok (flds : list (string * pytype * option pyval))
    (d : list (string * pyval)) (l : list (string * pyval)) :
  (forall k x, In (k, x) l -> is_field flds (k, x) = true ->
     exists x' v, assoc k d = Some x'
                  /\ field_value describe flds k x' = Val v) ->
  (forall k x, In (k, x) l -> assoc k d <> None) ->
  forall kwargs,
  exists kwargs',
    comprehension describe (converters describe flds) (VDict d)
      (map (fun kv => VStr (fst kv)) l) kwargs = Val kwargs'.
Proof.
  induction l as [|[k a] l IH]; intros Hconv Hkeys kwargs.
  - exists kwargs. reflexivity.
  - cbn [map fst].
    destruct (assoc k d) as [x'|] eqn:Hx;
      [| contradiction (Hkeys k a (or_introl eq_refl))].
    rewrite (comprehension_step flds d k x' _ _ Hx).
    assert (Hconv' : forall k0 x, In (k0, x) l ->
              is_field flds (k0, x) = true ->
              exists x0 v, assoc k0 d = Some x0
                           /\ field_value describe flds k0 x0 = Val v)
      by (intros k0 x Hin; apply Hconv; right; exact Hin).
    assert (Hkeys' : forall k0 x, In (k0, x) l -> assoc k0 d <> None)
      by (intros k0 x Hin; apply (Hkeys k0 x); right; exact Hin).
    destruct (existsb (String.eqb k) (field_names flds)) eqn:Hk.
    + destruct (Hconv k a (or_introl eq_refl) Hk) as (x0 & v & Hx0 & Hv).
      rewrite Hx in Hx0. injection Hx0 as <-. rewrite Hv.
      apply IH; assumption.
    + apply IH; assumption.
Qed.

Lemma filter_nil_forall {A : Type} (P : A -> Prop)
    `{!forall x, Decision (P x)} (l : list A) :
  filter P l = [] <-> forall x, In x l -> ~ P x.
Proof.
  induction l as [|a l IH].
  - split; [intros _ x [] | reflexivity].
  - rewrite filter_cons. destruct (decide (P a)) as [Ha | Ha].
    + split; [discriminate |]. intros Hall.
      contradiction (Hall a (or_introl eq_refl)).
    + rewrite IH. split.
      * intros Hall x [<- | Hin]; [exact Ha | apply Hall; exact Hin].
      * intros Hall x Hin. apply Hall. right. exact Hin.
Qed.

(** The constructor returns exactly when no field lacks both a keyword
    argument and a default; each attribute is then the argument, else
    the default. *)
Lemma construct_val (n : string)
    (flds : list (string * pytype * option pyval))
    (kwargs : gmap string pyval) (v : pyval) :
  construct describe n flds kwargs = Val v <->
  (forall f, In f flds -> kwargs !! f.1.1 = None -> f.2 <> None)
  /\ v = VObj n
           (map (fun f : string * pytype * option pyval =>
                   (f.1.1,
                    match kwargs !! f.1.1 with
                    | Some x => x
                    | None => default VNone f.2
                    end)) flds).
Proof.
  unfold construct.
  destruct (filter _ flds) as [|f0 missing] eqn:Hmiss.
  - rewrite filter_nil_forall in Hmiss. split.
    + intros H. injection H as <-. split; [| reflexivity].
      intros f Hin Hkw Hdef. apply (Hmiss f Hin). split; assumption.
    + intros [_ ->]. reflexivity.
  - split; [discriminate |]. intros [Hall _].
    assert (Hin : In f0 (filter
                           (fun f : string * pytype * option pyval =>
                              kwargs !! f.1.1 = None /\ f.2 = None) flds))
      by (rewrite Hmiss; left; reflexivity).
    apply list_elem_of_In, list_elem_of_filter in Hin.
    destruct Hin as [[Hkw Hdef] Hin]. apply list_elem_of_In in Hin.
    contradiction (Hall f0 Hin Hkw Hdef).
Qed.

Lemma in_field_names (flds : list (string * pytype * option pyval))
    (f : string * pytype * option pyval) :
  In f flds -> existsb (String.eqb f.1.1) (field_names flds) = true.
Proof.
  intros Hin. apply existsb_exists. exists f.1.1.
  split; [| apply String.eqb_refl].
  unfold field_names.
  apply (in_map (fun g : string * pytype * option pyval => fst (fst g))).
  exact Hin.
Qed.

(** The attributes built from the keyword arguments of the comprehension
    are the expected ones. *)
Lemma attrs_expected (flds : list (string * pytype * option pyval))
    (d : list (string * pyval)) (kwargs : gmap string pyval) :
  (forall k x, In (k, x) d -> is_field flds (k, x) = true ->
     exists v, field_value describe flds k x = Val v) ->
  (forall s,
     kwargs !! s =
     match assoc s d with
     | Some x =>
         if existsb (String.eqb s) (field_names flds) then
           match field_value describe flds s x with
           | Val v => Some v
           | Err _ _ => None
           end
         else (∅ : gmap string pyval) !! s
     | None => (∅ : gmap string pyval) !! s
     end) ->
  forall f, In f flds ->
    match kwargs !! f.1.1 with
    | Some x => x
    | None => default VNone f.2
    end = expected_attr describe flds d f
    /\ (kwargs !! f.1.1 = None <-> assoc f.1.1 d = None).
Proof.
  intros Hconv Hlook f Hin. rewrite Hlook. unfold expected_attr.
  rewrite (in_field_names flds f Hin).
  destruct (assoc f.1.1 d) as [x|] eqn:Hx.
  - destruct (Hconv f.1.1 x (assoc_in _ _ _ Hx)) as [v Hv].
    { unfold is_field. simpl. apply in_field_names. exact Hin. }
    rewrite Hv. split; [reflexivity | split; discriminate].
  - rewrite lookup_empty. split; [reflexivity | split; reflexivity].
Qed.

(** When [from_dict] returns on a dictionary with distinct keys: what
    the dictionary satisfied, and the instance. *)
Lemma from_dict_dict_val (n : string)
    (flds : list (string * pytype * option pyval))
    (d : list (string * pyval)) (v : pyval) :
  List.NoDup (map fst d) ->
  from_dict describe (TData n flds) (VDict d) = Val v ->
  required_present flds d
  /\ values_convert describe flds d
  /\ v = expected describe n flds d.
Proof.
  intros Hnd. rewrite from_dict_data. unfold try_body. cbn [iter_keys].
  assert (Hd : forall k x, In (k, x) d -> assoc k d = Some x)
    by (intros k x; apply assoc_nodup; exact Hnd).
  destruct (comprehension describe _ (VDict d) _ ∅) as [kw|e m] eqn:Hcomp;
    [| discriminate].
  destruct (comprehension_val flds d d Hnd Hd _ _ Hcomp) as [Hconv Hlook].
  cbn [reraise].
  destruct (construct describe n flds kw) as [v'|e m] eqn:Hcons;
    [| discriminate].
  cbn [reraise]. intros H. injection H as <-.
  apply construct_val in Hcons. destruct Hcons as [Hreq ->].
  split; [| split].
  - intros f Hin Hdef Hnone.
    destruct (attrs_expected flds d kw Hconv Hlook f Hin) as [_ Hiff].
    apply Hiff in Hnone. contradiction (Hreq f Hin Hnone Hdef).
  - intros k x Hx Hf. apply Hconv; [apply assoc_in; exact Hx | exact Hf].
  - unfold expected. f_equal. apply map_ext_in. intros f Hin.
    f_equal. apply (attrs_expected flds d kw Hconv Hlook f Hin).
Qed.

(** When the required keys are there and the values convert,
    [from_dict] returns the expected instance. *)
Lemma from_dict_dict_ok (n : string)
    (flds : list (string * pytype * option pyval))
    (d : list (string * pyval)) :
  List.NoDup (map fst d) ->
  required_present flds d ->
  values_convert describe flds d ->
  from_dict describe (TData n flds) (VDict d)
  = Val (expected describe n flds d).
Proof.
  intros Hnd Hreq Hconv. rewrite from_dict_data. unfold try_body.
  cbn [iter_keys].
  assert (Hd : forall k x, In (k, x) d -> assoc k d = Some x)
    by (intros k x; apply assoc_nodup; exact Hnd).
  assert (Hconv' : forall k x, In (k, x) d -> is_field flds (k, x) = true ->
            exists v, field_value describe flds k x = Val v)
    by (intros k x Hin Hf; apply Hconv; [apply Hd; exact Hin | exact Hf]).
  destruct (comprehension_ok flds d d) with (kwargs := (∅ : gmap string pyval))
    as [kw Hcomp].
  { intros k x Hin Hf. destruct (Hconv' k x Hin Hf) as [v Hv].
    exists x, v. split; [apply Hd; exact Hin | exact Hv]. }
  { intros k x Hin. rewrite (Hd k x Hin). discriminate. }
  rewrite Hcomp.
  destruct (comprehension_val flds d d Hnd Hd _ _ Hcomp) as [_ Hlook].
  cbn [reraise].
  assert (Hcons : construct describe n flds kw
                  = Val (expected describe n flds d)).
  { apply construct_val. split.
    - intros f Hin Hnone Hdef.
      destruct (attrs_expected flds d kw Hconv' Hlook f Hin) as [_ Hiff].
      apply Hiff in Hnone. contradiction (Hreq f Hin Hdef Hnone).
    - unfold expected. f_equal. apply map_ext_in. intros f Hin.
      f_equal. symmetry.
      apply (attrs_expected flds d kw Hconv' Hlook f Hin). }
  rewrite Hcons. reflexivity.
Qed.

(** X10. [from_dict] on a dictionary, completely.  For a dataclass and a
    dictionary with distinct keys, [from_dict] returns an instance
    exactly when every field without a default is a key of the
    dictionary and every value under a key naming a dataclass-annotated
    field converts; the instance then has, for each field in order, the
    converted value when the field is annotated with a dataclass, the
    value of the dictionary as it is otherwise (it is not checked
    against the annotation), and the default when the key is absent. *)
Theorem from_dict_on_dict (n : string)
    (flds : list (string * pytype * option pyval))
    (d : list (string * pyval)) (v : pyval) :
  List.NoDup (map fst d) ->
  from_dict describe (TData n flds) (VDict d) = Val v <->
  required_present flds d
  /\ values_convert describe flds d
  /\ v = expected describe n flds d.
Proof.
  intros Hnd. split.
  - apply from_dict_dict_val. exact Hnd.
  - intros (Hreq & Hconv & ->). apply from_dict_dict_ok; assumption.
Qed.

Lemma assoc_perm {A : Type} (k : string) (d d' : list (string * A)) :
  List.NoDup (map fst d) -> Permutation d d' -> assoc k d = assoc k d'.
Proof.
  intros Hnd Hperm.
  assert (Hnd' : List.NoDup (map fst d'))
    by (eapply Permutation_NoDup; [apply Permutation_map; exact Hperm
                                  | exact Hnd]).
  destruct (assoc k d) as [a|] eqn:Ha.
  - symmetry. apply assoc_nodup; [exact Hnd' |].
    eapply Permutation_in; [exact Hperm | apply assoc_in; exact Ha].
  - destruct (assoc k d') as [a'|] eqn:Ha'; [| reflexivity].
    apply assoc_in in Ha'.
    apply (Permutation_in _ (Permutation_sym Hperm)) in Ha'.
    rewrite (assoc_nodup _ _ _ Hnd Ha') in Ha. discriminate.
Qed.

(** X11. The order of the keys does not matter for the instance.  Two
    dictionaries with distinct keys and the same entries in another
    order give the same instance, when either gives one.  (Which error
    is raised when both fail can depend on the order.) *)
Theorem from_dict_key_order (n : string)
    (flds : list (string * pytype * option pyval))
    (d d' : list (string * pyval)) (v : pyval) :
  List.NoDup (map fst d) -> Permutation d d' ->
  from_dict describe (TData n flds) (VDict d) = Val v <->
  from_dict describe (TData n flds) (VDict d') = Val v.
Proof.
  intros Hnd Hperm.
  assert (Hnd' : List.NoDup (map fst d'))
    by (eapply Permutation_NoDup; [apply Permutation_map; exact Hperm
                                  | exact Hnd]).
  assert (Hassoc : forall k, assoc k d = assoc k d')
    by (intros k; apply assoc_perm; assumption).
  assert (Hiff : forall e, List.NoDup (map fst e) ->
            from_dict describe (TData n flds) (VDict e) = Val v <->
            required_present flds e
            /\ values_convert describe flds e
            /\ v = expected describe n flds e).
  { intros e He. split; [apply from_dict_dict_val; exact He |].
    intros (Hr & Hc & ->). apply from_dict_dict_ok; assumption. }
  rewrite (Hiff d Hnd), (Hiff d' Hnd').
  assert (Hexp : expected describe n flds d = expected describe n flds d').
  { unfold expected. f_equal. apply map_ext. intros f.
    unfold expected_attr. rewrite Hassoc. reflexivity. }
  unfold required_present, values_convert. rewrite Hexp.
  split; intros (Hreq & Hconv & Hv);
    (split; [| split; [| exact Hv]]).
  - intros f Hin Hdef. rewrite <- Hassoc. apply Hreq; assumption.
  - intros k x Hx. apply Hconv. rewrite Hassoc. exact Hx.
  - intros f Hin Hdef. rewrite Hassoc. apply Hreq; assumption.
  - intros k x Hx. apply Hconv. rewrite <- Hassoc. exact Hx.
Qed.

(** Keys that name no field leave the keyword arguments as they are,
    whatever is iterated. *)
Lemma comprehension_skip
    (conv : list (string * option (pyval -> res pyval))) (dikt : pyval)
    (keys : list pyval) (kwargs : gmap string pyval) :
  forallb (names_no_field (map fst conv)) keys = true ->
  comprehension describe conv dikt keys kwargs = Val kwargs.
Proof.
  induction keys as [|f keys IH]; [reflexivity |].
  cbn [forallb]. intros H. apply andb_prop in H. destruct H as [Hf Hrest].
  cbn [comprehension].
  destruct f; cbn [names_no_field key_in] in *; try discriminate;
    try (apply IH; exact Hrest).
  apply negb_true_iff in Hf. rewrite Hf. apply IH. exact Hrest.
Qed.

(** X12. Values that are not dictionaries.  Given [None], a boolean, a
    number or an object where a dictionary is expected, [from_dict]
    raises the [ValueError] that names the class and carries the
    interpreter's "not iterable" message.  Given a list whose items are
    hashable and name no field, or a string when no field has a
    one-character name, it does not fail for that: it returns what the
    empty dictionary gives. *)
Theorem from_dict_non_mapping (n : string)
    (flds : list (string * pytype * option pyval)) :
  (forall v, not_iterable v = true ->
     from_dict describe (TData n flds) v
     = Err ValueError
         (String.append (error_prefix (TData n flds))
            (describe (NotIterable v))))
  /\ (forall l, forallb (names_no_field (field_names flds)) l = true ->
        from_dict describe (TData n flds) (VList l)
        = from_dict describe (TData n flds) (VDict []))
  /\ (forall s,
        (forall name, In name (field_names flds) ->
           String.length name <> 1%nat) ->
        from_dict describe (TData n flds) (VStr s)
        = from_dict describe (TData n flds) (VDict [])).
Proof.
  split; [| split].
  - intros v Hv. rewrite from_dict_data. unfold try_body, error_prefix.
    destruct v; try discriminate; cbn [iter_keys reraise type_name];
      rewrite !FromDictFacts.append_assoc; reflexivity.
  - intros l Hl. rewrite !from_dict_data. unfold try_body. cbn [iter_keys map].
    rewrite comprehension_skip by (rewrite converters_names; exact Hl).
    reflexivity.
  - intros s Hlen. rewrite !from_dict_data. unfold try_body.
    cbn [iter_keys map].
    rewrite comprehension_skip; [reflexivity |].
    rewrite converters_names. apply forallb_forall. intros k Hin.
    apply in_map_iff in Hin. destruct Hin as (c & <- & _).
    cbn [names_no_field]. apply negb_true_iff.
    destruct (existsb _ (field_names flds)) eqn:Hex; [| reflexivity].
    apply existsb_exists in Hex. destruct Hex as (name & Hname & Heq).
    apply String.eqb_eq in Heq. subst name.
    contradiction (Hlen _ Hname). reflexivity.
Qed.

(** Induction on a class through the types of its fields. *)
Lemma pytype_fields_ind (P : pytype -> Prop) :
  (forall n, P (TPlain n)) ->
  (forall n flds, Forall (fun f => P f.1.2) flds -> P (TData n flds)) ->
  forall cls, P cls.
Proof.
  intros Hplain Hdata. fix IH 1. intros [n | n flds].
  - apply Hplain.
  - apply Hdata. induction flds as [|f flds IHflds]; constructor.
    + apply IH.
    + exact IHflds.
Qed.

Lemma field_type_in (flds : list (string * pytype * option pyval))
    (s : string) (c : pytype) :
  field_type flds s = Some c -> exists f, In f flds /\ f.1.2 = c.
Proof.
  induction flds as [|f flds IH]; simpl; [discriminate |].
  destruct (String.eqb s f.1.1).
  - intros H. injection H as <-. exists f. split; [left |]; reflexivity.
  - intros H. destruct (IH H) as (f' & Hin & Hc). exists f'.
    split; [right; exact Hin | exact Hc].
Qed.

Lemma in_assoc_some {A : Type} (k : string) (a : A) (l : list (string * A)) :
  In (k, a) l -> assoc k l <> None.
Proof.
  induction l as [|[k' a'] l IH]; simpl; [tauto |].
  intros [Heq | Hin].
  - injection Heq as -> ->. rewrite String.eqb_refl. discriminate.
  - destruct (String.eqb k k'); [discriminate | apply IH; exact Hin].
Qed.

(** X13. A class with defaults throughout loads any partial
    dictionary.  If every field of a class has a default, and so on
    through the dataclasses its fields are annotated with, then
    [from_dict] returns an instance for every dictionary whose values
    under the keys of dataclass-annotated fields are, recursively,
    dictionaries: keys may be missing or unknown at any level. *)
Theorem from_dict_partial (cls : pytype) :
  all_defaults cls = true ->
  forall v, sections_ok v cls = true ->
  exists obj, from_dict describe cls v = Val obj.
Proof.
  induction cls as [n | n flds IH] using pytype_fields_ind;
    intros Hdef v Hsec.
  - destruct v; discriminate.
  - destruct v as [| | | | | |d|]; try discriminate.
    cbn [all_defaults] in Hdef. cbn [sections_ok] in Hsec.
    rewrite forallb_forall in Hdef, Hsec. rewrite Forall_forall in IH.
    rewrite from_dict_data. unfold try_body. cbn [iter_keys].
    destruct (comprehension_ok flds d d) with (kwargs := (∅ : gmap string pyval))
      as [kw Hcomp].
    + intros k x Hin Hf.
      destruct (assoc k d) as [x'|] eqn:Hx;
        [| contradiction (in_assoc_some k x d Hin)].
      exists x'. unfold field_value.
      specialize (Hsec (k, x') (assoc_in _ _ _ Hx)). cbn [fst snd] in Hsec.
      destruct (field_type flds k) as [[n' | n' flds']|] eqn:Hty;
        try (eexists; split; reflexivity).
      destruct (field_type_in flds k _ Hty) as (f & Hfin & Hfty).
      specialize (Hdef f Hfin). apply andb_prop in Hdef.
      destruct Hdef as [_ Hdef]. rewrite Hfty in Hdef.
      destruct (IH f (proj2 (list_elem_of_In _ _) Hfin)) with (v := x')
        as [obj Hobj]; rewrite ?Hfty; try assumption.
      exists obj. split; [reflexivity |]. rewrite Hfty in Hobj. exact Hobj.
    + intros k x Hin. apply (in_assoc_some k x d Hin).
    + rewrite Hcomp. cbn [reraise].
      destruct (construct describe n flds kw) as [obj|e m] eqn:Hcons.
      * exists obj. reflexivity.
      * exfalso. unfold construct in Hcons.
        destruct (filter _ flds) as [|f0 missing] eqn:Hmiss;
          [discriminate |].
        assert (Hin : In f0 (filter
                               (fun f : string * pytype * option pyval =>
                                  kw !! f.1.1 = None /\ f.2 = None) flds))
          by (rewrite Hmiss; left; reflexivity).
        apply list_elem_of_In, list_elem_of_filter in Hin.
        destruct Hin as [[_ Hnone] Hin]. apply list_elem_of_In in Hin.
        specialize (Hdef f0 Hin). rewrite Hnone in Hdef. discriminate.
Qed.

End Dict.

(** *** Concrete dictionaries *)

(** [Log] from a dictionary with one known and one unknown key: the
    theorem gives the instance, the path taken from the dictionary and
    the rest from the defaults. *)
Lemma from_dict_on_dict_witness :
  from_dict describe0 Log
    (VDict [("save_path", VStr "ckpt"); ("colour", VInt 3)])
  = Val (VObj "Log"
           [("save_path", VStr "ckpt"); ("restore_path", VNone);
            ("save_time_interval", VInt 600);
            ("save_step_interval", VInt 1000);
            ("initial_energy", VBool true)]).
Proof.
  apply (from_dict_on_dict describe0 "Log").
  - repeat constructor; simpl; intuition discriminate.
  - split; [| split; [| reflexivity]].
    + intros f Hin Hdef. simpl in Hin.
      repeat destruct Hin as [<- | Hin]; try discriminate. destruct Hin.
    + intros k x _ _. unfold field_value. cbn [field_type fst snd].
      repeat match goal with
             | |- context [String.eqb k ?s] => destruct (String.eqb k s)
             end; eexists; reflexivity.
Defined.

(** The same entries in the other order: the theorem gives that the
    instance is the same. *)
Lemma from_dict_key_order_witness :
  from_dict describe0 Log
    (VDict [("colour", VInt 3); ("save_path", VStr "ckpt")])
  = Val (VObj "Log"
           [("save_path", VStr "ckpt"); ("restore_path", VNone);
            ("save_time_interval", VInt 600);
            ("save_step_interval", VInt 1000);
            ("initial_energy", VBool true)]).
Proof.
  apply (from_dict_key_order describe0 "Log" _
           [("save_path", VStr "ckpt"); ("colour", VInt 3)]).
  - repeat constructor; simpl; intuition discriminate.
  - apply perm_swap.
  - vm_compute. reflexivity.
Defined.

(** [Log] from the string ["abc"]: the theorem gives that it is taken
    for the empty dictionary. *)
Lemma from_dict_non_mapping_witness :
  from_dict describe0 Log (VStr "abc") = from_dict describe0 Log (VDict []).
Proof.
  destruct (from_dict_non_mapping describe0 "Log"
              [("save_path", TPlain "str | None", Some VNone);
               ("restore_path", TPlain "str | None", Some VNone);
               ("save_time_interval", TPlain "int", Some (VInt 600));
               ("save_step_interval", TPlain "int", Some (VInt 1000));
               ("initial_energy", TPlain "bool", Some (VBool true))])
    as (_ & _ & Hstr).
  apply Hstr. intros name Hin. simpl in Hin.
  repeat destruct Hin as [<- | Hin]; try discriminate. destruct Hin.
Defined.

(** [Optim] of [config.py] from a dictionary that only sets the rate of
    the KFAC learning rate and has an unknown key: the theorem gives
    that it loads. *)
Lemma from_dict_partial_witness :
  exists obj,
    from_dict describe0 Optim
      (VDict [("kfac", VDict [("lr", VDict [("rate", VFloat 0.25)])]);
              ("unknown", VInt 1)])
    = Val obj.
Proof.
  apply (from_dict_partial describe0 Optim); reflexivity.
Defined.

End FromDictDictFacts.
